(** * Rush-PH Messenger: the train-schedule scraper

    A shallow embedding of [src/scraper/playwright-rush-scraper.js]
    (class [PlaywrightRushScraper]) and of the cache diagnostics and the
    minutes-away computation of the Puppeteer-era class [RushScraper],
    followed by the properties of the extraction-and-resilience engine.

    The development then goes on to the code around the scraper: the rest
    of [RushScraper] (its browser session, its three extraction strategies
    and its fallback), the class [StationManager] (station table,
    validation, suggestions by edit distance, routes), the input helpers
    [cleanUserInput] and [isGreeting] of [src/utils/helpers.js], and the
    session store of the class [ConversationHandler].

    Conventions of the embedding.
    - A JavaScript string is a Rocq [string]; each character is one code
      unit below 256 (the Latin-1 range), which covers the station names,
      line names and time tokens the scraper handles.
    - A JavaScript number that the code keeps integral is a [Z]; the 32-bit
      wrap-around of the bit operators is written out ([toInt32]).
    - An instant ([Date]) is its number of milliseconds since the epoch.
      Local time is UTC shifted by a fixed offset of the host (no daylight
      saving changes).  All clock reads of one synchronous stretch of code
      are one instant.
    - An [async] function returns a [completion]: the promise resolves
      with a value or rejects with an error.  [this] is passed and returned
      explicitly. *)

From Stdlib Require Import ZArith List String Ascii Bool Lia.
Import ListNotations.

Local Open Scope string_scope.
Local Open Scope Z_scope.

(** ** JavaScript primitives used by the scraper *)

Module JS.

(** *** 32-bit integers *)

(** [ToInt32]: the signed 32-bit value a bit operator sees. *)
Definition toInt32 (z : Z) : Z := (z + 2 ^ 31) mod 2 ^ 32 - 2 ^ 31.

(** [a << n] *)
Definition shl (a n : Z) : Z := toInt32 (Z.shiftl (toInt32 a) n).

(** [a & b] *)
Definition band (a b : Z) : Z := Z.land (toInt32 a) (toInt32 b).

(** [a % b] on integers: the sign follows the dividend. *)
Definition rem (a b : Z) : Z := Z.rem a b.

(** *** Characters *)

Definition charCode (c : ascii) : Z := Z.of_nat (nat_of_ascii c).

Definition inRange (lo hi : Z) (c : ascii) : bool :=
  (lo <=? charCode c) && (charCode c <=? hi).

(** [\d] *)
Definition isDigit (c : ascii) : bool := inRange 48 57 c.

(** [\w]: letters, digits and the underscore. *)
Definition isWordChar (c : ascii) : bool :=
  inRange 97 122 c || inRange 65 90 c || isDigit c || (charCode c =? 95).

(** [\s] and the white space removed by [trim], [parseInt] and [Number]:
    tab, line feed, vertical tab, form feed, carriage return, space and
    the no-break space. *)
Definition isSpace (c : ascii) : bool :=
  inRange 9 13 c || (charCode c =? 32) || (charCode c =? 160).

(** Upper-case letters of Latin-1: A-Z and the accented capitals
    (0xC0-0xDE without the multiplication sign 0xD7). *)
Definition isUpper (c : ascii) : bool :=
  inRange 65 90 c || (inRange 192 222 c && negb (charCode c =? 215)).

(** Lower-case letters of Latin-1 that have a capital in Latin-1. *)
Definition isLower (c : ascii) : bool :=
  inRange 97 122 c || (inRange 224 254 c && negb (charCode c =? 247)).

Definition lowerChar (c : ascii) : ascii :=
  if isUpper c then ascii_of_nat (nat_of_ascii c + 32) else c.

Definition upperChar (c : ascii) : ascii :=
  if isLower c then ascii_of_nat (nat_of_ascii c - 32) else c.

(** *** Strings *)

Fixpoint mapString (f : ascii -> ascii) (s : string) : string :=
  match s with
  | EmptyString => EmptyString
  | String c s' => String (f c) (mapString f s')
  end.

(** [s.toLowerCase()] *)
Definition toLowerCase (s : string) : string := mapString lowerChar s.

(** [s.toUpperCase()].  The three lower-case letters of Latin-1 whose
    capital lies outside Latin-1 (sharp s, y with diaeresis, micro sign)
    are left as they are; none of them occurs in a string the scraper
    searches for. *)
Definition toUpperCase (s : string) : string := mapString upperChar s.

Fixpoint trimStart (s : string) : string :=
  match s with
  | EmptyString => EmptyString
  | String c s' => if isSpace c then trimStart s' else s
  end.

(** Removes trailing white space: a space is dropped when nothing but
    white space follows it. *)
Fixpoint trimEnd (s : string) : string :=
  match s with
  | EmptyString => EmptyString
  | String c s' =>
      match trimEnd s' with
      | EmptyString => if isSpace c then EmptyString else String c EmptyString
      | t => String c t
      end
  end.

(** [s.trim()] *)
Definition trim (s : string) : string := trimEnd (trimStart s).

(** [s.includes(needle)] *)
Fixpoint includes (s needle : string) : bool :=
  String.prefix needle s ||
  match s with
  | EmptyString => false
  | String _ s' => includes s' needle
  end.

(** [s.substring(0, n)] *)
Definition substring0 (n : nat) (s : string) : string := String.substring 0 n s.

(** [s.split(sep)] for a separator that matches exactly one character:
    [isSep] says which.  The result always has at least one part. *)
Fixpoint splitOn (isSep : ascii -> bool) (s : string) : list string :=
  match s with
  | EmptyString => [EmptyString]
  | String c s' =>
      if isSep c then EmptyString :: splitOn isSep s'
      else match splitOn isSep s' with
           | [] => [String c EmptyString]
           | p :: ps => String c p :: ps
           end
  end.

(** *** Numbers from strings *)

Definition digitValue (c : ascii) : Z := charCode c - 48.

(** Value of a hexadecimal digit, if [c] is one. *)
Definition hexValue (c : ascii) : option Z :=
  if isDigit c then Some (charCode c - 48)
  else if inRange 97 102 c then Some (charCode c - 87)
  else if inRange 65 70 c then Some (charCode c - 55)
  else None.

(** Reads the longest prefix of digits of the radix; [None] when there is
    no digit at all. *)
Fixpoint readDigits (radix : Z) (acc : option Z) (s : string) : option Z :=
  match s with
  | EmptyString => acc
  | String c s' =>
      match hexValue c with
      | Some v =>
          if v <? radix
          then readDigits radix
                 (Some (match acc with Some a => a * radix + v | None => v end)) s'
          else acc
      | None => acc
      end
  end.

(** [parseInt(s)] with no radix argument; [None] is [NaN].
    Leading white space is skipped, a sign is read, a [0x] prefix selects
    base 16, and the longest run of digits is the value.  The value is
    exact here; JavaScript rounds it to a double beyond [2^53], which no
    comparison below can tell apart. *)
Definition parseInt (s : string) : option Z :=
  let s1 := trimStart s in
  let '(sign, s2) :=
    match s1 with
    | String "-" r => (-1, r)
    | String "+" r => (1, r)
    | _ => (1, s1)
    end in
  let '(radix, s3) :=
    match s2 with
    | String "0" (String "x" r) => (16, r)
    | String "0" (String "X" r) => (16, r)
    | _ => (10, s2)
    end in
  match readDigits radix None s3 with
  | Some v => Some (sign * v)
  | None => None
  end.

Fixpoint allDigits (s : string) : bool :=
  match s with
  | EmptyString => true
  | String c s' => isDigit c && allDigits s'
  end.

(** [Number(s)] on the strings whose value is an integer written in
    decimal: white space is trimmed, the empty string is [0], an optional
    sign precedes the digits.  [None] stands for every other string: [NaN],
    or a literal (a fraction, an exponent, a radix prefix) that this
    development does not evaluate. *)
Definition Number (s : string) : option Z :=
  let t := trim s in
  match t with
  | EmptyString => Some 0
  | String "-" r =>
      if allDigits r then option_map Z.opp (readDigits 10 None r) else None
  | String "+" r => if allDigits r then readDigits 10 None r else None
  | _ => if allDigits t then readDigits 10 None t else None
  end.

(** *** Decimal output, for the date formats *)

Definition digitChar (d : Z) : ascii := ascii_of_nat (Z.to_nat (48 + d mod 10)).

(** The [width] lowest decimal digits of [n], zero padded. *)
Fixpoint pad (width : nat) (n : Z) : string :=
  match width with
  | O => EmptyString
  | S w => (pad w (n / 10) ++ String (digitChar n) EmptyString)%string
  end.

End JS.

(** ** The regular expressions of the scraper

    Each pattern of the source is a matcher over the characters that remain,
    given the character before the position ([None] at the start of the
    text), so that [\b] can be decided.  A matcher returns the first capture
    group and the text after the match; alternatives are tried in the
    engine's order (greedy first, then backtracking). *)

Module Regex.
Import JS.

Definition chars := list ascii.

Definition isWord (c : option ascii) : bool :=
  match c with Some a => isWordChar a | None => false end.

(** [\b] between [prev] and the head of [rest]. *)
Definition wordBoundary (prev : option ascii) (rest : chars) : bool :=
  xorb (isWord prev) (isWord (hd_error rest)).

(** [(\d{1,2}SEP\d{2})] with two leading digits. *)
Definition clock2 (sep : ascii) (s : chars) : option (chars * ascii * chars) :=
  match s with
  | d1 :: d2 :: c :: d3 :: d4 :: rest =>
      if isDigit d1 && isDigit d2 && Ascii.eqb c sep && isDigit d3 && isDigit d4
      then Some ([d1; d2; c; d3; d4], d4, rest) else None
  | _ => None
  end.

(** [(\d{1,2}SEP\d{2})] with one leading digit. *)
Definition clock1 (sep : ascii) (s : chars) : option (chars * ascii * chars) :=
  match s with
  | d1 :: c :: d3 :: d4 :: rest =>
      if isDigit d1 && Ascii.eqb c sep && isDigit d3 && isDigit d4
      then Some ([d1; c; d3; d4], d4, rest) else None
  | _ => None
  end.

(** [AM|PM] under the [i] flag. *)
Definition meridiem (s : chars) : option (ascii * chars) :=
  match s with
  | a :: m :: rest =>
      if (Ascii.eqb (upperChar a) "A" || Ascii.eqb (upperChar a) "P")
         && Ascii.eqb (upperChar m) "M" && inRange 0 127 a && inRange 0 127 m
      then Some (m, rest) else None
  | _ => None
  end.

(** [(AM|PM)?\b] at this position: with the meridiem first, then without. *)
Definition meridiemThenBoundary (prev : ascii) (s : chars) : option chars :=
  match meridiem s with
  | Some (m, rest) =>
      if wordBoundary (Some m) rest then Some rest
      else if wordBoundary (Some prev) s then Some s else None
  | None => if wordBoundary (Some prev) s then Some s else None
  end.

(** [\s*(AM|PM)?\b]: the longest run of white space is tried first. *)
Fixpoint tail12h (prev : ascii) (s : chars) : option chars :=
  match s with
  | c :: s' =>
      if isSpace c
      then match tail12h c s' with
           | Some rest => Some rest
           | None => meridiemThenBoundary prev s
           end
      else meridiemThenBoundary prev s
  | [] => meridiemThenBoundary prev s
  end.

(** The three time patterns of [_extractTrainDataFromPage]. *)
Inductive timePattern :=
| Hour12      (* /\b(\d{1,2}:\d{2})\s*(AM|PM)?\b/gi *)
| Hour24      (* /\b(\d{1,2}:\d{2})\b/g *)
| European.   (* /\b(\d{1,2}\.\d{2})\b/g *)

Definition separator (p : timePattern) : ascii :=
  match p with European => "." | _ => ":" end.

(** What follows the capture group in each pattern. *)
Definition tailOf (p : timePattern) (last : ascii) (rest : chars) : option chars :=
  match p with
  | Hour12 => tail12h last rest
  | _ => if wordBoundary (Some last) rest then Some rest else None
  end.

Definition withTail (p : timePattern) (m : option (chars * ascii * chars))
  : option (chars * chars) :=
  match m with
  | Some (group, last, rest) =>
      match tailOf p last rest with
      | Some rest' => Some (group, rest')
      | None => None
      end
  | None => None
  end.

(** One match attempt at a position: [(capture, text after the match)]. *)
Definition matchAt (p : timePattern) (prev : option ascii) (s : chars)
  : option (chars * chars) :=
  if wordBoundary prev s then
    match withTail p (clock2 (separator p) s) with
    | Some r => Some r
    | None => withTail p (clock1 (separator p) s)
    end
  else None.

(** [Array.from(text.matchAll(pattern))], keeping the first capture group
    of each match.  [skip] counts the characters of the current match that
    are still to be passed over. *)
Fixpoint scan (p : timePattern) (skip : nat) (prev : option ascii) (s : chars)
  : list string :=
  match s with
  | [] => []
  | c :: s' =>
      match skip with
      | S k => scan p k (Some c) s'
      | O =>
          match matchAt p prev s with
          | Some (group, rest) =>
              string_of_list_ascii group
                :: scan p (List.length s - List.length rest - 1) (Some c) s'
          | None => scan p 0 (Some c) s'
          end
      end
  end.

Definition matchAll (p : timePattern) (text : string) : list string :=
  scan p 0 None (list_ascii_of_string text).

(** [pattern.test(text)] *)
Definition test (p : timePattern) (text : string) : bool :=
  match matchAll p text with [] => false | _ :: _ => true end.

(** [/(\d+)\s*min/i]: the digits of the leftmost match. *)

Fixpoint takeDigits (s : chars) : chars * chars :=
  match s with
  | c :: s' =>
      if isDigit c then let '(ds, rest) := takeDigits s' in (c :: ds, rest)
      else ([], s)
  | [] => ([], [])
  end.

Fixpoint dropSpaces (s : chars) : chars :=
  match s with
  | c :: s' => if isSpace c then dropSpaces s' else s
  | [] => []
  end.

Definition startsWithMin (s : chars) : bool :=
  match s with
  | m :: i :: n :: _ =>
      Ascii.eqb (upperChar m) "M" && Ascii.eqb (upperChar i) "I"
      && Ascii.eqb (upperChar n) "N"
      && inRange 0 127 m && inRange 0 127 i && inRange 0 127 n
  | _ => false
  end.

(** A match of [(\d+)\s*min] starting here.  The digits and the white
    space are taken whole: a shorter run leaves a digit or a space where
    [m] has to be. *)
Definition minutesAt (s : chars) : option string :=
  match takeDigits s with
  | ([], _) => None
  | (ds, rest) =>
      if startsWithMin (dropSpaces rest) then Some (string_of_list_ascii ds)
      else None
  end.

Fixpoint minutesMatchFrom (s : chars) : option string :=
  match minutesAt s with
  | Some ds => Some ds
  | None => match s with
            | [] => None
            | _ :: s' => minutesMatchFrom s'
            end
  end.

(** [text.match(/(\d+)\s*min/i)], first capture group. *)
Definition minutesMatch (text : string) : option string :=
  minutesMatchFrom (list_ascii_of_string text).

End Regex.

(** ** Completions: values and thrown errors

    A synchronous call completes normally or throws; an awaited promise
    resolves or rejects.  Both are a [completion]. *)

Inductive completion (A : Type) : Type :=
| Normal (a : A)
| Throw (message : string).

Arguments Normal {A} a.
Arguments Throw {A} message.

Definition bind {A B} (c : completion A) (k : A -> completion B) : completion B :=
  match c with
  | Normal a => k a
  | Throw e => Throw e
  end.

(** [try { body } catch (error) { handler }] *)
Definition tryCatch {A} (body : completion A) (handler : string -> completion A)
  : completion A :=
  match body with
  | Normal a => Normal a
  | Throw e => handler e
  end.

Declare Scope js_scope.
Delimit Scope js_scope with js.
Notation "x <- c ;; k" := (bind c (fun x => k))
  (at level 61, c at next level, right associativity) : js_scope.
Notation "c ;;; k" := (bind c (fun _ => k))
  (at level 61, right associativity) : js_scope.

(** ** Instants and their formats *)

Module Date.
Import JS.

Definition msPerMinute : Z := 60000.
Definition msPerHour : Z := 3600000.
Definition msPerDay : Z := 86400000.

(** The start of the local day that contains [t], where local time is
    UTC plus [offset] milliseconds. *)
Definition localMidnight (offset t : Z) : Z := t - (t + offset) mod msPerDay.

(** [d.setHours(hours, minutes, 0, 0)], for hours and minutes that keep
    the instant within the range of a [Date] (8.64e15 milliseconds either
    side of the epoch); beyond it JavaScript yields an invalid date. *)
Definition setHours (offset t hours minutes : Z) : Z :=
  localMidnight offset t + hours * msPerHour + minutes * msPerMinute.

(** [d.setDate(d.getDate() + 1)] *)
Definition nextDay (t : Z) : Z := t + msPerDay.

(** Year, month and day of a day number counted from 1970-01-01. *)
Definition civil (days : Z) : Z * Z * Z :=
  let z := days + 719468 in
  let era := z / 146097 in
  let doe := z - era * 146097 in
  let yoe := (doe - doe / 1460 + doe / 36524 - doe / 146096) / 365 in
  let doy := doe - (365 * yoe + yoe / 4 - yoe / 100) in
  let mp := (5 * doy + 2) / 153 in
  let d := doy - (153 * mp + 2) / 5 + 1 in
  let m := if mp <? 10 then mp + 3 else mp - 9 in
  let y := yoe + era * 400 + (if m <=? 2 then 1 else 0) in
  (y, m, d).

(** [d.toISOString()], for the years 0000 to 9999. *)
Definition toISOString (t : Z) : string :=
  let '(y, m, d) := civil (t / msPerDay) in
  let r := t mod msPerDay in
  (pad 4 y ++ "-" ++ pad 2 m ++ "-" ++ pad 2 d ++ "T"
   ++ pad 2 (r / msPerHour) ++ ":" ++ pad 2 (r / msPerMinute mod 60) ++ ":"
   ++ pad 2 (r / 1000 mod 60) ++ "." ++ pad 3 (r mod 1000) ++ "Z")%string.

(** Hours and minutes of the local day as [HH:MM], hours from 00 to 23. *)
Definition hhmm (offset t : Z) : string :=
  let r := (t + offset) mod msPerDay in
  (pad 2 (r / msPerHour) ++ ":" ++ pad 2 (r / msPerMinute mod 60))%string.

End Date.

(** The host the scraper runs on: its time zone and its rendering of
    [toLocaleTimeString('en-US', {hour: '2-digit', minute: '2-digit',
    hour12: false})], which belongs to the JavaScript engine's locale data. *)
Record Host := {
  tzOffset : Z;
  toLocaleTimeString : Z -> string
}.

(** A host in the given time zone that prints the hour from 00 to 23. *)
Definition hostAt (offset : Z) : Host :=
  {| tzOffset := offset; toLocaleTimeString := Date.hhmm offset |}.

(** Asia/Manila, UTC+8. *)
Definition manila : Host := hostAt (8 * Date.msPerHour).

(** ** [Map]: keys in insertion order *)

Module JsMap.
Section WithValue.
Context {V : Type}.

Definition t := list (string * V).

Definition empty : t := [].

Fixpoint get (k : string) (m : t) : option V :=
  match m with
  | [] => None
  | (k', v) :: m' => if String.eqb k k' then Some v else get k m'
  end.

Definition has (k : string) (m : t) : bool :=
  match get k m with Some _ => true | None => false end.

(** [m.set(k, v)]: an existing key keeps its place, a new key goes last. *)
Fixpoint set (k : string) (v : V) (m : t) : t :=
  match m with
  | [] => [(k, v)]
  | (k', v') :: m' =>
      if String.eqb k k' then (k, v) :: m' else (k', v') :: set k v m'
  end.

Definition clear (m : t) : t := [].

Definition size (m : t) : Z := Z.of_nat (List.length m).

Definition entries (m : t) : list (string * V) := m.
End WithValue.
Arguments t : clear implicits.
End JsMap.

(** ** The data model *)

Module TrainTime.
Record t := {
  time : string;
  (** [None] is [NaN]. *)
  minutesAway : option Z;
  status : string;
  (** [None] is [null], or the field is absent. *)
  direction : option string;
  extractedFrom : option string;
  context : option string
}.
End TrainTime.

Record ExtractionDetails := {
  selectorsUsed : Z;
  totalFound : Z;
  uniqueReturned : Z
}.

Module Schedule.
Record t := {
  line : string;
  origin : string;
  destination : string;
  nextTrains : list TrainTime.t;
  estimatedTravelTime : Z;
  lastUpdated : string;
  status : string;
  simulated : bool;
  extractedAt : option string;
  source : option string;
  extractionDetails : option ExtractionDetails
}.
End Schedule.

Record CacheEntry := {
  data : Schedule.t;
  timestamp : Z
}.

(** A launched browser, named by the process it runs in. *)
Record Browser := { pid : Z }.

(** The fields of the scraper object ([this]). *)
Record Scraper := {
  baseUrl : string;
  cacheDuration : Z;
  useBrowserScraper : bool;
  browserTimeout : Z;
  cache : JsMap.t CacheEntry;
  browser : option Browser;
  browserType : string
}.

Definition setCache (this : Scraper) (c : JsMap.t CacheEntry) : Scraper :=
  {| baseUrl := baseUrl this; cacheDuration := cacheDuration this;
     useBrowserScraper := useBrowserScraper this;
     browserTimeout := browserTimeout this;
     cache := c; browser := browser this; browserType := browserType this |}.

Definition setBrowser (this : Scraper) (b : option Browser) : Scraper :=
  {| baseUrl := baseUrl this; cacheDuration := cacheDuration this;
     useBrowserScraper := useBrowserScraper this;
     browserTimeout := browserTimeout this;
     cache := cache this; browser := b; browserType := browserType this |}.

(** ** The page and the browser, as the scraper sees them *)

(** An element of the page: its text and the text of its parent element
    ([None] when it has no parent). *)
Record Element := {
  textContent : string;
  parentTextContent : option string
}.

(** [document.querySelectorAll] either lists the elements of a selector or
    throws. *)
Record Document := {
  querySelectorAll : string -> completion (list Element)
}.

(** The places where [_attemptDataExtraction] and
    [_extractTrainDataFromPage] call [page.waitForTimeout]. *)
Inductive WaitSite := AppInit | AfterLineSelect | AfterSearch | BeforeExtract.

(** What the outside world does during one call of [scrapeTrainSchedule]:
    the clock, the environment variable and the answer of every browser
    operation the call may perform. *)
Record World := {
  (** [Date.now()] at the cache check. *)
  clockCheck : Z;
  (** [new Date()] inside the page function. *)
  clockPage : Z;
  (** [new Date()] while the extracted data is post-processed. *)
  clockPost : Z;
  (** [new Date()] when the result is produced and stored. *)
  clockStore : Z;
  (** [process.env.DEBUG_SCREENSHOTS === 'true'] *)
  debugScreenshots : bool;
  (** [browserEngine.launch(...)], by engine name. *)
  launch : string -> completion Browser;
  newContext : Browser -> completion unit;
  newPage : completion unit;
  goto : string -> completion unit;
  waitForTimeout : WaitSite -> completion unit;
  (** [page.screenshot], by file path. *)
  screenshot : string -> completion unit;
  (** [page.waitForSelector('button:has-text("LRT")')] *)
  lineButtonsReady : completion unit;
  (** [lineButton.isVisible()] and [lineButton.click()], by button text. *)
  lineButtonVisible : string -> completion bool;
  lineButtonClick : string -> completion unit;
  (** The search-box interaction of [_performStationSearch], up to its call
      of [_waitForTrainData]: it drives the page and yields no value. *)
  searchInteraction : string -> completion unit;
  (** [page.waitForSelector(indicator, {state: 'visible'})] *)
  indicatorVisible : string -> completion unit;
  (** [page.textContent('body')] *)
  bodyText : completion string;
  (** [page.evaluate]: the document the page function runs on. *)
  evaluate : completion Document;
  (** [browser.close()] *)
  closeBrowser : completion unit
}.

(** ** Construction *)

Record Options := {
  optCacheDuration : option Z;
  optUseBrowser : option bool;
  optBrowserTimeout : option Z;
  optBrowserType : option string
}.

(** The environment variables the constructor reads ([None]: not set). *)
Record Env := {
  SCRAPER_CACHE_DURATION : option string;
  USE_BROWSER_SCRAPER : option string;
  BROWSER_TIMEOUT : option string
}.

(** [a || b] on numbers: [0], [NaN] and [undefined] are falsy. *)
Definition orNumber (a b : option Z) : option Z :=
  match a with
  | Some z => if z =? 0 then b else a
  | None => b
  end.

Definition numberOr (a : option Z) (default : Z) : Z :=
  match a with Some z => z | None => default end.

(** [parseInt(process.env.NAME)]; an unset variable reads as [undefined],
    whose integer value is [NaN]. *)
Definition parseIntEnv (v : option string) : option Z :=
  match v with Some s => JS.parseInt s | None => None end.

(** ** class PlaywrightRushScraper *)

Module PlaywrightRushScraper.
Import JS.

Definition constructor (options : Options) (env : Env) : Scraper :=
  {| baseUrl := "https://rush-ph.com";
     cacheDuration :=
       numberOr (orNumber (orNumber (optCacheDuration options)
                             (parseIntEnv (SCRAPER_CACHE_DURATION env)))
                   (Some 300)) 300;
     useBrowserScraper :=
       match optUseBrowser options with
       | Some b => b
       | None => match USE_BROWSER_SCRAPER env with
                 | Some v => String.eqb v "true"
                 | None => false
                 end
       end;
     browserTimeout :=
       numberOr (orNumber (orNumber (optBrowserTimeout options)
                             (parseIntEnv (BROWSER_TIMEOUT env)))
                   (Some 30000)) 30000;
     cache := JsMap.empty;
     browser := None;
     browserType :=
       match optBrowserType options with
       | Some EmptyString | None => "chromium"
       | Some b => b
       end |}.

(** [Date.now() - timestamp.getTime() < this.cacheDuration * 1000] *)
Definition _isCacheValid (this : Scraper) (now timestamp : Z) : bool :=
  now - timestamp <? cacheDuration this * 1000.

Definition _getCacheKey (origin destination : string) : string :=
  (toLowerCase origin ++ "_" ++ toLowerCase destination)%string.

Definition browserEngine (this : Scraper) : string :=
  if String.eqb (browserType this) "firefox" then "firefox"
  else if String.eqb (browserType this) "webkit" then "webkit"
  else "chromium".

Definition _initBrowser (w : World) (this : Scraper)
  : completion Browser * Scraper :=
  match browser this with
  | Some b => (Normal b, this)
  | None =>
      match launch w (browserEngine this) with
      | Normal b => (Normal b, setBrowser this (Some b))
      | Throw error => (Throw error, setBrowser this None)
      end
  end.

(** The [try] swallows an error of [close]; the [finally] clears the
    reference either way. *)
Definition _closeBrowser (w : World) (this : Scraper)
  : completion unit * Scraper :=
  match browser this with
  | Some _ =>
      (tryCatch (closeBrowser w) (fun _ => Normal tt), setBrowser this None)
  | None => (Normal tt, this)
  end.

Definition _hashString (str : string) : Z :=
  Z.abs (fold_left
           (fun hash c =>
              let char := charCode c in
              let hash := (shl hash 5 - hash) + char in
              band hash hash)
           (list_ascii_of_string str) 0).

Definition intervals : list Z := [3; 5; 7; 8; 10].

(** [intervals.slice(0, i + 1).reduce((sum, interval) => sum + interval, 0)] *)
Definition minutesAhead (i : nat) : Z :=
  fold_left (fun sum interval => sum + interval) (firstn (i + 1) intervals) 0.

Section WithHost.
Variable host : Host.

Definition simulatedTrain (currentTime : Z) (i : nat) : TrainTime.t :=
  let trainTime := currentTime + minutesAhead i * 60000 in
  {| TrainTime.time := toLocaleTimeString host trainTime;
     TrainTime.minutesAway := Some (minutesAhead i);
     TrainTime.status :=
       if minutesAhead i <=? 15 then "On Time"
       else if minutesAhead i >? 20 then "Delayed" else "On Time";
     TrainTime.direction := None;
     TrainTime.extractedFrom := None;
     TrainTime.context := None |}.

(** [currentTime] is the [new Date()] the function starts with. *)
Definition _simulateTrainData (currentTime : Z)
    (origin destination line : string) : Schedule.t :=
  let trainTimes := map (simulatedTrain currentTime) (seq 0 5) in
  let stationCount := Z.abs (rem (_hashString origin) 10) + 2 in
  let estimatedTravel := 3 * stationCount in
  {| Schedule.line := line;
     Schedule.origin := origin;
     Schedule.destination := destination;
     Schedule.nextTrains := trainTimes;
     Schedule.estimatedTravelTime := estimatedTravel;
     Schedule.lastUpdated := Date.toISOString currentTime;
     Schedule.status := "operational";
     Schedule.simulated := true;
     Schedule.extractedAt := None;
     Schedule.source := None;
     Schedule.extractionDetails := None |}.

(** [now] is the [new Date()] of the call.  [None]: the minutes are missing
    (the result is [NaN]), or a part is not a decimal integer. *)
Definition _calculateMinutesFromTime (now : Z) (timeString : string)
  : option Z :=
  let parts := map Number (splitOn (Ascii.eqb ":") timeString) in
  match nth_error parts 0, nth_error parts 1 with
  | Some (Some hours), Some (Some minutes) =>
      let targetTime := Date.setHours (tzOffset host) now hours minutes in
      let targetTime :=
        if targetTime <? now then Date.nextDay targetTime else targetTime in
      Some (Z.max 0 ((targetTime - now) / 60000))
  | _, _ => None
  end.

Definition _estimateTravelTime (origin destination : string) : Z :=
  let stationDistance := Z.abs (rem (_hashString origin) 10) + 2 in
  Z.max 5 (stationDistance * 3).

(** *** The page function of [_extractTrainDataFromPage]

    It runs inside the page, on the document. *)

Definition quote : string := String (ascii_of_nat 34) EmptyString.

(** The selector [[attribute*="value"]]. *)
Definition attrContains (attribute value : string) : string :=
  ("[" ++ attribute ++ "*=" ++ quote ++ value ++ quote ++ "]")%string.

Definition selectors : list string :=
  [ attrContains "class" "time";
    attrContains "class" "schedule";
    attrContains "class" "train";
    attrContains "class" "departure";
    attrContains "class" "arrival";
    attrContains "class" "eta";
    attrContains "class" "next";
    attrContains "data-testid" "time";
    attrContains "data-testid" "schedule";
    attrContains "data-testid" "train";
    attrContains "data-testid" "card";
    ".card, .train-card, .schedule-card";
    ".bg-white, .bg-gray-100, .bg-blue-50, .bg-green-50";
    ".p-4, .p-6, .px-4, .py-2, .m-2, .m-4";
    ".flex, .grid, .block";
    ".rounded, .rounded-lg, .shadow, .border";
    "div, span, p, li, td, article, section" ].

Definition timePatterns : list Regex.timePattern :=
  [Regex.Hour12; Regex.Hour24; Regex.European].

(** [a >= n] and [a <= n], false on [NaN]. *)
Definition geNumber (a : option Z) (n : Z) : bool :=
  match a with Some z => n <=? z | None => false end.

Definition leNumber (a : option Z) (n : Z) : bool :=
  match a with Some z => z <=? n | None => false end.

(** The validation of a time token: two parts around [:] or [.], hours
    from 0 to 23, minutes from 0 to 59. *)
Definition validTimeToken (cleanTime : string) : bool :=
  let timeParts :=
    splitOn (fun c => Ascii.eqb c ":" || Ascii.eqb c ".") cleanTime in
  if Z.of_nat (List.length timeParts) =? 2 then
    let hours := parseInt (nth 0 timeParts EmptyString) in
    let minutes := parseInt (nth 1 timeParts EmptyString) in
    geNumber hours 0 && leNumber hours 23
    && geNumber minutes 0 && leNumber minutes 59
  else false.

(** The two arrays the page function fills. *)
Record Found := {
  trainTimes : list TrainTime.t;
  processedTimes : list string
}.

(** [processedTimes.has(cleanTime)] *)
Definition hasTime (processed : list string) (cleanTime : string) : bool :=
  existsb (String.eqb cleanTime) processed.

(** The entry pushed for an accepted token. *)
Definition trainEntry (selector text surroundingText cleanTime : string)
  : TrainTime.t :=
  let status := "On Time" in
  let status := if includes surroundingText "delay" then "Delayed" else status in
  let status := if includes surroundingText "cancel" then "Cancelled" else status in
  let minutesAway :=
    match Regex.minutesMatch text with
    | Some digits => parseInt digits
    | None => None
    end in
  let direction :=
    if includes surroundingText "north" || includes surroundingText "up"
    then Some "Northbound"
    else if includes surroundingText "south" || includes surroundingText "down"
    then Some "Southbound"
    else None in
  {| TrainTime.time := cleanTime;
     TrainTime.minutesAway := Some (numberOr (orNumber minutesAway (Some 0)) 0);
     TrainTime.status := status;
     TrainTime.direction := direction;
     TrainTime.extractedFrom := Some selector;
     TrainTime.context := Some (substring0 100 text) |}.

(** The body of the innermost loop, for one match.  The first capture
    group of a match is never empty, so it is the [cleanTime]. *)
Definition processMatch (selector text surroundingText : string)
    (found : Found) (cleanTime : string) : Found :=
  if negb (String.eqb cleanTime EmptyString)
     && negb (hasTime (processedTimes found) cleanTime)
  then
    if validTimeToken cleanTime then
      {| trainTimes :=
           trainTimes found
             ++ [trainEntry selector text surroundingText cleanTime];
         processedTimes := processedTimes found ++ [cleanTime] |}
    else found
  else found.

Definition processElement (selector : string) (found : Found)
    (element : Element) : Found :=
  let text := trim (textContent element) in
  let surroundingText :=
    match parentTextContent element with
    | Some t => toLowerCase t
    | None => EmptyString
    end in
  fold_left
    (fun found pattern =>
       fold_left (processMatch selector text surroundingText)
         (Regex.matchAll pattern text) found)
    timePatterns found.

(** One round of the outer loop; an error of [querySelectorAll] is
    caught and the next selector is tried. *)
Definition processSelector (document : Document) (found : Found)
    (selector : string) : Found :=
  match querySelectorAll document selector with
  | Normal elements => fold_left (processElement selector) elements found
  | Throw _ => found
  end.

(** [self.findIndex(t => p(t))], [-1] when there is none. *)
Fixpoint findIndex {A} (p : A -> bool) (self : list A) : Z :=
  match self with
  | [] => -1
  | x :: rest =>
      if p x then 0
      else let i := findIndex p rest in if i <? 0 then -1 else i + 1
  end.

(** [self.filter((x, index, self) => keep(x, index, self))] *)
Fixpoint filterFrom {A} (keep : A -> Z -> list A -> bool)
    (self : list A) (index : Z) (l : list A) : list A :=
  match l with
  | [] => []
  | x :: rest =>
      if keep x index self then x :: filterFrom keep self (index + 1) rest
      else filterFrom keep self (index + 1) rest
  end.

Definition filterIndexed {A} (keep : A -> Z -> list A -> bool)
    (self : list A) : list A :=
  filterFrom keep self 0 self.

(** What [page.evaluate] hands back. *)
Record PageSchedule := {
  pageLine : string;
  pageOrigin : string;
  pageDestination : string;
  pageNextTrains : list TrainTime.t;
  pageExtractedAt : string;
  pageSimulated : bool;
  pageSource : string;
  pageExtractionDetails : ExtractionDetails
}.

(** [now] is the [new Date()] of the page function. *)
Definition pageFunction (document : Document) (now : Z)
    (orig dest trainLine : string) : option PageSchedule :=
  let found :=
    fold_left (processSelector document) selectors
      {| trainTimes := []; processedTimes := [] |} in
  let trainTimes := trainTimes found in
  if Z.of_nat (List.length trainTimes) >? 0 then
    let uniqueTimes :=
      firstn 10
        (filterIndexed
           (fun time index self =>
              index =? findIndex
                         (fun t => String.eqb (TrainTime.time t)
                                     (TrainTime.time time)) self)
           trainTimes) in
    Some {| pageLine := trainLine;
            pageOrigin := orig;
            pageDestination := dest;
            pageNextTrains := uniqueTimes;
            pageExtractedAt := Date.toISOString now;
            pageSimulated := false;
            pageSource := "playwright-extraction";
            pageExtractionDetails :=
              {| selectorsUsed := Z.of_nat (List.length selectors);
                 totalFound := Z.of_nat (List.length trainTimes);
                 uniqueReturned := Z.of_nat (List.length uniqueTimes) |} |}
  else None.

(** *** Driving the page *)

Local Open Scope js_scope.

(** [s.toUpperCase().includes(needle)] guarded by [line &&]. *)
Definition lineMentions (line needle : string) : bool :=
  negb (String.eqb line EmptyString) && includes (toUpperCase line) needle.

Definition lineButtonText (line : string) : string :=
  if lineMentions line "LRT-1" then "LRT-1"
  else if lineMentions line "MRT" then "MRT-3"
  else if lineMentions line "LRT-2" then "LRT-2"
  else if lineMentions line "PNR" then "PNR"
  else "LRT-1".

Definition _selectTrainLine (w : World) (line : string) : completion bool :=
  tryCatch
    (lineButtonsReady w ;;;
     let buttonText := lineButtonText line in
     visible <- lineButtonVisible w buttonText ;;
     if (visible : bool)
     then lineButtonClick w buttonText ;;; Normal true
     else Normal false)
    (fun _ => Normal false).

Definition dataIndicators : list string :=
  [ attrContains "class" "train";
    attrContains "class" "schedule";
    attrContains "class" "departure";
    attrContains "class" "arrival";
    "text=minutes";
    "text=min";
    attrContains "data-testid" "train";
    attrContains "data-testid" "schedule" ].

(** The loop over the indicators: the first one that shows ends the
    search, an indicator that times out is passed over. *)
Fixpoint anyIndicator (w : World) (indicators : list string) : bool :=
  match indicators with
  | [] => false
  | indicator :: rest =>
      match indicatorVisible w indicator with
      | Normal _ => true
      | Throw _ => anyIndicator w rest
      end
  end.

Definition _waitForTrainData (w : World) : completion bool :=
  tryCatch
    (if anyIndicator w dataIndicators then Normal true
     else
       pageContent <- bodyText w ;;
       (* /\b\d{1,2}:\d{2}\b/ *)
       if Regex.test Regex.Hour24 pageContent then Normal true
       else Normal false)
    (fun _ => Normal false).

Definition _performStationSearch (w : World) (stationName : string)
  : completion bool :=
  tryCatch
    (searchInteraction w stationName ;;;
     trainDataVisible <- _waitForTrainData w ;;
     if (trainDataVisible : bool) then Normal true else Normal false)
    (fun _ => Normal false).

(** The post-processing of one train: a missing count of minutes is
    computed from the time. *)
Definition fillMinutesAway (now : Z) (train : TrainTime.t) : TrainTime.t :=
  match TrainTime.minutesAway train with
  | Some 0 =>
      {| TrainTime.time := TrainTime.time train;
         TrainTime.minutesAway :=
           _calculateMinutesFromTime now (TrainTime.time train);
         TrainTime.status := TrainTime.status train;
         TrainTime.direction := TrainTime.direction train;
         TrainTime.extractedFrom := TrainTime.extractedFrom train;
         TrainTime.context := TrainTime.context train |}
  | _ => train
  end.

Definition _extractTrainDataFromPage (w : World)
    (origin destination line : string) : completion (option Schedule.t) :=
  tryCatch
    (waitForTimeout w BeforeExtract ;;;
     document <- evaluate w ;;
     let scheduleData :=
       pageFunction document (clockPage w) origin destination line in
     match scheduleData with
     | Some scheduleData =>
         if Z.of_nat (List.length (pageNextTrains scheduleData)) >? 0 then
           Normal (Some
             {| Schedule.line := pageLine scheduleData;
                Schedule.origin := pageOrigin scheduleData;
                Schedule.destination := pageDestination scheduleData;
                Schedule.nextTrains :=
                  map (fillMinutesAway (clockPost w))
                    (pageNextTrains scheduleData);
                Schedule.estimatedTravelTime :=
                  _estimateTravelTime origin destination;
                Schedule.lastUpdated := Date.toISOString (clockPost w);
                Schedule.status := "operational";
                Schedule.simulated := pageSimulated scheduleData;
                Schedule.extractedAt := Some (pageExtractedAt scheduleData);
                Schedule.source := Some (pageSource scheduleData);
                Schedule.extractionDetails :=
                  Some (pageExtractionDetails scheduleData) |})
         else Normal None
     | None => Normal None
     end)
    (fun _ => Normal None).

(** [if (process.env.DEBUG_SCREENSHOTS === 'true') await page.screenshot(...)] *)
Definition debugScreenshot (w : World) (path : string) : completion unit :=
  if debugScreenshots w then screenshot w path else Normal tt.

(** The [finally] block closes the page and the context and swallows
    their errors: it changes neither the result nor the scraper. *)
Definition _attemptDataExtraction (w : World) (this : Scraper)
    (origin destination line : string)
  : completion (option Schedule.t) * Scraper :=
  if negb (useBrowserScraper this) then (Normal None, this)
  else
    let '(launched, this) := _initBrowser w this in
    (tryCatch
       (browser <- launched ;;
        newContext w browser ;;;
        newPage w ;;;
        goto w (baseUrl this) ;;;
        waitForTimeout w AppInit ;;;
        debugScreenshot w "debug-rush-ph-playwright-initial.png" ;;;
        lineSelected <- _selectTrainLine w line ;;
        (if (lineSelected : bool)
         then waitForTimeout w AfterLineSelect else Normal tt) ;;;
        searchSuccess <- _performStationSearch w origin ;;
        if negb searchSuccess then Normal None
        else
          waitForTimeout w AfterSearch ;;;
          debugScreenshot w "debug-rush-ph-playwright-after-search.png" ;;;
          trainData <- _extractTrainDataFromPage w origin destination line ;;
          match trainData with
          | Some trainData => Normal (Some trainData)
          | None => Normal None
          end)
       (fun _ => Normal None),
     this).

(** *** The public operations *)

(** The cache check at the head of [scrapeTrainSchedule]: the cached
    record when the key is present and its entry still valid. *)
Definition cachedData (this : Scraper) (now : Z) (cacheKey : string)
  : option Schedule.t :=
  if JsMap.has cacheKey (cache this) then
    match JsMap.get cacheKey (cache this) with
    | Some entry =>
        if _isCacheValid this now (timestamp entry) then Some (data entry)
        else None
    | None => None
    end
  else None.

(** [this.cache.set(cacheKey, { data: record, timestamp: new Date() })] *)
Definition store (this : Scraper) (cacheKey : string) (record : Schedule.t)
    (now : Z) : Scraper :=
  setCache this
    (JsMap.set cacheKey {| data := record; timestamp := now |} (cache this)).

Definition scrapeTrainSchedule (w : World) (this : Scraper)
    (origin destination line : string) : completion Schedule.t * Scraper :=
  let cacheKey := _getCacheKey origin destination in
  match cachedData this (clockCheck w) cacheKey with
  | Some data => (Normal data, this)
  | None =>
      let '(attempt, this) :=
        _attemptDataExtraction w this origin destination line in
      match tryCatch attempt (fun _ => Normal None) with
      | Normal (Some response) =>
          (Normal response, store this cacheKey response (clockStore w))
      | _ =>
          let simulatedData :=
            _simulateTrainData (clockStore w) origin destination line in
          (Normal simulatedData,
           store this cacheKey simulatedData (clockStore w))
      end
  end.

Definition cleanup (w : World) (this : Scraper) : completion unit * Scraper :=
  let '(closed, this) := _closeBrowser w this in
  match closed with
  | Normal _ => (Normal tt, setCache this (JsMap.clear (cache this)))
  | Throw error => (Throw error, this)
  end.

End WithHost.
End PlaywrightRushScraper.

(** ** class RushScraper (the Puppeteer-era scraper)

    It keeps its cache the way [PlaywrightRushScraper] does, in the fields
    [cache] and [cacheDuration], and adds the cache diagnostics. *)

Module RushScraper.
Import JS.

Definition _isCacheValid (this : Scraper) (now timestamp : Z) : bool :=
  now - timestamp <? cacheDuration this * 1000.

Definition _getCacheKey (origin destination : string) : string :=
  (toLowerCase origin ++ "_" ++ toLowerCase destination)%string.

Definition clearCache (this : Scraper) : Scraper :=
  setCache this (JsMap.clear (cache this)).

Record CacheInfoEntry := {
  key : string;
  entryTimestamp : string;
  valid : bool;
  entrySimulated : bool
}.

Record CacheInfo := {
  totalEntries : Z;
  infoCacheDuration : Z;
  entries : list CacheInfoEntry
}.

(** [now] is the [Date.now()] that [_isCacheValid] reads. *)
Definition getCacheInfo (this : Scraper) (now : Z) : CacheInfo :=
  {| totalEntries := JsMap.size (cache this);
     infoCacheDuration := cacheDuration this;
     entries :=
       map (fun '(key, entry) =>
              {| key := key;
                 entryTimestamp := Date.toISOString (timestamp entry);
                 valid := _isCacheValid this now (timestamp entry);
                 entrySimulated := Schedule.simulated (data entry) || false |})
         (JsMap.entries (cache this)) |}.

Section WithHost.
Variable host : Host.

(** [Math.round(ms / 60000)] on a whole number of milliseconds. *)
Definition roundMinutes (ms : Z) : Z := (ms + 30000) / 60000.

(** One round of the [map] of [_calculateMinutesAway].  [None]: the minutes
    are missing (the result is [NaN]), or a part is not a decimal integer. *)
Definition minutesAwayOf (now : Z) (train : TrainTime.t) : TrainTime.t :=
  let parts := map Number (splitOn (Ascii.eqb ":") (TrainTime.time train)) in
  let minutesAway :=
    match nth_error parts 0, nth_error parts 1 with
    | Some (Some hours), Some (Some minutes) =>
        let trainDate := Date.setHours (tzOffset host) now hours minutes in
        let trainDate :=
          if trainDate <? now then Date.nextDay trainDate else trainDate in
        let minutesAway := roundMinutes (trainDate - now) in
        Some (Z.max 0 minutesAway)
    | _, _ => None
    end in
  {| TrainTime.time := TrainTime.time train;
     TrainTime.minutesAway := minutesAway;
     TrainTime.status := TrainTime.status train;
     TrainTime.direction := TrainTime.direction train;
     TrainTime.extractedFrom := TrainTime.extractedFrom train;
     TrainTime.context := TrainTime.context train |}.

Definition _calculateMinutesAway (now : Z) (trainTimes : list TrainTime.t)
  : list TrainTime.t :=
  map (minutesAwayOf now) trainTimes.

End WithHost.

(** *** The rest of the class: the browser, the page and the fallback *)

Definition _hashString (str : string) : Z :=
  Z.abs (fold_left
           (fun hash c =>
              let char := charCode c in
              let hash := (shl hash 5 - hash) + char in
              band hash hash)
           (list_ascii_of_string str) 0).

Definition intervals : list Z := [5; 7; 8; 10; 12].

(** [intervals.slice(0, i + 1).reduce((sum, interval) => sum + interval, 0)] *)
Definition minutesAhead (i : nat) : Z :=
  fold_left (fun sum interval => sum + interval) (firstn (i + 1) intervals) 0.

(** An [option] element of a dropdown. *)
Record OptionElement := {
  value : string;
  text : string
}.

(** An object found in the page or in a response, by its JSON text.  The
    scraper hands it on unread. *)
Record RawData := { json : string }.

(** What the outside world does during one call of [scrapeTrainSchedule]:
    the clock and the answer of every browser operation the call may
    perform.  An element is named by the selector that found it. *)
Record Visit := {
  (** [Date.now()] at the cache check. *)
  clockCheck : Z;
  (** [new Date()] inside the page function. *)
  clockPage : Z;
  (** [new Date()] while the extracted data is post-processed. *)
  clockPost : Z;
  (** [new Date()] when the result is produced and stored. *)
  clockStore : Z;
  (** [puppeteer.launch(...)] *)
  launch : completion Browser;
  newPage : completion unit;
  setViewport : completion unit;
  setUserAgent : completion unit;
  goto : string -> completion unit;
  (** [page.$(selector)]: whether an element was found. *)
  query : string -> completion bool;
  (** [element.evaluate(el => el.tagName.toLowerCase())] *)
  tagName : string -> completion string;
  (** [selectElement.$$eval('option', ...)] *)
  dropdownOptions : string -> completion (list OptionElement);
  (** [selectElement.select(value)] *)
  selectOption : string -> string -> completion unit;
  (** [element.click()], [element.type(text)], [page.keyboard.press('Tab')] *)
  click : string -> completion unit;
  typeText : string -> string -> completion unit;
  pressTab : completion unit;
  (** [page.evaluate] in [_extractScheduleFromDOM]: the document the page
      function runs on. *)
  evaluateSchedule : completion Document;
  (** [page.evaluate] in [_extractPreloadedData]: the object found in the
      window or in a script, if any. *)
  evaluatePreloaded : completion (option RawData);
  (** [page.reload(...)] *)
  reload : completion unit;
  (** What the response listener has kept when the reload is over. *)
  intercepted : option RawData;
  (** [browser.close()] *)
  closeBrowser : completion unit
}.

Definition _initBrowser (w : Visit) (this : Scraper)
  : completion Browser * Scraper :=
  match browser this with
  | Some b => (Normal b, this)
  | None =>
      match launch w with
      | Normal b => (Normal b, setBrowser this (Some b))
      | Throw error => (Throw error, setBrowser this None)
      end
  end.

(** The [try] swallows an error of [close]; the [finally] clears the
    reference either way. *)
Definition _closeBrowser (w : Visit) (this : Scraper)
  : completion unit * Scraper :=
  match browser this with
  | Some _ =>
      (tryCatch (closeBrowser w) (fun _ => Normal tt), setBrowser this None)
  | None => (Normal tt, this)
  end.

Definition destroy (w : Visit) (this : Scraper) : completion unit * Scraper :=
  let '(closed, this) := _closeBrowser w this in
  (closed ;;; Normal tt, this)%js.

(** [options.find(...)] of [_selectFromDropdown] *)
Definition matchingOption (options : list OptionElement) (stationName : string)
  : option OptionElement :=
  find (fun opt =>
          includes (toLowerCase (text opt)) (toLowerCase stationName)
          || includes (toLowerCase (value opt)) (toLowerCase stationName))
    options.

Definition _selectFromDropdown (w : Visit) (selectElement stationName : string)
  : completion unit :=
  tryCatch
    (options <- dropdownOptions w selectElement ;;
     match matchingOption options stationName with
     | Some matchingOption => selectOption w selectElement (value matchingOption)
     | None => Normal tt
     end)%js
    (fun _ => Normal tt).

Definition _interactWithStationElement (w : Visit)
    (element origin destination : string) : completion unit :=
  tryCatch
    (tagName <- tagName w element ;;
     if String.eqb tagName "select" then
       _selectFromDropdown w element origin
     else if String.eqb tagName "input" then
       click w element ;;;
       typeText w element origin ;;;
       pressTab w
     else Normal tt)%js
    (fun _ => Normal tt).

(** The selectors [_tryStationSelection] goes through. *)
Definition selectors : list string :=
  let attribute := PlaywrightRushScraper.attrContains in
  [ "select" ++ attribute "name" "origin";
    "select" ++ attribute "name" "from";
    "input" ++ attribute "name" "origin";
    "input" ++ attribute "name" "from";
    "select" ++ attribute "name" "destination";
    "select" ++ attribute "name" "to";
    "input" ++ attribute "name" "destination";
    "input" ++ attribute "name" "to";
    "select" ++ attribute "placeholder" "origin";
    "select" ++ attribute "placeholder" "from";
    "input" ++ attribute "placeholder" "origin";
    "input" ++ attribute "placeholder" "from";
    "select" ++ attribute "placeholder" "destination";
    "select" ++ attribute "placeholder" "to";
    "input" ++ attribute "placeholder" "destination";
    "input" ++ attribute "placeholder" "to";
    ".origin-select"; ".from-select"; ".destination-select"; ".to-select";
    "#origin"; "#from"; "#destination"; "#to" ]%string.

(** The loop of [_tryStationSelection]: the first selector that finds an
    element ends it. *)
Fixpoint firstSelector (w : Visit) (origin destination : string)
    (selectors : list string) : completion bool :=
  match selectors with
  | [] => Normal false
  | selector :: rest =>
      (element <- query w selector ;;
       if (element : bool) then
         _interactWithStationElement w selector origin destination ;;;
         Normal true
       else firstSelector w origin destination rest)%js
  end.

Definition _tryStationSelection (w : Visit) (origin destination : string)
  : completion bool :=
  tryCatch (firstSelector w origin destination selectors)
    (fun _ => Normal false).

(** *** The page function of [_extractScheduleFromDOM] *)

(** The round of [timeMatches.forEach]: a time not yet in the list is
    added at its end. *)
Definition pushTime (trainTimes : list TrainTime.t) (time : string)
  : list TrainTime.t :=
  match time with
  | EmptyString => trainTimes
  | _ =>
      if existsb (fun t => String.eqb (TrainTime.time t) time) trainTimes
      then trainTimes
      else
        (trainTimes
         ++ [ {| TrainTime.time := time;
                 TrainTime.minutesAway := Some 0;
                 TrainTime.status := "On Time";
                 TrainTime.direction := None;
                 TrainTime.extractedFrom := None;
                 TrainTime.context := None |} ])%list
  end.

(** The round of the loop over the elements; [text.match] with
    [/\b\d{1,2}:\d{2}\b/g] lists the matches from left to right. *)
Definition scanElement (trainTimes : list TrainTime.t) (element : Element)
  : list TrainTime.t :=
  let text := textContent element in
  let timeMatches := Regex.matchAll Regex.Hour24 text in
  fold_left pushTime timeMatches trainTimes.

(** What the page function returns. *)
Record DomSchedule := {
  domLine : string;
  domOrigin : string;
  domDestination : string;
  domNextTrains : list TrainTime.t;
  domExtractedAt : string;
  domSimulated : bool
}.

(** [now] is the [new Date()] of the page function. *)
Definition pageFunction (document : Document) (now : Z)
    (orig dest trainLine : string) : completion (option DomSchedule) :=
  (tables <- querySelectorAll document
               "table, .schedule, .timetable, .train-times" ;;
   lists <- querySelectorAll document
              "ul, ol, .train-list, .departure-times" ;;
   cards <- querySelectorAll document ".card, .schedule-card, .train-card" ;;
   let allElements := (tables ++ lists ++ cards)%list in
   let trainTimes := fold_left scanElement allElements [] in
   if Z.of_nat (List.length trainTimes) >? 0 then
     Normal (Some {| domLine := trainLine;
                     domOrigin := orig;
                     domDestination := dest;
                     domNextTrains := firstn 5 trainTimes;
                     domExtractedAt := Date.toISOString now;
                     domSimulated := false |})
   else Normal None)%js.

(** [_processRawData] waits for the format of the site to be known: it
    returns [null] for every input. *)
Definition _processRawData (rawData : RawData)
    (origin destination line : string) : option Schedule.t :=
  None.

Section Live.
Variable host : Host.

Definition simulatedTrain (currentTime : Z) (i : nat) : TrainTime.t :=
  let trainTime := currentTime + minutesAhead i * 60000 in
  {| TrainTime.time := toLocaleTimeString host trainTime;
     TrainTime.minutesAway := Some (minutesAhead i);
     TrainTime.status :=
       if minutesAhead i <=? 15 then "On Time"
       else if minutesAhead i >? 20 then "Delayed" else "On Time";
     TrainTime.direction := None;
     TrainTime.extractedFrom := None;
     TrainTime.context := None |}.

(** [currentTime] is the [new Date()] the function starts with. *)
Definition _simulateTrainData (currentTime : Z)
    (origin destination line : string) : Schedule.t :=
  let trainTimes := map (simulatedTrain currentTime) (seq 0 5) in
  let baseTravelTime := 3 in
  let stationCount := Z.abs (rem (_hashString origin) 10) + 2 in
  let estimatedTravel := baseTravelTime * stationCount in
  {| Schedule.line := line;
     Schedule.origin := origin;
     Schedule.destination := destination;
     Schedule.nextTrains := trainTimes;
     Schedule.estimatedTravelTime := estimatedTravel;
     Schedule.lastUpdated := Date.toISOString currentTime;
     Schedule.status := "operational";
     Schedule.simulated := true;
     Schedule.extractedAt := None;
     Schedule.source := None;
     Schedule.extractionDetails := None |}.

Definition _estimateTravelTime (origin destination : string) : Z :=
  let avgTimePerStation := 3 in
  let estimatedStations :=
    Z.abs (rem (_hashString (origin ++ destination)) 15) + 1 in
  avgTimePerStation * estimatedStations.

Definition _extractScheduleFromDOM (w : Visit)
    (origin destination line : string) : completion (option Schedule.t) :=
  tryCatch
    (document <- evaluateSchedule w ;;
     scheduleData <- pageFunction document (clockPage w)
                       origin destination line ;;
     match scheduleData with
     | Some scheduleData =>
         if Z.of_nat (List.length (domNextTrains scheduleData)) >? 0 then
           Normal (Some
             {| Schedule.line := domLine scheduleData;
                Schedule.origin := domOrigin scheduleData;
                Schedule.destination := domDestination scheduleData;
                Schedule.nextTrains :=
                  _calculateMinutesAway host (clockPost w)
                    (domNextTrains scheduleData);
                Schedule.estimatedTravelTime :=
                  _estimateTravelTime origin destination;
                Schedule.lastUpdated := Date.toISOString (clockPost w);
                Schedule.status := "operational";
                Schedule.simulated := domSimulated scheduleData;
                Schedule.extractedAt := Some (domExtractedAt scheduleData);
                Schedule.source := None;
                Schedule.extractionDetails := None |})
         else Normal None
     | None => Normal None
     end)%js
    (fun _ => Normal None).

Definition _extractPreloadedData (w : Visit)
    (origin destination line : string) : completion (option Schedule.t) :=
  tryCatch
    (preloadedData <- evaluatePreloaded w ;;
     match preloadedData with
     | Some preloadedData =>
         Normal (_processRawData preloadedData origin destination line)
     | None => Normal None
     end)%js
    (fun _ => Normal None).

Definition _interceptNetworkData (w : Visit)
    (origin destination line : string) : completion (option Schedule.t) :=
  tryCatch
    (let networkData := intercepted w in
     reload w ;;;
     match networkData with
     | Some networkData =>
         Normal (_processRawData networkData origin destination line)
     | None => Normal None
     end)%js
    (fun _ => Normal None).

Definition _extractTrainDataFromPage (w : Visit)
    (origin destination line : string) : completion (option Schedule.t) :=
  tryCatch
    (hasStationSelectors <- _tryStationSelection w origin destination ;;
     scheduleData <-
       (if (hasStationSelectors : bool)
        then _extractScheduleFromDOM w origin destination line
        else Normal None) ;;
     match scheduleData with
     | Some scheduleData => Normal (Some scheduleData)
     | None =>
         preloadedData <- _extractPreloadedData w origin destination line ;;
         match preloadedData with
         | Some preloadedData => Normal (Some preloadedData)
         | None =>
             networkData <- _interceptNetworkData w origin destination line ;;
             match networkData with
             | Some networkData => Normal (Some networkData)
             | None => Normal None
             end
         end
     end)%js
    (fun _ => Normal None).

(** The [finally] block closes the page and swallows the error of that:
    it changes neither the result nor the scraper. *)
Definition _attemptDataExtraction (w : Visit) (this : Scraper)
    (origin destination line : string)
  : completion (option Schedule.t) * Scraper :=
  if negb (useBrowserScraper this) then (Normal None, this)
  else
    let '(launched, this) := _initBrowser w this in
    (tryCatch
       (browser <- launched ;;
        newPage w ;;;
        setViewport w ;;;
        setUserAgent w ;;;
        goto w (baseUrl this) ;;;
        trainData <- _extractTrainDataFromPage w origin destination line ;;
        match trainData with
        | Some trainData => Normal (Some trainData)
        | None => Normal None
        end)%js
       (fun _ => Normal None),
     this).

(** The cache check at the head of [scrapeTrainSchedule]: the cached
    record when the key is present and its entry still valid. *)
Definition cachedData (this : Scraper) (now : Z) (cacheKey : string)
  : option Schedule.t :=
  if JsMap.has cacheKey (cache this) then
    match JsMap.get cacheKey (cache this) with
    | Some entry =>
        if _isCacheValid this now (timestamp entry) then Some (data entry)
        else None
    | None => None
    end
  else None.

(** [this.cache.set(cacheKey, { data: record, timestamp: new Date() })] *)
Definition store (this : Scraper) (cacheKey : string) (record : Schedule.t)
    (now : Z) : Scraper :=
  setCache this
    (JsMap.set cacheKey {| data := record; timestamp := now |} (cache this)).

Definition scrapeTrainSchedule (w : Visit) (this : Scraper)
    (origin destination line : string) : completion Schedule.t * Scraper :=
  let cacheKey := _getCacheKey origin destination in
  match cachedData this (clockCheck w) cacheKey with
  | Some data => (Normal data, this)
  | None =>
      let '(attempt, this) :=
        _attemptDataExtraction w this origin destination line in
      match tryCatch attempt (fun _ => Normal None) with
      | Normal (Some response) =>
          (Normal response, store this cacheKey response (clockStore w))
      | _ =>
          let simulatedData :=
            _simulateTrainData (clockStore w) origin destination line in
          (Normal simulatedData,
           store this cacheKey simulatedData (clockStore w))
      end
  end.

End Live.
End RushScraper.

(** ** Sample inputs *)

Module Samples.
Import PlaywrightRushScraper.

Definition noOptions : Options :=
  {| optCacheDuration := None; optUseBrowser := None;
     optBrowserTimeout := None; optBrowserType := None |}.

Definition noEnv : Env :=
  {| SCRAPER_CACHE_DURATION := None; USE_BROWSER_SCRAPER := None;
     BROWSER_TIMEOUT := None |}.

(** [new PlaywrightRushScraper()]: live extraction is off. *)
Definition simulating : Scraper := constructor noOptions noEnv.

(** [new PlaywrightRushScraper({ useBrowser: true })] *)
Definition scraping : Scraper :=
  constructor
    {| optCacheDuration := None; optUseBrowser := Some true;
       optBrowserTimeout := None; optBrowserType := None |} noEnv.

(** 2026-11-02 10:34:56.789 in Manila. *)
Definition morning : Z := 1793586896789.

(** An element of the departure board. *)
Definition cell (text : string) : Element :=
  {| textContent := text;
     parentTextContent := Some "Departures 08:05 08:05 08:05 AM 07:59" |}.

(** A page whose time cells read 08:05, 08:05, 08:05 AM and 07:59, from
    top to bottom. *)
Definition board : Document :=
  {| querySelectorAll := fun selector =>
       if String.eqb selector (attrContains "class" "time")
       then Normal [cell "08:05"; cell "08:05"; cell "08:05 AM"; cell "07:59"]
       else Normal [] |}.

(** A browser that starts and a site that answers with [document]. *)
Definition online (document : Document) : World :=
  {| clockCheck := morning; clockPage := morning + 21000;
     clockPost := morning + 21005; clockStore := morning + 21010;
     debugScreenshots := false;
     launch := fun _ => Normal {| pid := 4242 |};
     newContext := fun _ => Normal tt; newPage := Normal tt;
     goto := fun _ => Normal tt; waitForTimeout := fun _ => Normal tt;
     screenshot := fun _ => Normal tt; lineButtonsReady := Normal tt;
     lineButtonVisible := fun _ => Normal true;
     lineButtonClick := fun _ => Normal tt;
     searchInteraction := fun _ => Normal tt;
     indicatorVisible := fun _ => Normal tt;
     bodyText := Normal "08:05 07:59";
     evaluate := Normal document; closeBrowser := Normal tt |}.

(** No browser can be launched, and the site does not load. *)
Definition offline : World :=
  {| clockCheck := morning; clockPage := morning; clockPost := morning;
     clockStore := morning + 1; debugScreenshots := false;
     launch := fun _ => Throw "browserType.launch: executable not found";
     newContext := fun _ => Throw "closed"; newPage := Throw "closed";
     goto := fun _ => Throw "net::ERR_NAME_NOT_RESOLVED";
     waitForTimeout := fun _ => Throw "closed";
     screenshot := fun _ => Throw "closed"; lineButtonsReady := Throw "timeout";
     lineButtonVisible := fun _ => Throw "closed";
     lineButtonClick := fun _ => Throw "closed";
     searchInteraction := fun _ => Throw "timeout";
     indicatorVisible := fun _ => Throw "timeout";
     bodyText := Throw "closed";
     evaluate := Throw "closed"; closeBrowser := Throw "closed" |}.


End Samples.

(** ** Vocabulary of the properties *)

Module Spec.
Import JS.

(** A schedule record a caller can use: it lists at least one train and
    its travel time is not negative. *)
Definition wellFormed (record : Schedule.t) : Prop :=
  Schedule.nextTrains record <> [] /\ 0 <= Schedule.estimatedTravelTime record.

(** Every cached record is well formed. *)
Definition cacheWellFormed (this : Scraper) : Prop :=
  Forall (fun kv => wellFormed (data (snd kv))) (cache this).

(** The scrapers a program can hold: a new one, and what the public
    operations make of one, whatever the world does meanwhile. *)
Inductive Reachable (host : Host) : Scraper -> Prop :=
| ReachNew options env :
    Reachable host (PlaywrightRushScraper.constructor options env)
| ReachScrape w this origin destination line :
    Reachable host this ->
    Reachable host
      (snd (PlaywrightRushScraper.scrapeTrainSchedule host w this
              origin destination line))
| ReachCleanup w this :
    Reachable host this ->
    Reachable host (snd (PlaywrightRushScraper.cleanup w this)).


(** The time of day [hours]:[minutes], written with two digits each. *)
Definition clock (hours minutes : Z) : string :=
  (pad 2 hours ++ ":" ++ pad 2 minutes)%string.

(** The same with a one-digit hour, as in [7:05]. *)
Definition shortClock (hours minutes : Z) : string :=
  (pad 1 hours ++ ":" ++ pad 2 minutes)%string.

(** The well-formed times: an hour from 0 to 23 and a minute from 0 to 59,
    written [HH:MM], or [H:MM] when the hour has one digit. *)
Inductive WellFormedTime : string -> Z -> Z -> Prop :=
| TwoDigitHour hours minutes :
    0 <= hours <= 23 -> 0 <= minutes <= 59 ->
    WellFormedTime (clock hours minutes) hours minutes
| OneDigitHour hours minutes :
    0 <= hours <= 9 -> 0 <= minutes <= 59 ->
    WellFormedTime (shortClock hours minutes) hours minutes.

(** Two characters are the same letter up to case. *)
Definition sameLetter (a b : ascii) : Prop :=
  a = b \/ lowerChar a = b \/ lowerChar b = a
  \/ upperChar a = b \/ upperChar b = a.

(** Two strings differ only in letter case. *)
Inductive CaseVariant : string -> string -> Prop :=
| CaseVariantEmpty : CaseVariant EmptyString EmptyString
| CaseVariantChar a b s t :
    sameLetter a b -> CaseVariant s t -> CaseVariant (String a s) (String b t).

(** Two strings differ only in letter case or in leading and trailing
    white space. *)
Definition SameStation (s t : string) : Prop := CaseVariant (trim s) (trim t).

(** Decides that the parts of a time read as the given numbers. *)
Definition readsAs (parts : list (option Z)) (hours minutes : Z) : bool :=
  match parts with
  | [Some h; Some m] => (h =? hours) && (m =? minutes)
  | _ => false
  end.

(** The minute of the day a time names, read the way the validator reads
    a token. *)
Definition minuteOfDay (time : string) : option Z :=
  match map parseInt
          (splitOn (fun c => Ascii.eqb c ":" || Ascii.eqb c ".") time) with
  | [Some hours; Some minutes] => Some (hours * 60 + minutes)
  | _ => None
  end.

Fixpoint ascending (l : list Z) : bool :=
  match l with
  | a :: (b :: _) as rest => (a <=? b) && ascending rest
  | _ => true
  end.

(** The trains are in chronological order of their times. *)
Definition Chronological (trains : list TrainTime.t) : Prop :=
  exists minutes,
    map (fun train => minuteOfDay (TrainTime.time train)) trains
    = map Some minutes
    /\ ascending minutes = true.

(** What the loops of the page function keep true: the accepted times are
    those of the trains, are pairwise distinct and are valid. *)
Definition Collected (found : PlaywrightRushScraper.Found) : Prop :=
  map TrainTime.time (PlaywrightRushScraper.trainTimes found)
  = PlaywrightRushScraper.processedTimes found
  /\ NoDup (PlaywrightRushScraper.processedTimes found)
  /\ Forall (fun time => PlaywrightRushScraper.validTimeToken time = true)
       (PlaywrightRushScraper.processedTimes found).

End Spec.

(** ** Property reads on plain objects *)

Module JsObject.

(** The properties every plain object inherits from [Object.prototype]. *)
Definition objectPrototypeNames : list string :=
  [ "constructor"; "__defineGetter__"; "__defineSetter__"; "hasOwnProperty";
    "__lookupGetter__"; "__lookupSetter__"; "isPrototypeOf";
    "propertyIsEnumerable"; "toString"; "valueOf"; "__proto__";
    "toLocaleString" ].

(** What [object[key]] yields when it is not [undefined]: a value stored in
    the object, or the member of [Object.prototype] of that name (a function,
    or the prototype itself), which is truthy and is not a string. *)
Inductive value (V : Type) : Type :=
| Own (v : V)
| Inherited (name : string).

Arguments Own {V} v.
Arguments Inherited {V} name.

(** [object[key]]; [None] is [undefined]. *)
Definition getProperty {V} (object : JsMap.t V) (key : string) : option (value V) :=
  match JsMap.get key object with
  | Some v => Some (Own v)
  | None =>
      if existsb (String.eqb key) objectPrototypeNames
      then Some (Inherited key) else None
  end.

End JsObject.

(** ** class StationManager *)

Module StationManager.
Import JS.
Import JsObject.

(** [this.stations] *)
Definition stations : JsMap.t (list string) :=
  [ ("MRT-3",
     [ "North Avenue"; "Quezon Avenue"; "GMA-Kamuning"; "Cubao";
       "Santolan-Annapolis"; "Ortigas"; "Shaw Boulevard"; "Boni";
       "Guadalupe"; "Buendia"; "Ayala"; "Magallanes"; "Taft Avenue" ]);
    ("LRT-1",
     [ "Roosevelt"; "Balintawak"; "Monumento"; "5th Avenue"; "R. Papa";
       "Abad Santos"; "Blumentritt"; "Tayuman"; "Bambang"; "Doroteo Jose";
       "Carriedo"; "Central Terminal"; "United Nations"; "Pedro Gil";
       "Quirino"; "Vito Cruz"; "Gil Puyat"; "Libertad"; "EDSA"; "Baclaran" ]);
    ("LRT-2",
     [ "Antipolo"; "Marikina"; "Santolan"; "Katipunan"; "Anonas"; "Cubao";
       "Betty Go-Belmonte"; "Gilmore"; "J. Ruiz"; "V. Mapa"; "Pureza";
       "Legarda"; "Recto" ]) ].

(** [this.stationToLine], filled by the loops of the constructor: a later
    line overwrites an earlier one for a station name they share. *)
Definition stationToLine : JsMap.t string :=
  fold_left
    (fun (table : JsMap.t string) (entry : string * list string) =>
       let '(line, stationList) := entry in
       fold_left
         (fun table station => JsMap.set (toLowerCase station) line table)
         stationList table)
    (JsMap.entries stations) JsMap.empty.

Definition getAllStations : list string :=
  fold_left
    (fun (allStations : list string) (entry : string * list string) =>
       (allStations ++ snd entry)%list)
    (JsMap.entries stations) [].

(** [this.stations[line] || []]: the stations of a line, the empty array
    for an unknown line, and for the name of a member of [Object.prototype]
    that member, which is not an array. *)
Definition getLineStations (line : string) : value (list string) :=
  match getProperty stations line with
  | Some v => v
  | None => Own []
  end.

(** [this.stationToLine[stationName.toLowerCase()] || null] *)
Definition findStationLine (stationName : string) : option (value string) :=
  match getProperty stationToLine (toLowerCase stationName) with
  | Some (Own EmptyString) => None
  | found => found
  end.

(** The first station that satisfies [test], in the order of
    [getAllStations]. *)
Definition firstStation (test : string -> bool) : option string :=
  find test getAllStations.

Definition validateStation (stationInput : string) : option string :=
  let cleanInput := trim stationInput in
  match firstStation
          (fun station =>
             String.eqb (toLowerCase station) (toLowerCase cleanInput)) with
  | Some station => Some station
  | None =>
      firstStation
        (fun station =>
           includes (toLowerCase cleanInput) (toLowerCase station)
           || includes (toLowerCase station) (toLowerCase cleanInput))
  end.

(** *** The edit distance *)

(** [Math.min(a, b, c)] *)
Definition min3 (a b c : Z) : Z := Z.min (Z.min a b) c.

(** The cells [matrix[i][j]], [j >= 1], of one row.  [previous] is the row
    above from column [j - 1] on, [left] the cell [matrix[i][j - 1]],
    [char2] the character [str2.charAt(i - 1)] and [str1] the characters of
    the first string from [j - 1] on. *)
Fixpoint fillRow (char2 : ascii) (str1 : list ascii) (previous : list Z)
    (left : Z) : list Z :=
  match str1, previous with
  | char1 :: str1', diagonal :: ((up :: _) as previous') =>
      let cell :=
        if Ascii.eqb char2 char1 then diagonal
        else min3 (diagonal + 1) (left + 1) (up + 1) in
      cell :: fillRow char2 str1' previous' cell
  | _, _ => []
  end.

(** The rows of the matrix from row [i] on, given row [i]; [str2] holds the
    characters of the second string from [i] on. *)
Fixpoint rowsFrom (str1 : list ascii) (row : list Z) (i : Z)
    (str2 : list ascii) : list (list Z) :=
  row ::
  match str2 with
  | [] => []
  | char2 :: str2' =>
      rowsFrom str1 ((i + 1) :: fillRow char2 str1 row (i + 1)) (i + 1) str2'
  end.

(** The matrix the function fills: row 0 is [0, 1, ..., str1.length], and
    row [i] starts with [i]. *)
Definition matrix (str1 str2 : string) : list (list Z) :=
  rowsFrom (list_ascii_of_string str1)
    (map Z.of_nat (seq 0 (String.length str1 + 1))) 0
    (list_ascii_of_string str2).

(** [matrix[str2.length][str1.length]] *)
Definition _levenshteinDistance (str1 str2 : string) : Z :=
  nth (String.length str1) (nth (String.length str2) (matrix str1 str2) []) 0.

(** A similarity score, kept as the exact fraction whose quotient the
    function returns as a double.  For strings shorter than [2^26]
    characters two scores compare as doubles the way their fractions do. *)
Record Score := { numerator : Z; denominator : Z }.

Definition _calculateSimilarity (str1 str2 : string) : Score :=
  let longer :=
    if (String.length str2 <? String.length str1)%nat then str1 else str2 in
  let shorter :=
    if (String.length str2 <? String.length str1)%nat then str2 else str1 in
  if (String.length longer =? 0)%nat then {| numerator := 1; denominator := 1 |}
  else
    let distance := _levenshteinDistance longer shorter in
    {| numerator := Z.of_nat (String.length longer) - distance;
       denominator := Z.of_nat (String.length longer) |}.

(** [a < b] on scores; the denominators are positive. *)
Definition scoreLt (a b : Score) : bool :=
  numerator a * denominator b <? numerator b * denominator a.

(** [similarity > 0.3] *)
Definition aboveThreshold (similarity : Score) : bool :=
  scoreLt {| numerator := 3; denominator := 10 |} similarity.

(** One step of the stable sort by [(a, b) => b.similarity - a.similarity]:
    the new suggestion goes before the first one that does not score
    strictly higher. *)
Fixpoint insertSuggestion (s : string * Score) (sorted : list (string * Score))
  : list (string * Score) :=
  match sorted with
  | [] => [s]
  | t :: rest =>
      if scoreLt (snd s) (snd t) then t :: insertSuggestion s rest
      else s :: sorted
  end.

(** [suggestions.sort(...)]: highest similarity first, equal similarities
    in the order they were pushed. *)
Definition sortSuggestions (suggestions : list (string * Score))
  : list (string * Score) :=
  fold_right insertSuggestion [] suggestions.

(** [array.slice(0, end)] *)
Definition slice0 {A} (finish : Z) (array : list A) : list A :=
  if finish <? 0
  then firstn (Z.to_nat (Z.of_nat (List.length array) + finish)) array
  else firstn (Z.to_nat finish) array.

(** [maxSuggestions] is 3 when the caller leaves it out. *)
Definition getStationSuggestions (stationInput : string) (maxSuggestions : Z)
  : list string :=
  let suggestions :=
    fold_left
      (fun suggestions station =>
         let similarity :=
           _calculateSimilarity (toLowerCase stationInput) (toLowerCase station) in
         if aboveThreshold similarity
         then (suggestions ++ [(station, similarity)])%list else suggestions)
      getAllStations [] in
  map fst (slice0 maxSuggestions (sortSuggestions suggestions)).

(** *** Routes *)

(** [array.indexOf(x)] *)
Fixpoint indexOf (x : string) (array : list string) : Z :=
  match array with
  | [] => -1
  | y :: rest =>
      if String.eqb y x then 0
      else let i := indexOf x rest in if i <? 0 then -1 else i + 1
  end.

(** The two shapes of route information.  The [line] of a transfer route
    is the text of [originLine], an arrow and the text of [destinationLine];
    the record keeps the two lines. *)
Inductive RouteInfo :=
| SameLineRoute (line origin destination : string)
    (originIndex destinationIndex : Z) (direction : string)
    (stationsBetween : Z)
| TransferRoute (origin destination : string)
    (originLine destinationLine : value string).

Definition transferRequired (route : RouteInfo) : bool :=
  match route with
  | SameLineRoute _ _ _ _ _ _ _ => false
  | TransferRoute _ _ _ _ => true
  end.

(** [a === b] on what [findStationLine] returns. *)
Definition sameLine (a b : value string) : bool :=
  match a, b with
  | Own x, Own y => String.eqb x y
  | Inherited x, Inherited y => String.eqb x y
  | _, _ => false
  end.

(** The stations that [getRouteInfo] searches on a common line; [None]
    when the [try] block throws because the value found is not an array.
    A member of [Object.prototype] used as a line names no property of
    [this.stations], so its list is empty. *)
Definition stationsOfLine (line : value string) : option (list string) :=
  match line with
  | Own name =>
      match getLineStations name with
      | Own lineStations => Some lineStations
      | Inherited _ => None
      end
  | Inherited _ => Some []
  end.

Definition getRouteInfo (origin destination : string) : option RouteInfo :=
  match findStationLine origin, findStationLine destination with
  | Some originLine, Some destinationLine =>
      if sameLine originLine destinationLine then
        match originLine, stationsOfLine originLine with
        | Own line, Some lineStations =>
            let originIdx := indexOf origin lineStations in
            let destIdx := indexOf destination lineStations in
            if originIdx =? destIdx then None
            else Some (SameLineRoute line origin destination originIdx destIdx
                         (if destIdx <? originIdx then "northbound"
                          else "southbound")
                         (Z.abs (destIdx - originIdx)))
        | _, _ => None
        end
      else Some (TransferRoute origin destination originLine destinationLine)
  | _, _ => None
  end.

Definition isValidRoute (origin destination : string) : bool :=
  match getRouteInfo origin destination with Some _ => true | None => false end.

End StationManager.

(** ** utils/helpers.js: the input helpers *)

Module Helpers.
Import JS.

(** [text.replace(/\s+/g, ' ')]: every run of white space becomes one
    space.  [inRun] says that the character before was white space. *)
Fixpoint collapse (inRun : bool) (text : string) : string :=
  match text with
  | EmptyString => EmptyString
  | String c rest =>
      if isSpace c then
        if inRun then collapse true rest else String " " (collapse true rest)
      else String c (collapse false rest)
  end.

(** The characters that [/[^a-zA-Z0-9\s\-\._]/g] leaves in place. *)
Definition keptCharacter (c : ascii) : bool :=
  inRange 97 122 c || inRange 65 90 c || isDigit c || isSpace c
  || Ascii.eqb c "-" || Ascii.eqb c "." || Ascii.eqb c "_".

Fixpoint removeSpecial (text : string) : string :=
  match text with
  | EmptyString => EmptyString
  | String c rest =>
      if keptCharacter c then String c (removeSpecial rest)
      else removeSpecial rest
  end.

Definition cleanUserInput (text : string) : string :=
  match text with
  | EmptyString => EmptyString
  | _ =>
      let cleanedText := trim text in
      let cleanedText := collapse false cleanedText in
      let cleanedText := removeSpecial cleanedText in
      cleanedText
  end.

Definition greetings : list string :=
  [ "hi"; "hello"; "hey"; "good morning"; "good afternoon"; "good evening";
    "kumusta"; "kamusta"; "start"; "begin"; "help"; "aloha"; "yo"; "sup" ].

Definition isGreeting (text : string) : bool :=
  let textLower := trim (toLowerCase text) in
  existsb (fun greeting => includes textLower greeting) greetings.

End Helpers.

(** ** class ConversationHandler: the sessions

    The handler keeps one session per user in a [Map].  A session is an
    object that is reached through the map only, so that a write to a field
    of the session is a write to the map, at the place the key has. *)

Module ConversationState.
Definition INITIAL : string := "initial".
Definition WAITING_FOR_ORIGIN : string := "waiting_for_origin".
Definition WAITING_FOR_ORIGIN_LINE : string := "waiting_for_origin_line".
Definition WAITING_FOR_ORIGIN_STATION : string := "waiting_for_origin_station".
Definition WAITING_FOR_DESTINATION : string := "waiting_for_destination".
Definition WAITING_FOR_DESTINATION_LINE : string :=
  "waiting_for_destination_line".
Definition WAITING_FOR_DESTINATION_STATION : string :=
  "waiting_for_destination_station".
Definition COMPLETED : string := "completed".
End ConversationState.

Module ConversationHandler.

(** The keys under which the handler files the data of a session. *)
Inductive DataKey :=
| origin
| selected_origin_line
| selected_destination_line
| last_query_time.

Definition sameKey (a b : DataKey) : bool :=
  match a, b with
  | origin, origin
  | selected_origin_line, selected_origin_line
  | selected_destination_line, selected_destination_line
  | last_query_time, last_query_time => true
  | _, _ => false
  end.

(** What is filed: the name of a station or a line, or an instant. *)
Inductive DataValue :=
| Text (text : string)
| Instant (time : Z).

(** The [data] object of a session. *)
Definition Data := list (DataKey * DataValue).

(** [data[key]]; [None] is [undefined]. *)
Fixpoint getData (key : DataKey) (data : Data) : option DataValue :=
  match data with
  | [] => None
  | (key', value) :: data' =>
      if sameKey key key' then Some value else getData key data'
  end.

(** [data[key] = value] *)
Fixpoint setData (key : DataKey) (value : DataValue) (data : Data) : Data :=
  match data with
  | [] => [(key, value)]
  | (key', value') :: data' =>
      if sameKey key key' then (key, value) :: data'
      else (key', value') :: setData key value data'
  end.

Record Session := {
  state : string;
  data : Data;
  createdAt : Z;
  lastActivity : Z
}.

Definition withState (session : Session) (state' : string) : Session :=
  {| state := state'; data := data session;
     createdAt := createdAt session; lastActivity := lastActivity session |}.

Definition withData (session : Session) (data' : Data) : Session :=
  {| state := state session; data := data';
     createdAt := createdAt session; lastActivity := lastActivity session |}.

Definition withLastActivity (session : Session) (time : Z) : Session :=
  {| state := state session; data := data session;
     createdAt := createdAt session; lastActivity := time |}.

(** The fields of the handler ([this]); the station manager has no state. *)
Record Handler := {
  rushScraper : Scraper;
  userSessions : JsMap.t Session;
  sessionTimeout : Z
}.

Definition setSessions (this : Handler) (sessions : JsMap.t Session) : Handler :=
  {| rushScraper := rushScraper this; userSessions := sessions;
     sessionTimeout := sessionTimeout this |}.

Definition constructor (env : Env) : Handler :=
  {| rushScraper :=
       PlaywrightRushScraper.constructor
         {| optCacheDuration := None; optUseBrowser := Some true;
            optBrowserTimeout := None; optBrowserType := None |} env;
     userSessions := JsMap.empty;
     sessionTimeout := 60 * 60 * 1000 |}.

(** [sessions.delete(userId)] *)
Fixpoint delete (userId : string) (sessions : JsMap.t Session)
  : JsMap.t Session :=
  match sessions with
  | [] => []
  | (userId', session) :: sessions' =>
      if String.eqb userId userId' then sessions'
      else (userId', session) :: delete userId sessions'
  end.

(** The test of the first loop of [_cleanupExpiredSessions].  A session
    always has its [lastActivity], which as an object is truthy, so that
    [session.lastActivity || session.createdAt] is the [lastActivity]. *)
Definition expired (this : Handler) (currentTime : Z) (session : Session)
  : bool :=
  let lastActivity := lastActivity session in
  currentTime - lastActivity >? sessionTimeout this.

(** [currentTime] is the [new Date()] the method starts with. *)
Definition _cleanupExpiredSessions (currentTime : Z) (this : Handler)
  : Handler :=
  let expiredUsers :=
    map fst
      (filter (fun entry => expired this currentTime (snd entry))
         (JsMap.entries (userSessions this))) in
  setSessions this
    (fold_left (fun sessions userId => delete userId sessions)
       expiredUsers (userSessions this)).

(** [now] is the instant of the call: the clock is read by
    [_cleanupExpiredSessions] and for [createdAt] and [lastActivity], with
    nothing awaited in between.  The session returned is the one in the
    map. *)
Definition _getUserSession (now : Z) (userId : string) (this : Handler)
  : Session * Handler :=
  let this := _cleanupExpiredSessions now this in
  match JsMap.get userId (userSessions this) with
  | None =>
      let session :=
        {| state := ConversationState.INITIAL; data := [];
           createdAt := now; lastActivity := now |} in
      (session, setSessions this (JsMap.set userId session (userSessions this)))
  | Some session =>
      let session := withLastActivity session now in
      (session, setSessions this (JsMap.set userId session (userSessions this)))
  end.

Definition _setUserState (now : Z) (userId state : string) (this : Handler)
  : Handler :=
  let '(session, this) := _getUserSession now userId this in
  setSessions this
    (JsMap.set userId (withState session state) (userSessions this)).

Definition _setUserData (now : Z) (userId : string) (key : DataKey)
    (value : DataValue) (this : Handler) : Handler :=
  let '(session, this) := _getUserSession now userId this in
  setSessions this
    (JsMap.set userId (withData session (setData key value (data session)))
       (userSessions this)).

Definition _getUserData (now : Z) (userId : string) (key : DataKey)
    (this : Handler) : option DataValue * Handler :=
  let '(session, this) := _getUserSession now userId this in
  (getData key (data session), this).

Definition _clearUserSession (userId : string) (this : Handler) : Handler :=
  if JsMap.has userId (userSessions this)
  then setSessions this (delete userId (userSessions this))
  else this.

(** [session.state || ConversationState.INITIAL]: the empty string is
    falsy. *)
Definition getUserState (now : Z) (userId : string) (this : Handler)
  : string * Handler :=
  let '(session, this) := _getUserSession now userId this in
  (match state session with
   | EmptyString => ConversationState.INITIAL
   | state => state
   end, this).

End ConversationHandler.

(** ** Vocabulary of the further properties *)

Module Notions.
Import JS.

(** The polynomial hash of a string: the sum of its character codes
    weighted by the powers of 31, the first character highest. *)
Definition polynomialHash (str : string) : Z :=
  fold_left (fun h c => 31 * h + charCode c) (list_ascii_of_string str) 0.

(** Two scrapers with the same configuration: only the cache and the
    browser reference may differ. *)
Definition sameConfiguration (this this' : Scraper) : Prop :=
  baseUrl this' = baseUrl this
  /\ cacheDuration this' = cacheDuration this
  /\ useBrowserScraper this' = useBrowserScraper this
  /\ browserTimeout this' = browserTimeout this
  /\ browserType this' = browserType this.

(** The edit distance by its recurrence on the first characters: equal
    first characters cost nothing, otherwise one more than the best of a
    substitution, an insertion and a deletion. *)
Fixpoint editDistance (s : list ascii) : list ascii -> Z :=
  match s with
  | [] => fun t => Z.of_nat (List.length t)
  | a :: s' =>
      fix against (t : list ascii) : Z :=
        match t with
        | [] => Z.of_nat (List.length s)
        | b :: t' =>
            if Ascii.eqb a b then editDistance s' t'
            else 1 + Z.min (Z.min (editDistance s' t') (against t'))
                       (editDistance s' t)
        end
  end.

(** The row of distances from [a] to [b] and to [b] extended, one by one,
    by the characters of [rest]. *)
Fixpoint distanceRow (a b rest : list ascii) : list Z :=
  editDistance a b ::
  match rest with
  | [] => []
  | c :: rest' => distanceRow a (c :: b) rest'
  end.

(** The score a station gets for an input in [getStationSuggestions]. *)
Definition stationScore (stationInput station : string) : StationManager.Score :=
  StationManager._calculateSimilarity (toLowerCase stationInput)
    (toLowerCase station).

(** [b <= a] on scores. *)
Definition scoreGe (a b : StationManager.Score) : Prop :=
  StationManager.scoreLt a b = false.

(** The order of the sorted suggestions. *)
Definition ranksBefore (s t : string * StationManager.Score) : Prop :=
  scoreGe (snd s) (snd t).

(** A score with a positive denominator. *)
Definition scoreValid (a : StationManager.Score) : Prop :=
  0 < StationManager.denominator a.

(** A text that [cleanUserInput] has nothing to do on, read after a
    character that was white space or not: only letters, digits, hyphens,
    dots, underscores and single plain spaces. *)
Fixpoint tidy (afterSpace : bool) (text : string) : bool :=
  match text with
  | EmptyString => true
  | String c rest =>
      Helpers.keptCharacter c
      && (if isSpace c
          then Ascii.eqb c " " && negb afterSpace && tidy true rest
          else tidy false rest)
  end.

(** A time token of a schedule: one or two digits, a colon, two digits. *)
Definition clockToken (time : string) : bool :=
  match list_ascii_of_string time with
  | [d1; d2; c; d3; d4] =>
      isDigit d1 && isDigit d2 && Ascii.eqb c ":" && isDigit d3 && isDigit d4
  | [d1; c; d3; d4] =>
      isDigit d1 && Ascii.eqb c ":" && isDigit d3 && isDigit d4
  | _ => false
  end.

(** A train as the page function of [RushScraper] finds it and as
    [_calculateMinutesAway] completes it: a time token, on time, a count of
    minutes that is a number and is not negative. *)
Definition liveTrain (train : TrainTime.t) : Prop :=
  clockToken (TrainTime.time train) = true
  /\ TrainTime.status train = "On Time"
  /\ exists minutes, TrainTime.minutesAway train = Some minutes /\ 0 <= minutes.

(** No user has two sessions: what holds of a [Map]. *)
Definition distinctUsers (this : ConversationHandler.Handler) : Prop :=
  NoDup (map fst (ConversationHandler.userSessions this)).

(** The session a handler starts for a user it does not know. *)
Definition newSession (now : Z) : ConversationHandler.Session :=
  {| ConversationHandler.state := ConversationState.INITIAL;
     ConversationHandler.data := [];
     ConversationHandler.createdAt := now;
     ConversationHandler.lastActivity := now |}.

(** The session of a user that the clean-up leaves in place, if any. *)
Definition surviving (this : ConversationHandler.Handler) (now : Z)
    (userId : string) : option ConversationHandler.Session :=
  match JsMap.get userId (ConversationHandler.userSessions this) with
  | Some session =>
      if ConversationHandler.expired this now session then None
      else Some session
  | None => None
  end.

(** The session that [_getUserSession] hands out. *)
Definition sessionAt (this : ConversationHandler.Handler) (now : Z)
    (userId : string) : ConversationHandler.Session :=
  match surviving this now userId with
  | Some session => ConversationHandler.withLastActivity session now
  | None => newSession now
  end.

End Notions.

(** ** Further sample inputs *)

Module Cases.

(** The stations of MRT-3, as the table has them. *)
Definition mrt3 : list string :=
  match StationManager.getLineStations "MRT-3" with
  | JsObject.Own lineStations => lineStations
  | JsObject.Inherited _ => []
  end.

(** A page with one timetable, which reads 08:05, 08:15, 08:05 again and
    25:70. *)
Definition timetable : Document :=
  {| querySelectorAll := fun selector =>
       if String.eqb selector "table, .schedule, .timetable, .train-times"
       then Normal [Samples.cell "Northbound 08:05 08:15 08:05 25:70"]
       else Normal [] |}.

(** A browser that starts and a page with a text input for the origin,
    which answers with [document]; the window holds an object and a
    response was heard. *)
Definition visit (document : Document) : RushScraper.Visit :=
  {| RushScraper.clockCheck := Samples.morning;
     RushScraper.clockPage := Samples.morning + 9000;
     RushScraper.clockPost := Samples.morning + 9005;
     RushScraper.clockStore := Samples.morning + 9010;
     RushScraper.launch := Normal {| pid := 4242 |};
     RushScraper.newPage := Normal tt;
     RushScraper.setViewport := Normal tt;
     RushScraper.setUserAgent := Normal tt;
     RushScraper.goto := fun _ => Normal tt;
     RushScraper.query := fun selector =>
       Normal (String.eqb selector
                 ("input" ++ PlaywrightRushScraper.attrContains "name" "origin"));
     RushScraper.tagName := fun _ => Normal "input";
     RushScraper.dropdownOptions := fun _ => Normal [];
     RushScraper.selectOption := fun _ _ => Normal tt;
     RushScraper.click := fun _ => Normal tt;
     RushScraper.typeText := fun _ _ => Normal tt;
     RushScraper.pressTab := Normal tt;
     RushScraper.evaluateSchedule := Normal document;
     RushScraper.evaluatePreloaded :=
       Normal (Some {| RushScraper.json := "{trains: []}" |});
     RushScraper.reload := Normal tt;
     RushScraper.intercepted :=
       Some {| RushScraper.json := "{departures: []}" |};
     RushScraper.closeBrowser := Normal tt |}.

(** No browser can be launched. *)
Definition noBrowser : RushScraper.Visit :=
  {| RushScraper.clockCheck := Samples.morning;
     RushScraper.clockPage := Samples.morning;
     RushScraper.clockPost := Samples.morning;
     RushScraper.clockStore := Samples.morning + 1;
     RushScraper.launch := Throw "Failed to launch the browser process";
     RushScraper.newPage := Throw "closed";
     RushScraper.setViewport := Throw "closed";
     RushScraper.setUserAgent := Throw "closed";
     RushScraper.goto := fun _ => Throw "closed";
     RushScraper.query := fun _ => Throw "closed";
     RushScraper.tagName := fun _ => Throw "closed";
     RushScraper.dropdownOptions := fun _ => Throw "closed";
     RushScraper.selectOption := fun _ _ => Throw "closed";
     RushScraper.click := fun _ => Throw "closed";
     RushScraper.typeText := fun _ _ => Throw "closed";
     RushScraper.pressTab := Throw "closed";
     RushScraper.evaluateSchedule := Throw "closed";
     RushScraper.evaluatePreloaded := Throw "closed";
     RushScraper.reload := Throw "closed";
     RushScraper.intercepted := None;
     RushScraper.closeBrowser := Throw "closed" |}.

(** [new PlaywrightRushScraper({ cacheDuration: -5 })] *)
Definition hasty : Scraper :=
  PlaywrightRushScraper.constructor
    {| optCacheDuration := Some (-5); optUseBrowser := None;
       optBrowserTimeout := None; optBrowserType := None |} Samples.noEnv.

(** A handler in a conversation with one user, who has named the origin
    and is asked for the destination. *)
Definition talking : ConversationHandler.Handler :=
  ConversationHandler._setUserState Samples.morning "alice"
    ConversationState.WAITING_FOR_DESTINATION
    (ConversationHandler._setUserData Samples.morning "alice"
       ConversationHandler.origin (ConversationHandler.Text "Ayala")
       (ConversationHandler.constructor Samples.noEnv)).

End Cases.

(** * Properties *)

(** ** The map *)

Module JsMapFacts.
Section WithValue.
Context {V : Type}.
Implicit Types (m : JsMap.t V) (k : string) (v : V).

Lemma get_set_same k v m : JsMap.get k (JsMap.set k v m) = Some v.
Proof.
  induction m as [| [k' v'] m IH]; simpl.
  - now rewrite String.eqb_refl.
  - destruct (String.eqb k k') eqn:E; simpl.
    + now rewrite String.eqb_refl.
    + now rewrite E.
Qed.

Lemma get_set_other k k' v m :
  k <> k' -> JsMap.get k (JsMap.set k' v m) = JsMap.get k m.
Proof.
  intros Hk. apply String.eqb_neq in Hk.
  induction m as [| [k0 v0] m IH]; simpl.
  - now rewrite Hk.
  - destruct (String.eqb k' k0) eqn:E; simpl.
    + apply String.eqb_eq in E. subst k0. now rewrite Hk.
    + now rewrite IH.
Qed.

Lemma has_set_same k v m : JsMap.has k (JsMap.set k v m) = true.
Proof. unfold JsMap.has. now rewrite get_set_same. Qed.

Lemma get_In k v m : JsMap.get k m = Some v -> In (k, v) m.
Proof.
  induction m as [| [k' v'] m IH]; simpl; [discriminate |].
  destruct (String.eqb k k') eqn:E.
  - apply String.eqb_eq in E. intros [= ->]. subst. now left.
  - intros H. right. auto.
Qed.

Lemma In_set k v m : In (k, v) (JsMap.set k v m).
Proof. apply get_In, get_set_same. Qed.

(** A property of all values survives a write of a value that has it. *)
Lemma Forall_set (P : V -> Prop) k v m :
  P v -> Forall (fun kv => P (snd kv)) m ->
  Forall (fun kv => P (snd kv)) (JsMap.set k v m).
Proof.
  intros Hv. induction 1 as [| [k' v'] m Hx Hm IH]; simpl.
  - now constructor.
  - destruct (String.eqb k k'); constructor; auto.
Qed.

Lemma Forall_get (P : V -> Prop) k v m :
  Forall (fun kv => P (snd kv)) m -> JsMap.get k m = Some v -> P v.
Proof.
  intros Hm Hg. apply get_In in Hg.
  rewrite Forall_forall in Hm. exact (Hm _ Hg).
Qed.
End WithValue.
End JsMapFacts.

(** ** Completions *)

Lemma tryCatch_normal {A} (body : completion A) (fallback : A) :
  exists a, tryCatch body (fun _ => Normal fallback) = Normal a.
Proof. destruct body; simpl; eauto. Qed.

(** What a [try] whose handler returns [fallback] can yield, other than
    [fallback], is what its body yields. *)
Lemma tryCatch_inv {A} (body : completion A) (fallback a : A) :
  tryCatch body (fun _ => Normal fallback) = Normal a ->
  body = Normal a \/ a = fallback.
Proof. destruct body; simpl; intros [= <-]; auto. Qed.

Lemma bind_normal_inv {A B} (c : completion A) (k : A -> completion B) b :
  bind c k = Normal b -> exists a, c = Normal a /\ k a = Normal b.
Proof. destruct c; simpl; [eauto | discriminate]. Qed.

(** ** Hashing and travel time *)

Section ScraperFacts.
Import JS.
Import PlaywrightRushScraper.

Variable host : Host.

Lemma _hashString_nonneg str : 0 <= _hashString str.
Proof. apply Z.abs_nonneg. Qed.

(** The simulated station count lies between 2 and 11. *)
Lemma stationCount_bounds str :
  2 <= Z.abs (rem (_hashString str) 10) + 2 <= 11.
Proof.
  unfold rem. pose proof (_hashString_nonneg str) as H.
  pose proof (Z.rem_bound_pos (_hashString str) 10 H ltac:(lia)). lia.
Qed.

Lemma _estimateTravelTime_bounds origin destination :
  6 <= _estimateTravelTime origin destination <= 33.
Proof.
  unfold _estimateTravelTime. pose proof (stationCount_bounds origin). lia.
Qed.

Lemma simulated_travelTime_bounds now origin destination line :
  6 <= Schedule.estimatedTravelTime
         (_simulateTrainData host now origin destination line) <= 33.
Proof.
  unfold _simulateTrainData. cbn [Schedule.estimatedTravelTime].
  pose proof (stationCount_bounds origin). lia.
Qed.

(** ** The extraction attempt *)

Lemma _selectTrainLine_normal w line :
  exists b, _selectTrainLine w line = Normal b.
Proof. apply tryCatch_normal. Qed.

Lemma _waitForTrainData_normal w : exists b, _waitForTrainData w = Normal b.
Proof. apply tryCatch_normal. Qed.

Lemma _performStationSearch_normal w stationName :
  exists b, _performStationSearch w stationName = Normal b.
Proof. apply tryCatch_normal. Qed.

Lemma _extractTrainDataFromPage_normal w origin destination line :
  exists r, _extractTrainDataFromPage host w origin destination line = Normal r.
Proof. apply tryCatch_normal. Qed.

(** [_attemptDataExtraction] never rejects. *)
Lemma _attemptDataExtraction_normal w this origin destination line :
  exists r,
    fst (_attemptDataExtraction host w this origin destination line) = Normal r.
Proof.
  unfold _attemptDataExtraction.
  destruct (useBrowserScraper this); simpl; [| eauto].
  destruct (_initBrowser w this) as [launched this']; simpl.
  apply tryCatch_normal.
Qed.

(** A record that comes out of the page has at least one train, a travel
    time of at least five minutes and is not marked as simulated. *)
Lemma _extractTrainDataFromPage_some w origin destination line r :
  _extractTrainDataFromPage host w origin destination line = Normal (Some r) ->
  exists document page,
    evaluate w = Normal document
    /\ pageFunction document (clockPage w) origin destination line = Some page
    /\ pageNextTrains page <> []
    /\ Schedule.nextTrains r
       = map (fillMinutesAway host (clockPost w)) (pageNextTrains page)
    /\ Schedule.estimatedTravelTime r = _estimateTravelTime origin destination
    /\ Schedule.simulated r = false.
Proof.
  unfold _extractTrainDataFromPage. intros H.
  apply tryCatch_inv in H as [H | H]; [| discriminate].
  apply bind_normal_inv in H as [[] [_ H]].
  apply bind_normal_inv in H as [document [Hev H]].
  destruct (pageFunction document (clockPage w) origin destination line)
    as [page |] eqn:Hpage; [| discriminate].
  destruct (Z.of_nat (List.length (pageNextTrains page)) >? 0) eqn:Hlen;
    [| discriminate].
  injection H as <-. exists document, page. simpl.
  repeat split; auto.
  - intros Hnil. rewrite Hnil in Hlen. discriminate.
  - unfold pageFunction in Hpage.
    destruct (Z.of_nat _ >? 0) in Hpage; [| discriminate].
    injection Hpage as <-. reflexivity.
Qed.

(** A record comes out of the attempt only when live extraction is
    enabled, the page was reached and the page function found trains. *)
Lemma _attemptDataExtraction_some w this origin destination line r :
  fst (_attemptDataExtraction host w this origin destination line)
    = Normal (Some r) ->
  useBrowserScraper this = true
  /\ (exists b, fst (_initBrowser w this) = Normal b
                /\ newContext w b = Normal tt)
  /\ newPage w = Normal tt
  /\ goto w (baseUrl this) = Normal tt
  /\ _performStationSearch w origin = Normal true
  /\ _extractTrainDataFromPage host w origin destination line = Normal (Some r).
Proof.
  unfold _attemptDataExtraction.
  destruct (useBrowserScraper this); simpl; [| discriminate].
  destruct (_initBrowser w this) as [launched this'] eqn:Hinit; simpl.
  assert (Hurl : baseUrl this' = baseUrl this).
  { unfold _initBrowser in Hinit.
    destruct (browser this); [now injection Hinit as _ <- |].
    destruct (launch w _); now injection Hinit as _ <-. }
  intros H. apply tryCatch_inv in H as [H | H]; [| discriminate].
  apply bind_normal_inv in H as [b [-> H]].
  apply bind_normal_inv in H as [[] [Hctx H]].
  apply bind_normal_inv in H as [[] [Hpage H]].
  apply bind_normal_inv in H as [[] [Hgoto H]].
  apply bind_normal_inv in H as [[] [_ H]].
  apply bind_normal_inv in H as [[] [_ H]].
  apply bind_normal_inv in H as [lineSelected [_ H]].
  apply bind_normal_inv in H as [[] [_ H]].
  apply bind_normal_inv in H as [searchSuccess [Hsearch H]].
  destruct searchSuccess; simpl in H; [| discriminate].
  apply bind_normal_inv in H as [[] [_ H]].
  apply bind_normal_inv in H as [[] [_ H]].
  apply bind_normal_inv in H as [trainData [Hextract H]].
  destruct trainData as [trainData |]; [| discriminate].
  injection H as <-. rewrite Hurl in Hgoto.
  repeat split; eauto.
Qed.

End ScraperFacts.

(** ** Total availability *)

Section Availability.
Import JS.
Import PlaywrightRushScraper.
Import Spec.

Variable host : Host.

Lemma _initBrowser_cache w this : cache (snd (_initBrowser w this)) = cache this.
Proof.
  unfold _initBrowser. destruct (browser this); [reflexivity |].
  destruct (launch w _); reflexivity.
Qed.

(** The extraction attempt leaves the cache as it is. *)
Lemma _attemptDataExtraction_cache w this origin destination line :
  cache (snd (_attemptDataExtraction host w this origin destination line))
  = cache this.
Proof.
  unfold _attemptDataExtraction.
  destruct (useBrowserScraper this); simpl; [| reflexivity].
  pose proof (_initBrowser_cache w this) as H.
  destruct (_initBrowser w this); exact H.
Qed.

Lemma cachedData_some this now cacheKey record :
  cachedData this now cacheKey = Some record ->
  exists entry,
    JsMap.get cacheKey (cache this) = Some entry
    /\ data entry = record
    /\ _isCacheValid this now (timestamp entry) = true.
Proof.
  unfold cachedData. destruct (JsMap.has _ _); [| discriminate].
  destruct (JsMap.get _ _) as [entry |]; [| discriminate].
  destruct (_isCacheValid _ _ _) eqn:E; [| discriminate].
  intros [= <-]. eauto.
Qed.

Lemma simulated_wellFormed now origin destination line :
  wellFormed (_simulateTrainData host now origin destination line).
Proof.
  split; [discriminate |].
  pose proof (simulated_travelTime_bounds host now origin destination line).
  lia.
Qed.

Lemma extracted_wellFormed w this origin destination line record :
  fst (_attemptDataExtraction host w this origin destination line)
    = Normal (Some record) ->
  wellFormed record.
Proof.
  intros H. apply _attemptDataExtraction_some in H
    as (_ & _ & _ & _ & _ & H).
  apply _extractTrainDataFromPage_some in H
    as (document & page & _ & _ & Hne & Htrains & Htravel & _).
  split.
  - rewrite Htrains. destruct (pageNextTrains page); [congruence | discriminate].
  - rewrite Htravel.
    pose proof (_estimateTravelTime_bounds origin destination). lia.
Qed.

Lemma store_cacheWellFormed this cacheKey record now :
  cacheWellFormed this -> wellFormed record ->
  cacheWellFormed (store this cacheKey record now).
Proof.
  intros Hc Hr. unfold cacheWellFormed, store. simpl.
  apply (JsMapFacts.Forall_set (fun e => wellFormed (data e))); assumption.
Qed.

Lemma constructor_cacheWellFormed options env :
  cacheWellFormed (constructor options env).
Proof. constructor. Qed.

(** The shape of a call that misses the cache: the attempt, then either
    its record or the simulated one, stored under the key. *)
Lemma scrapeTrainSchedule_miss w this origin destination line :
  cachedData this (clockCheck w) (_getCacheKey origin destination) = None ->
  let attempt := _attemptDataExtraction host w this origin destination line in
  let record :=
    match fst attempt with
    | Normal (Some response) => response
    | _ => _simulateTrainData host (clockStore w) origin destination line
    end in
  scrapeTrainSchedule host w this origin destination line
  = (Normal record,
     store (snd attempt) (_getCacheKey origin destination) record (clockStore w)).
Proof.
  intros Hmiss. unfold scrapeTrainSchedule. rewrite Hmiss. simpl.
  destruct (_attemptDataExtraction host w this origin destination line)
    as [[[response |] | e] this']; reflexivity.
Qed.

Lemma scrapeTrainSchedule_hit w this origin destination line record :
  cachedData this (clockCheck w) (_getCacheKey origin destination) = Some record ->
  scrapeTrainSchedule host w this origin destination line = (Normal record, this).
Proof. intros Hhit. unfold scrapeTrainSchedule. now rewrite Hhit. Qed.

(** [scrapeTrainSchedule] keeps the cached records well formed. *)
Lemma scrapeTrainSchedule_cacheWellFormed w this origin destination line :
  cacheWellFormed this ->
  cacheWellFormed
    (snd (scrapeTrainSchedule host w this origin destination line)).
Proof.
  intros Hcache.
  destruct (cachedData this (clockCheck w) (_getCacheKey origin destination))
    as [cached |] eqn:Hlookup.
  - now rewrite (scrapeTrainSchedule_hit _ _ _ _ _ _ Hlookup).
  - rewrite (scrapeTrainSchedule_miss _ _ _ _ _ Hlookup). simpl.
    apply store_cacheWellFormed.
    + unfold cacheWellFormed. now rewrite _attemptDataExtraction_cache.
    + pose proof (extracted_wellFormed w this origin destination line) as Hlive.
      destruct (fst (_attemptDataExtraction host w this origin destination line))
        as [[response |] | e]; auto using simulated_wellFormed.
Qed.

Lemma cleanup_cacheWellFormed w this : cacheWellFormed (snd (cleanup w this)).
Proof.
  unfold cleanup, _closeBrowser.
  destruct (browser this); [destruct (closeBrowser w) |]; constructor.
Qed.

(** Every scraper a program can hold has a well-formed cache. *)
Lemma Reachable_cacheWellFormed this : Reachable host this -> cacheWellFormed this.
Proof.
  induction 1 as [options env | w this origin destination line _ IH | w this _ _].
  - apply constructor_cacheWellFormed.
  - now apply scrapeTrainSchedule_cacheWellFormed.
  - apply cleanup_cacheWellFormed.
Qed.

(** C1. For every scraper whose cached records are well formed (every
    scraper a program can hold, by [Reachable_cacheWellFormed]), with live
    extraction enabled or not, and whatever the browser and the site do,
    [scrapeTrainSchedule] resolves: it yields a record that lists at least
    one train and has a non-negative estimated travel time, and the cache
    stays well formed.  When the call misses the cache and the extraction
    attempt yields no live record, the record is the simulated one. *)
Theorem scrapeTrainSchedule_always_resolves w this origin destination line :
  cacheWellFormed this ->
  exists record this',
    scrapeTrainSchedule host w this origin destination line
    = (Normal record, this')
    /\ Schedule.nextTrains record <> []
    /\ 0 <= Schedule.estimatedTravelTime record
    /\ cacheWellFormed this'
    /\ (cachedData this (clockCheck w) (_getCacheKey origin destination) = None ->
        (forall live,
            fst (_attemptDataExtraction host w this origin destination line)
            <> Normal (Some live)) ->
        record = _simulateTrainData host (clockStore w) origin destination line).
Proof.
  intros Hcache.
  destruct (cachedData this (clockCheck w) (_getCacheKey origin destination))
    as [cached |] eqn:Hlookup.
  - exists cached, this.
    rewrite (scrapeTrainSchedule_hit _ _ _ _ _ _ Hlookup).
    apply cachedData_some in Hlookup as (entry & Hget & <- & _).
    pose proof (JsMapFacts.Forall_get (fun e => wellFormed (data e))
                  _ _ _ Hcache Hget) as [Htrains Htravel].
    repeat split; auto. discriminate.
  - rewrite (scrapeTrainSchedule_miss _ _ _ _ _ Hlookup).
    pose proof (extracted_wellFormed w this origin destination line) as Hlive.
    pose proof (_attemptDataExtraction_cache w this origin destination line)
      as Hsame.
    destruct (_attemptDataExtraction host w this origin destination line)
      as [attempt this'] eqn:Hattempt. simpl in *.
    assert (Hthis' : cacheWellFormed this').
    { unfold cacheWellFormed. now rewrite Hsame. }
    destruct attempt as [[response |] | e].
    + destruct (Hlive response eq_refl) as [Htrains Htravel].
      eexists _, _. split; [reflexivity |].
      repeat split; auto.
      * apply store_cacheWellFormed; [assumption | now split].
      * intros _ Hnone. now elim (Hnone response).
    + eexists _, _. split; [reflexivity |].
      destruct (simulated_wellFormed (clockStore w) origin destination line).
      repeat split; auto.
      apply store_cacheWellFormed; [assumption | now split].
    + eexists _, _. split; [reflexivity |].
      destruct (simulated_wellFormed (clockStore w) origin destination line).
      repeat split; auto.
      apply store_cacheWellFormed; [assumption | now split].
Qed.

End Availability.

(** ** Failures and their propagation *)

Section Failures.
Import JS.
Import PlaywrightRushScraper.
Import Spec.

Variable host : Host.


(** A failed launch inside [scrapeTrainSchedule] is absorbed as well: the
    [catch] of [_attemptDataExtraction] turns it into "no data". *)
Lemma launch_failure_absorbed w this origin destination line error :
  browser this = None ->
  launch w (browserEngine this) = Throw error ->
  fst (_attemptDataExtraction host w this origin destination line)
  = Normal None.
Proof.
  intros Hnone Hlaunch. unfold _attemptDataExtraction, _initBrowser.
  destruct (useBrowserScraper this); [| reflexivity]. simpl.
  now rewrite Hnone, Hlaunch.
Qed.


(** C3. With live extraction disabled, a call that misses the cache
    resolves with the simulated record for the request: it carries the
    line, the origin and the destination asked for, is marked as simulated
    and lists five trains. *)
Theorem disabled_toggle_returns_simulated w this origin destination line :
  useBrowserScraper this = false ->
  cachedData this (clockCheck w) (_getCacheKey origin destination) = None ->
  exists record,
    fst (scrapeTrainSchedule host w this origin destination line) = Normal record
    /\ record = _simulateTrainData host (clockStore w) origin destination line
    /\ Schedule.line record = line
    /\ Schedule.origin record = origin
    /\ Schedule.destination record = destination
    /\ Schedule.simulated record = true
    /\ List.length (Schedule.nextTrains record) = 5%nat.
Proof.
  intros Hoff Hmiss.
  exists (_simulateTrainData host (clockStore w) origin destination line).
  rewrite (scrapeTrainSchedule_miss host _ _ _ _ _ Hmiss).
  unfold _attemptDataExtraction. rewrite Hoff. simpl. repeat split.
Qed.

(** C9. The simulation has no hidden input.  Two runs for the same request
    at the same instant give the same record.  The minutes away are 3, 8,
    15, 23 and 33 in every run, whatever the instant, the stations and the
    line, and the estimated travel time is the same for every run with the
    same origin. *)
Theorem simulation_is_deterministic :
  forall now now' origin destination destination' line line',
    let first := _simulateTrainData host now origin destination line in
    let second := _simulateTrainData host now' origin destination' line' in
    (now = now' -> destination = destination' -> line = line' -> first = second)
    /\ map TrainTime.minutesAway (Schedule.nextTrains first)
       = [Some 3; Some 8; Some 15; Some 23; Some 33]
    /\ map TrainTime.minutesAway (Schedule.nextTrains first)
       = map TrainTime.minutesAway (Schedule.nextTrains second)
    /\ List.length (Schedule.nextTrains first)
       = List.length (Schedule.nextTrains second)
    /\ Schedule.estimatedTravelTime first = Schedule.estimatedTravelTime second.
Proof.
  intros now now' origin destination destination' line line' first second.
  repeat split.
  intros -> -> ->. reflexivity.
Qed.

(** C10. [cleanup] resolves and leaves an empty cache and a null browser
    reference, whether a browser was open or not and whether closing it
    failed or not.  Afterwards every lookup misses, also for the routes
    cached before, so the next [scrapeTrainSchedule] produces a fresh
    record and stores it; and a second [cleanup] changes nothing. *)
Theorem cleanup_resets_scraper :
  forall w this,
    let this' := snd (cleanup w this) in
    fst (cleanup w this) = Normal tt
    /\ cache this' = JsMap.empty
    /\ browser this' = None
    /\ (forall now cacheKey, cachedData this' now cacheKey = None)
    /\ (forall w' origin destination line,
           exists record,
             fst (scrapeTrainSchedule host w' this' origin destination line)
             = Normal record
             /\ cache (snd (scrapeTrainSchedule host w' this' origin
                              destination line))
                = [(_getCacheKey origin destination,
                    {| data := record; timestamp := clockStore w' |})])
    /\ (forall w', cleanup w' this' = (Normal tt, this')).
Proof.
  intros w this this'.
  assert (Hshape : fst (cleanup w this) = Normal tt
                   /\ this' = setCache (setBrowser this None) JsMap.empty).
  { subst this'. unfold cleanup, _closeBrowser.
    destruct this as [url duration toggle timeout c [b |] type]; simpl.
    - destruct (closeBrowser w); simpl; split; reflexivity.
    - split; reflexivity. }
  destruct Hshape as [Hfst Hthis]. rewrite Hthis. clear Hthis this'.
  repeat split; auto.
  intros w' origin destination line.
  rewrite (scrapeTrainSchedule_miss host w'
             (setCache (setBrowser this None) JsMap.empty)
             origin destination line eq_refl).
  simpl. eexists. split; [reflexivity |].
  rewrite _attemptDataExtraction_cache. reflexivity.
Qed.

End Failures.

(** ** Boolean tests *)

(** Turns a hypothesis on a conjunction of integer tests into inequalities. *)
Ltac propositional H :=
  rewrite ?andb_true_iff, ?orb_true_iff, ?negb_true_iff,
    ?Z.leb_le, ?Z.ltb_lt, ?Z.eqb_eq, ?Z.gtb_lt, ?Z.leb_gt, ?Z.ltb_ge in H.

Lemma length_two {A} (l : list A) :
  (Z.of_nat (List.length l) =? 2) = true -> exists a b, l = [a; b].
Proof.
  intros H. apply Z.eqb_eq in H.
  destruct l as [| a [| b [| c l]]]; simpl List.length in H; try lia.
  eauto.
Qed.

(** ** Finite checks *)

(** A property decided on every number below a bound holds of each. *)
Lemma below_forallb (bound : nat) (p : Z -> bool) :
  forallb (fun n => p (Z.of_nat n)) (seq 0 bound) = true ->
  forall z, 0 <= z < Z.of_nat bound -> p z = true.
Proof.
  intros Hall z Hz. rewrite forallb_forall in Hall.
  specialize (Hall (Z.to_nat z)). rewrite Z2Nat.id in Hall by lia.
  apply Hall, in_seq. lia.
Qed.

Lemma ascii_forall (P : ascii -> Prop) :
  (forall n, (n < 256)%nat -> P (ascii_of_nat n)) -> forall c, P c.
Proof.
  intros H c. rewrite <- (ascii_nat_embedding c). apply H, nat_ascii_bounded.
Qed.

(** A property decided on every character holds of each. *)
Lemma ascii_forallb (p : ascii -> bool) :
  forallb (fun n => p (ascii_of_nat n)) (seq 0 256) = true ->
  forall c, p c = true.
Proof.
  intros Hall. apply ascii_forall. intros n Hn.
  rewrite forallb_forall in Hall. apply Hall, in_seq. lia.
Qed.

(** ** Time tokens *)

Section TimeTokens.
Import JS.
Import PlaywrightRushScraper.
Import Spec.

Lemma validTimeToken_clock hours minutes :
  0 <= hours < 100 -> 0 <= minutes < 100 ->
  validTimeToken (clock hours minutes) = (hours <=? 23) && (minutes <=? 59).
Proof.
  intros Hh Hm.
  pose (p := fun h m =>
    Bool.eqb (validTimeToken (clock h m)) ((h <=? 23) && (m <=? 59))).
  assert (Hall : forallb (fun h => forallb (fun m => p (Z.of_nat h) (Z.of_nat m))
                                     (seq 0 100)) (seq 0 100) = true)
    by (vm_compute; reflexivity).
  pose proof (below_forallb 100
                (fun h => forallb (fun m => p h (Z.of_nat m)) (seq 0 100))
                Hall hours Hh) as Hrow.
  pose proof (below_forallb 100 (p hours) Hrow minutes Hm) as Hcell.
  apply Bool.eqb_prop, Hcell.
Qed.

(** C7. The validator of time tokens accepts ["23:59"] and ["0:00"] and
    rejects ["24:00"] and ["12:60"].  It accepts exactly the tokens that
    split at [:] or [.] into two parts whose integer values are an hour
    from 0 to 23 and a minute from 0 to 59; among the tokens [HH:MM] of
    two digits each, exactly those with [HH <= 23] and [MM <= 59]. *)
Theorem time_validator_bounds :
  validTimeToken "23:59" = true
  /\ validTimeToken "0:00" = true
  /\ validTimeToken "24:00" = false
  /\ validTimeToken "12:60" = false
  /\ (forall token,
         validTimeToken token = true <->
         exists hourPart minutePart hours minutes,
           splitOn (fun c => Ascii.eqb c ":" || Ascii.eqb c ".") token
           = [hourPart; minutePart]
           /\ parseInt hourPart = Some hours
           /\ parseInt minutePart = Some minutes
           /\ 0 <= hours <= 23 /\ 0 <= minutes <= 59)
  /\ (forall hours minutes,
         0 <= hours < 100 -> 0 <= minutes < 100 ->
         (validTimeToken (clock hours minutes) = true
          <-> hours <= 23 /\ minutes <= 59)).
Proof.
  repeat split; try reflexivity.
  - unfold validTimeToken. intros Hvalid.
    destruct (Z.of_nat _ =? 2) eqn:Hlen; [| discriminate].
    apply length_two in Hlen as (hourPart & minutePart & Hsplit).
    rewrite Hsplit in Hvalid. cbn [nth] in Hvalid.
    destruct (parseInt hourPart) as [hours |] eqn:Hhours; [| discriminate].
    destruct (parseInt minutePart) as [minutes |] eqn:Hminutes;
      [| simpl in Hvalid; rewrite !andb_false_r in Hvalid; discriminate].
    unfold geNumber, leNumber in Hvalid. propositional Hvalid.
    exists hourPart, minutePart, hours, minutes. repeat split; auto; lia.
  - intros (hourPart & minutePart & hours & minutes
            & Hsplit & Hhours & Hminutes & Hh & Hm).
    unfold validTimeToken. rewrite Hsplit. simpl.
    rewrite Hhours, Hminutes. simpl.
    rewrite !andb_true_iff, !Z.leb_le. lia.
  - rewrite validTimeToken_clock in H1 by assumption.
    propositional H1. lia.
  - rewrite validTimeToken_clock in H1 by assumption.
    propositional H1. lia.
  - intros [Hh Hm]. rewrite validTimeToken_clock by assumption.
    rewrite !andb_true_iff, !Z.leb_le. lia.
Qed.

End TimeTokens.

(** ** Minutes away *)

Section MinutesAway.
Import JS.
Import PlaywrightRushScraper.
Import Spec.

Variable host : Host.

Lemma readsAs_eq parts hours minutes :
  readsAs parts hours minutes = true -> parts = [Some hours; Some minutes].
Proof.
  destruct parts as [| [h |] [| [m |] [| ? ?]]]; try discriminate.
  simpl. intros H. propositional H. destruct H. now subst.
Qed.

Lemma parts_of_clock hours minutes :
  0 <= hours <= 23 -> 0 <= minutes <= 59 ->
  map Number (splitOn (Ascii.eqb ":") (clock hours minutes))
  = [Some hours; Some minutes].
Proof.
  intros Hh Hm.
  pose (p := fun h m =>
    readsAs (map Number (splitOn (Ascii.eqb ":") (clock h m))) h m).
  assert (Hall : forallb (fun h => forallb (fun m => p (Z.of_nat h) (Z.of_nat m))
                                     (seq 0 60)) (seq 0 24) = true)
    by (vm_compute; reflexivity).
  pose proof (below_forallb 24
                (fun h => forallb (fun m => p h (Z.of_nat m)) (seq 0 60))
                Hall hours ltac:(lia)) as Hrow.
  pose proof (below_forallb 60 (p hours) Hrow minutes ltac:(lia)) as Hcell.
  apply readsAs_eq, Hcell.
Qed.

Lemma parts_of_shortClock hours minutes :
  0 <= hours <= 9 -> 0 <= minutes <= 59 ->
  map Number (splitOn (Ascii.eqb ":") (shortClock hours minutes))
  = [Some hours; Some minutes].
Proof.
  intros Hh Hm.
  pose (p := fun h m =>
    readsAs (map Number (splitOn (Ascii.eqb ":") (shortClock h m))) h m).
  assert (Hall : forallb (fun h => forallb (fun m => p (Z.of_nat h) (Z.of_nat m))
                                     (seq 0 60)) (seq 0 10) = true)
    by (vm_compute; reflexivity).
  pose proof (below_forallb 10
                (fun h => forallb (fun m => p h (Z.of_nat m)) (seq 0 60))
                Hall hours ltac:(lia)) as Hrow.
  pose proof (below_forallb 60 (p hours) Hrow minutes ltac:(lia)) as Hcell.
  apply readsAs_eq, Hcell.
Qed.

Lemma parts_of_wellFormed timeString hours minutes :
  WellFormedTime timeString hours minutes ->
  map Number (splitOn (Ascii.eqb ":") timeString) = [Some hours; Some minutes]
  /\ 0 <= hours <= 23 /\ 0 <= minutes <= 59.
Proof.
  intros [h m Hh Hm | h m Hh Hm].
  - rewrite parts_of_clock by assumption. repeat split; lia.
  - rewrite parts_of_shortClock by assumption. repeat split; lia.
Qed.

(** The time of day set on today's date is at most a day away from now,
    before or after. *)
Lemma setHours_near offset now hours minutes :
  0 <= hours <= 23 -> 0 <= minutes <= 59 ->
  now - Date.msPerDay < Date.setHours offset now hours minutes
                      < now + Date.msPerDay.
Proof.
  intros Hh Hm. unfold Date.setHours, Date.localMidnight.
  pose proof (Z.mod_pos_bound (now + offset) Date.msPerDay eq_refl) as Hr.
  unfold Date.msPerDay, Date.msPerHour, Date.msPerMinute in *. lia.
Qed.

(** After the roll-over the target is now or later, by less than a day. *)
Lemma rollover_bounds offset now hours minutes :
  0 <= hours <= 23 -> 0 <= minutes <= 59 ->
  let target := Date.setHours offset now hours minutes in
  let rolled := if target <? now then Date.nextDay target else target in
  0 <= rolled - now < Date.msPerDay.
Proof.
  intros Hh Hm target rolled. subst rolled.
  pose proof (setHours_near offset now hours minutes Hh Hm) as Hnear.
  fold target in Hnear. unfold Date.nextDay.
  destruct (Z.ltb_spec target now); unfold Date.msPerDay in *; lia.
Qed.

(** C8. For every well-formed time [HH:MM] (or [H:MM]) the minutes away
    are not negative.  The target is the time of day on today's date; when
    it lies before now it is moved to the next day, which puts it at now
    or later, so the difference is already non-negative before the final
    clamp: [_calculateMinutesFromTime] returns its whole minutes, below
    1440, and [_calculateMinutesAway] its rounded minutes, at most 1440. *)
Theorem minutesAway_never_negative now timeString hours minutes :
  WellFormedTime timeString hours minutes ->
  let target := Date.setHours (tzOffset host) now hours minutes in
  let rolled := if target <? now then Date.nextDay target else target in
  now <= rolled
  /\ _calculateMinutesFromTime host now timeString
     = Some ((rolled - now) / 60000)
  /\ 0 <= (rolled - now) / 60000 < 1440
  /\ (forall train,
         TrainTime.time train = timeString ->
         TrainTime.minutesAway (RushScraper.minutesAwayOf host now train)
         = Some (RushScraper.roundMinutes (rolled - now))
         /\ 0 <= RushScraper.roundMinutes (rolled - now) <= 1440).
Proof.
  intros Hwf target rolled.
  apply parts_of_wellFormed in Hwf as (Hparts & Hh & Hm).
  pose proof (rollover_bounds (tzOffset host) now hours minutes Hh Hm) as Hroll.
  cbv zeta in Hroll. fold target in Hroll. fold rolled in Hroll.
  unfold Date.msPerDay in Hroll.
  assert (Hfloor : 0 <= (rolled - now) / 60000 < 1440).
  { split; [apply Z.div_pos; lia | apply Z.div_lt_upper_bound; lia]. }
  assert (Hround : 0 <= RushScraper.roundMinutes (rolled - now) <= 1440).
  { unfold RushScraper.roundMinutes. split; [apply Z.div_pos; lia |].
    apply Z.lt_succ_r, Z.div_lt_upper_bound; lia. }
  repeat split; try lia.
  - unfold _calculateMinutesFromTime. rewrite Hparts. cbn [nth_error].
    fold target. fold rolled. f_equal. lia.
  - unfold RushScraper.minutesAwayOf. cbn [TrainTime.minutesAway].
    rewrite H, Hparts. cbn [nth_error]. fold target. fold rolled.
    f_equal. lia.
Qed.

End MinutesAway.

(** ** The cache *)

Section CacheFacts.
Import JS.
Import PlaywrightRushScraper.
Import Spec.

Variable host : Host.

Lemma lowerChar_idempotent c : lowerChar (lowerChar c) = lowerChar c.
Proof.
  apply Ascii.eqb_eq. revert c. apply ascii_forallb. vm_compute. reflexivity.
Qed.

Lemma lowerChar_upperChar c : lowerChar (upperChar c) = lowerChar c.
Proof.
  apply Ascii.eqb_eq. revert c. apply ascii_forallb. vm_compute. reflexivity.
Qed.

Lemma sameLetter_lowerChar a b : sameLetter a b -> lowerChar a = lowerChar b.
Proof.
  intros [<- | [<- | [<- | [<- | <-]]]];
    rewrite ?lowerChar_idempotent, ?lowerChar_upperChar; reflexivity.
Qed.

Lemma CaseVariant_toLowerCase s t :
  CaseVariant s t -> toLowerCase s = toLowerCase t.
Proof.
  induction 1 as [| a b s t Hab Hst IH]; [reflexivity |].
  unfold toLowerCase in *. simpl.
  now rewrite (sameLetter_lowerChar a b Hab), IH.
Qed.

Lemma cachedData_store_valid this cacheKey record stored now :
  now - stored < cacheDuration this * 1000 ->
  cachedData (store this cacheKey record stored) now cacheKey = Some record.
Proof.
  intros Hfresh. unfold cachedData, store. simpl.
  rewrite JsMapFacts.has_set_same, JsMapFacts.get_set_same. simpl.
  unfold _isCacheValid. simpl.
  destruct (Z.ltb_spec (now - stored) (cacheDuration this * 1000));
    [reflexivity | lia].
Qed.

Lemma cachedData_store_expired this cacheKey record stored now :
  cacheDuration this * 1000 <= now - stored ->
  cachedData (store this cacheKey record stored) now cacheKey = None.
Proof.
  intros Hold. unfold cachedData, store. simpl.
  rewrite JsMapFacts.has_set_same, JsMapFacts.get_set_same. simpl.
  unfold _isCacheValid. simpl.
  destruct (Z.ltb_spec (now - stored) (cacheDuration this * 1000));
    [lia | reflexivity].
Qed.

(** C5, amended. Cache keys are lower-cased and nothing else: for inputs
    that differ only in letter case, the keys are equal, so a record
    stored under one pair is the entry found under the other, and a
    lookup under the other returns it while it is valid. *)
Theorem cache_key_ignores_case
    this origin destination origin' destination' record stored now :
  CaseVariant origin origin' ->
  CaseVariant destination destination' ->
  let this' := store this (_getCacheKey origin destination) record stored in
  _getCacheKey origin destination = _getCacheKey origin' destination'
  /\ JsMap.get (_getCacheKey origin' destination') (cache this')
     = Some {| data := record; timestamp := stored |}
  /\ (now - stored < cacheDuration this * 1000 ->
      cachedData this' now (_getCacheKey origin' destination') = Some record).
Proof.
  intros Ho Hd this'.
  assert (Hkey : _getCacheKey origin destination
                 = _getCacheKey origin' destination').
  { unfold _getCacheKey.
    now rewrite (CaseVariant_toLowerCase _ _ Ho),
                (CaseVariant_toLowerCase _ _ Hd). }
  subst this'. rewrite <- Hkey. repeat split.
  - apply JsMapFacts.get_set_same.
  - apply cachedData_store_valid.
Qed.

(** C6, amended. A record stored under a key is returned by a lookup of
    that key as long as the entry is valid; at the instant of the write
    that is so exactly when the cache duration is positive.  An entry is
    valid exactly when now minus its timestamp is less than [cacheDuration]
    seconds.  Once that time has passed, [getCacheInfo] lists the key as
    invalid, a lookup misses although the entry is still in the map, and
    the next [scrapeTrainSchedule] replaces it. *)
Theorem cache_entry_valid_within_duration this cacheKey record stored now :
  let this' := store this cacheKey record stored in
  (_isCacheValid this' now stored = true
   <-> now - stored < cacheDuration this * 1000)
  /\ (now - stored < cacheDuration this * 1000 ->
      cachedData this' now cacheKey = Some record
      /\ forall w origin destination line,
          clockCheck w = now ->
          _getCacheKey origin destination = cacheKey ->
          scrapeTrainSchedule host w this' origin destination line
          = (Normal record, this'))
  /\ (0 < cacheDuration this <-> cachedData this' stored cacheKey = Some record)
  /\ (cacheDuration this * 1000 <= now - stored ->
      cachedData this' now cacheKey = None
      /\ In {| RushScraper.key := cacheKey;
               RushScraper.entryTimestamp := Date.toISOString stored;
               RushScraper.valid := false;
               RushScraper.entrySimulated := Schedule.simulated record |}
           (RushScraper.entries (RushScraper.getCacheInfo this' now))
      /\ JsMap.get cacheKey (cache this')
         = Some {| data := record; timestamp := stored |}
      /\ forall w origin destination line,
          clockCheck w = now ->
          _getCacheKey origin destination = cacheKey ->
          exists fresh,
            fst (scrapeTrainSchedule host w this' origin destination line)
            = Normal fresh
            /\ JsMap.get cacheKey
                 (cache (snd (scrapeTrainSchedule host w this' origin
                                destination line)))
               = Some {| data := fresh; timestamp := clockStore w |}).
Proof.
  intros this'. split; [| split; [| split]].
  - unfold _isCacheValid. subst this'. simpl. apply Z.ltb_lt.
  - intros Hfresh.
    pose proof (cachedData_store_valid this cacheKey record stored now Hfresh)
      as Hhit.
    split; [exact Hhit |].
    intros w origin destination line Hnow Hkey.
    apply scrapeTrainSchedule_hit. now rewrite Hnow, Hkey.
  - split.
    + intros Hpositive. apply cachedData_store_valid. lia.
    + intros Hhit. destruct (Z.lt_ge_cases 0 (cacheDuration this)) as [| Hnone];
        [assumption |].
      unfold this' in Hhit.
      rewrite (cachedData_store_expired this cacheKey record stored stored)
        in Hhit by lia.
      discriminate Hhit.
  - intros Hold.
    pose proof (cachedData_store_expired this cacheKey record stored now Hold)
      as Hmiss.
    split; [exact Hmiss |]. split; [| split].
    + unfold RushScraper.getCacheInfo. cbn [RushScraper.entries].
      apply in_map_iff.
      exists (cacheKey, {| data := record; timestamp := stored |}). split.
      * unfold RushScraper._isCacheValid. subst this'. simpl.
        rewrite orb_false_r. f_equal.
        destruct (Z.ltb_spec (now - stored) (cacheDuration this * 1000));
          [lia | reflexivity].
      * apply JsMapFacts.In_set.
    + apply JsMapFacts.get_set_same.
    + intros w origin destination line Hnow Hkey. subst this' now cacheKey.
      rewrite (scrapeTrainSchedule_miss host _ _ _ _ _ Hmiss). simpl.
      eexists. split; [reflexivity |].
      apply JsMapFacts.get_set_same.
Qed.

End CacheFacts.

(** ** The trains taken from the page *)

Section PageFacts.
Import JS.
Import PlaywrightRushScraper.
Import Spec.

Lemma fold_left_preserves {A B} (P : A -> Prop) (f : A -> B -> A) l :
  (forall a b, P a -> P (f a b)) -> forall a, P a -> P (fold_left f l a).
Proof. intros Hf. induction l as [| b l IH]; simpl; auto. Qed.

Lemma hasTime_false processed cleanTime :
  hasTime processed cleanTime = false -> ~ In cleanTime processed.
Proof.
  unfold hasTime. intros Hnone Hin.
  assert (existsb (String.eqb cleanTime) processed = true) as Hsome.
  { apply existsb_exists. exists cleanTime. split; [assumption |].
    apply String.eqb_refl. }
  congruence.
Qed.

Lemma processMatch_Collected selector text surroundingText found cleanTime :
  Collected found ->
  Collected (processMatch selector text surroundingText found cleanTime).
Proof.
  intros (Htimes & Hnodup & Hvalid). unfold processMatch.
  destruct (negb (String.eqb cleanTime EmptyString)); simpl;
    [| now repeat split].
  destruct (hasTime (processedTimes found) cleanTime) eqn:Hseen; simpl;
    [now repeat split |].
  destruct (validTimeToken cleanTime) eqn:Hok; [| now repeat split].
  apply hasTime_false in Hseen. repeat split; simpl.
  - rewrite map_app, Htimes. reflexivity.
  - apply NoDup_app; [assumption | repeat constructor; auto |].
    intros a Ha [<- | []]. contradiction.
  - apply Forall_app. split; [assumption | now constructor].
Qed.

Lemma processSelector_Collected document found selector :
  Collected found -> Collected (processSelector document found selector).
Proof.
  intros H. unfold processSelector.
  destruct (querySelectorAll document selector) as [elements | e];
    [| assumption].
  apply fold_left_preserves; [| assumption]. clear.
  intros found element H. unfold processElement.
  apply fold_left_preserves; [| assumption].
  intros found' pattern H'.
  apply fold_left_preserves; [| assumption].
  intros. now apply processMatch_Collected.
Qed.

Lemma In_filterFrom {A} (keep : A -> Z -> list A -> bool) self index l x :
  In x (filterFrom keep self index l) -> In x l.
Proof.
  revert index. induction l as [| y l IH]; simpl; intros index; [auto |].
  destruct (keep y index self); simpl; intros H.
  - destruct H; eauto.
  - eauto.
Qed.

Lemma NoDup_filterFrom {A B} (g : A -> B) keep self index (l : list A) :
  NoDup (map g l) -> NoDup (map g (filterFrom keep self index l)).
Proof.
  revert index. induction l as [| y l IH]; simpl; intros index H; [assumption |].
  inversion H as [| ? ? Hy Hl]; subst.
  destruct (keep y index self); simpl; [| now apply IH].
  constructor; [| now apply IH].
  intros Hin. apply Hy. apply in_map_iff in Hin as (x & Hx & Hin).
  apply In_filterFrom in Hin. apply in_map_iff. eauto.
Qed.

Lemma NoDup_firstn {A} n (l : list A) : NoDup l -> NoDup (firstn n l).
Proof.
  intros H. rewrite <- (firstn_skipn n l) in H.
  now apply NoDup_app_remove_r in H.
Qed.

Lemma In_firstn {A} n (l : list A) x : In x (firstn n l) -> In x l.
Proof.
  intros H. rewrite <- (firstn_skipn n l). apply in_or_app. now left.
Qed.

(** The trains the page function returns have pairwise distinct time
    strings, each accepted by the validator, and are at most ten. *)
Lemma pageFunction_distinct_capped document now orig dest trainLine page :
  pageFunction document now orig dest trainLine = Some page ->
  NoDup (map TrainTime.time (pageNextTrains page))
  /\ Forall (fun train => validTimeToken (TrainTime.time train) = true)
       (pageNextTrains page)
  /\ (List.length (pageNextTrains page) <= 10)%nat.
Proof.
  unfold pageFunction.
  set (found := fold_left (processSelector document) selectors _).
  assert (Hfound : Collected found).
  { apply fold_left_preserves.
    - intros. now apply processSelector_Collected.
    - repeat split; constructor. }
  destruct Hfound as (Htimes & Hnodup & Hvalid).
  set (uniqueTimes := firstn 10 _).
  destruct (Z.of_nat _ >? 0); [| discriminate].
  intros [= <-]. cbn [pageNextTrains]. subst uniqueTimes. repeat split.
  - rewrite <- firstn_map. apply NoDup_firstn, NoDup_filterFrom.
    now rewrite Htimes.
  - apply Forall_forall. intros train Hin.
    apply In_firstn, In_filterFrom in Hin.
    rewrite <- Htimes in Hvalid. rewrite Forall_forall in Hvalid.
    apply Hvalid, in_map, Hin.
  - apply firstn_le_length.
Qed.

(** The trains of a record extracted from the page have pairwise distinct
    time strings and are at most ten. *)
Lemma extracted_times_distinct_capped host w origin destination line record :
  _extractTrainDataFromPage host w origin destination line
  = Normal (Some record) ->
  NoDup (map TrainTime.time (Schedule.nextTrains record))
  /\ (List.length (Schedule.nextTrains record) <= 10)%nat.
Proof.
  intros H. apply _extractTrainDataFromPage_some in H
    as (document & page & _ & Hpage & _ & Htrains & _).
  apply pageFunction_distinct_capped in Hpage as (Hnodup & _ & Hcap).
  rewrite Htrains, map_map, length_map. split; [| exact Hcap].
  erewrite map_ext; [exact Hnodup |].
  intros train. unfold fillMinutesAway.
  destruct (TrainTime.minutesAway train) as [[| ? | ?] |]; reflexivity.
Qed.

(** C4. On a page whose time cells read 08:05, 08:05, 08:05 AM and 07:59,
    the live extraction succeeds and emits each distinct time once, in the
    order of the page, 08:05 before 07:59: the emitted sequence is not in
    chronological order, by the time strings as by the minutes away. *)
Theorem extracted_trains_keep_page_order :
  exists record this',
    scrapeTrainSchedule manila (Samples.online Samples.board) Samples.scraping
      "Ayala" "Buendia" "MRT-3" = (Normal record, this')
    /\ Schedule.simulated record = false
    /\ map TrainTime.time (Schedule.nextTrains record) = ["08:05"; "07:59"]
    /\ map TrainTime.minutesAway (Schedule.nextTrains record)
       = [Some 1289; Some 1283]
    /\ ~ Chronological (Schedule.nextTrains record).
Proof.
  eexists _, _. split; [vm_compute; reflexivity |].
  repeat split.
  intros (minutes & Hminutes & Hascending).
  vm_compute in Hminutes.
  destruct minutes as [| a [| b [| c minutes]]]; try discriminate.
  injection Hminutes as <- <-. discriminate.
Qed.

End PageFacts.

(** ** The properties on the sample inputs *)

Section Instances.
Import JS.
Import PlaywrightRushScraper.
Import Spec.

(** Proves that two given strings differ only in letter case. *)
Ltac case_variant :=
  repeat
    (first
       [ apply CaseVariantEmpty
       | apply CaseVariantChar;
         [ first [ left; reflexivity
                 | right; left; reflexivity
                 | right; right; left; reflexivity ] | ] ]).

(** A live extraction on the departure board resolves with a well-formed
    record. *)
Lemma scrapeTrainSchedule_always_resolves_on_board :
  cacheWellFormed Samples.scraping
  /\ exists record this',
      scrapeTrainSchedule manila (Samples.online Samples.board)
        Samples.scraping "Ayala" "Buendia" "MRT-3" = (Normal record, this')
      /\ Schedule.nextTrains record <> []
      /\ 0 <= Schedule.estimatedTravelTime record
      /\ cacheWellFormed this'.
Proof.
  assert (Hcache : cacheWellFormed Samples.scraping) by constructor.
  split; [exact Hcache |].
  destruct (scrapeTrainSchedule_always_resolves manila
              (Samples.online Samples.board) Samples.scraping
              "Ayala" "Buendia" "MRT-3" Hcache)
    as (record & this' & Hrun & Htrains & Htravel & Hcache' & _).
  exists record, this'. repeat split; assumption.
Defined.


(** The end-to-end scenario: live extraction off, cache empty, Ayala to
    Buendia on MRT-3. *)
Lemma disabled_toggle_returns_simulated_for_ayala :
  useBrowserScraper Samples.simulating = false
  /\ cache Samples.simulating = JsMap.empty
  /\ exists record,
      fst (scrapeTrainSchedule manila Samples.offline Samples.simulating
             "Ayala" "Buendia" "MRT-3") = Normal record
      /\ record = _simulateTrainData manila (clockStore Samples.offline)
                    "Ayala" "Buendia" "MRT-3"
      /\ Schedule.line record = "MRT-3"
      /\ Schedule.origin record = "Ayala"
      /\ Schedule.destination record = "Buendia"
      /\ Schedule.simulated record = true
      /\ List.length (Schedule.nextTrains record) = 5%nat.
Proof.
  split; [reflexivity |]. split; [reflexivity |].
  apply (disabled_toggle_returns_simulated manila Samples.offline
           Samples.simulating "Ayala" "Buendia" "MRT-3");
    reflexivity.
Defined.

(** A record stored for Ayala to Buendia is found under AYALA to buendia. *)
Lemma cache_key_ignores_case_of_ayala :
  CaseVariant "Ayala" "AYALA" /\ CaseVariant "Buendia" "buendia"
  /\ _getCacheKey "Ayala" "Buendia" = _getCacheKey "AYALA" "buendia"
  /\ cachedData
       (store Samples.simulating (_getCacheKey "Ayala" "Buendia")
          (_simulateTrainData manila Samples.morning "Ayala" "Buendia" "MRT-3")
          Samples.morning)
       (Samples.morning + 1000) (_getCacheKey "AYALA" "buendia")
     = Some (_simulateTrainData manila Samples.morning
               "Ayala" "Buendia" "MRT-3").
Proof.
  assert (Ho : CaseVariant "Ayala" "AYALA") by case_variant.
  assert (Hd : CaseVariant "Buendia" "buendia") by case_variant.
  split; [exact Ho |]. split; [exact Hd |].
  destruct (cache_key_ignores_case Samples.simulating
              "Ayala" "Buendia" "AYALA" "buendia"
              (_simulateTrainData manila Samples.morning
                 "Ayala" "Buendia" "MRT-3")
              Samples.morning (Samples.morning + 1000) Ho Hd)
    as (Hkey & _ & Hget).
  split; [exact Hkey |]. apply Hget. vm_compute. reflexivity.
Defined.

(** C5, as stated, fails.  [" Ayala"] and ["Ayala"] differ only in leading
    white space, yet their keys differ, and a record stored under the
    first is not found under the second. *)
Lemma cache_key_keeps_white_space :
  SameStation " Ayala" "Ayala" /\ SameStation "Buendia" "Buendia"
  /\ _getCacheKey " Ayala" "Buendia" <> _getCacheKey "Ayala" "Buendia"
  /\ cachedData
       (store Samples.simulating (_getCacheKey " Ayala" "Buendia")
          (_simulateTrainData manila Samples.morning " Ayala" "Buendia" "MRT-3")
          Samples.morning)
       Samples.morning (_getCacheKey "Ayala" "Buendia")
     = None.
Proof.
  split; [unfold SameStation; simpl; case_variant |].
  split; [unfold SameStation; simpl; case_variant |].
  split; [discriminate | reflexivity].
Qed.

(** One second after the write the entry is valid and is returned. *)
Lemma cache_entry_valid_after_a_second :
  Samples.morning + 1000 - Samples.morning
    < cacheDuration Samples.simulating * 1000
  /\ cachedData
       (store Samples.simulating "ayala_buendia"
          (_simulateTrainData manila Samples.morning "Ayala" "Buendia" "MRT-3")
          Samples.morning)
       (Samples.morning + 1000) "ayala_buendia"
     = Some (_simulateTrainData manila Samples.morning
               "Ayala" "Buendia" "MRT-3").
Proof.
  assert (Hfresh : Samples.morning + 1000 - Samples.morning
                   < cacheDuration Samples.simulating * 1000)
    by (vm_compute; reflexivity).
  split; [exact Hfresh |].
  destruct (cache_entry_valid_within_duration manila Samples.simulating
              "ayala_buendia"
              (_simulateTrainData manila Samples.morning
                 "Ayala" "Buendia" "MRT-3")
              Samples.morning (Samples.morning + 1000))
    as (_ & Hvalid & _).
  exact (proj1 (Hvalid Hfresh)).
Defined.

(** C6, as stated, fails.  The constructor takes a cache duration of -5
    seconds as it is given; the scraper it builds does not find, at the
    instant of the write, the record it has just stored under the key,
    because the entry is not valid even then. *)
Lemma cache_entry_lost_with_negative_duration :
  cacheDuration Cases.hasty = -5
  /\ Reachable manila Cases.hasty
  /\ _isCacheValid Cases.hasty Samples.morning Samples.morning = false
  /\ cachedData
       (store Cases.hasty "ayala_buendia"
          (_simulateTrainData manila Samples.morning "Ayala" "Buendia" "MRT-3")
          Samples.morning)
       Samples.morning "ayala_buendia"
     = None.
Proof.
  split; [reflexivity |]. split; [apply ReachNew |].
  split; reflexivity.
Qed.

(** The last minute of the day is a valid token. *)
Lemma time_validator_bounds_at_2359 :
  0 <= 23 < 100 /\ 0 <= 59 < 100
  /\ validTimeToken (clock 23 59) = true.
Proof.
  assert (Hh : 0 <= 23 < 100) by lia.
  assert (Hm : 0 <= 59 < 100) by lia.
  split; [exact Hh |]. split; [exact Hm |].
  destruct time_validator_bounds as (_ & _ & _ & _ & _ & Hclock).
  apply (Hclock 23 59 Hh Hm). lia.
Defined.

(** At 10:34 in the morning, 08:05 is tomorrow's: 1290 minutes away. *)
Lemma minutesAway_never_negative_at_0805 :
  WellFormedTime "08:05" 8 5
  /\ _calculateMinutesFromTime manila Samples.morning "08:05" = Some 1290
  /\ 0 <= 1290 < 1440.
Proof.
  assert (Hwf : WellFormedTime "08:05" 8 5)
    by (apply (TwoDigitHour 8 5); lia).
  split; [exact Hwf |].
  destruct (minutesAway_never_negative manila Samples.morning "08:05" 8 5 Hwf)
    as (_ & Hminutes & Hrange & _).
  split; [exact Hminutes | exact Hrange].
Defined.

(** Two runs for Ayala at the same instant agree. *)
Lemma simulation_is_deterministic_for_ayala :
  _simulateTrainData manila Samples.morning "Ayala" "Buendia" "MRT-3"
  = _simulateTrainData manila Samples.morning "Ayala" "Buendia" "MRT-3"
  /\ Schedule.estimatedTravelTime
       (_simulateTrainData manila Samples.morning "Ayala" "Buendia" "MRT-3")
     = Schedule.estimatedTravelTime
         (_simulateTrainData manila (Samples.morning + 500)
            "Ayala" "Cubao" "LRT-1").
Proof.
  destruct (simulation_is_deterministic manila Samples.morning
              (Samples.morning + 500) "Ayala" "Buendia" "Cubao" "MRT-3" "LRT-1")
    as (_ & _ & _ & _ & Htravel).
  destruct (simulation_is_deterministic manila Samples.morning
              Samples.morning "Ayala" "Buendia" "Buendia" "MRT-3" "MRT-3")
    as (Hsame & _).
  split; [apply Hsame; reflexivity | exact Htravel].
Defined.

End Instances.


(** * Further properties of the scraper *)

(** ** 32-bit arithmetic *)

Section Int32.
Import JS.

(** [toInt32] moves its argument by a multiple of [2^32] into the signed
    32-bit range. *)
Lemma toInt32_spec z :
  exists k, toInt32 z = z + k * 2 ^ 32 /\ - 2 ^ 31 <= toInt32 z < 2 ^ 31.
Proof.
  unfold toInt32. exists (- ((z + 2 ^ 31) / 2 ^ 32)).
  pose proof (Z.div_mod (z + 2 ^ 31) (2 ^ 32) ltac:(lia)) as Hdiv.
  pose proof (Z.mod_pos_bound (z + 2 ^ 31) (2 ^ 32) ltac:(lia)) as Hmod.
  lia.
Qed.

Lemma toInt32_range z : - 2 ^ 31 <= toInt32 z < 2 ^ 31.
Proof. destruct (toInt32_spec z) as (k & _ & H). exact H. Qed.

(** Numbers that differ by a multiple of [2^32] have the same 32-bit value. *)
Lemma toInt32_congruent a b k : a = b + k * 2 ^ 32 -> toInt32 a = toInt32 b.
Proof.
  intros ->. unfold toInt32.
  replace (b + k * 2 ^ 32 + 2 ^ 31) with (b + 2 ^ 31 + k * 2 ^ 32) by lia.
  now rewrite Z.mod_add by lia.
Qed.

Lemma band_diag z : band z z = toInt32 z.
Proof. unfold band. apply Z.land_diag. Qed.

End Int32.

(** ** The hash of a station name *)

Section Hashing.
Import JS.
Import PlaywrightRushScraper.
Import Notions.

Lemma hash_step_congruent h p c :
  h = toInt32 p ->
  band (shl h 5 - h + charCode c) (shl h 5 - h + charCode c)
  = toInt32 (31 * p + charCode c).
Proof.
  intros ->. rewrite band_diag. unfold shl.
  destruct (toInt32_spec p) as (k & Hk & _).
  destruct (toInt32_spec (toInt32 p)) as (k1 & Hk1 & _).
  destruct (toInt32_spec (Z.shiftl (toInt32 (toInt32 p)) 5)) as (k2 & Hk2 & _).
  rewrite Z.shiftl_mul_pow2 in * by lia.
  apply (toInt32_congruent _ _ (32 * k1 + 31 * k + k2)). lia.
Qed.

Lemma hash_fold_congruent l h p :
  h = toInt32 p ->
  fold_left (fun hash c =>
               let char := charCode c in
               let hash := (shl hash 5 - hash) + char in
               band hash hash) l h
  = toInt32 (fold_left (fun h c => 31 * h + charCode c) l p).
Proof.
  revert h p. induction l as [| c l IH]; intros h p Hh; simpl; [exact Hh |].
  apply IH. now apply hash_step_congruent.
Qed.

(** X1. [_hashString] is the absolute value of the polynomial hash (base
    31) wrapped to 32 bits, and lies between 0 and [2^31], both included:
    the shifts and the [hash & hash] of the loop lose nothing else. *)
Theorem _hashString_is_wrapped_polynomial str :
  _hashString str = Z.abs (toInt32 (polynomialHash str))
  /\ 0 <= _hashString str <= 2 ^ 31.
Proof.
  assert (Heq : _hashString str = Z.abs (toInt32 (polynomialHash str))).
  { unfold _hashString, polynomialHash. f_equal.
    apply hash_fold_congruent. reflexivity. }
  split; [exact Heq |]. rewrite Heq.
  pose proof (toInt32_range (polynomialHash str)). lia.
Qed.

End Hashing.

(** ** What a call changes *)

Section StateFacts.
Import JS.
Import PlaywrightRushScraper.
Import Spec.
Import Notions.

Variable host : Host.

Lemma sameConfiguration_refl this : sameConfiguration this this.
Proof. repeat split. Qed.

Lemma _initBrowser_state w this :
  let this' := snd (_initBrowser w this) in
  sameConfiguration this this'
  /\ (forall b, browser this = Some b -> browser this' = Some b).
Proof.
  unfold _initBrowser. destruct (browser this) as [b |] eqn:Hb; simpl.
  - split; [apply sameConfiguration_refl |]. now rewrite Hb.
  - destruct (launch w _); simpl; (split; [repeat split | discriminate]).
Qed.

Lemma _attemptDataExtraction_state w this origin destination line :
  let this' := snd (_attemptDataExtraction host w this origin destination line) in
  sameConfiguration this this'
  /\ (forall b, browser this = Some b -> browser this' = Some b)
  /\ (useBrowserScraper this = false -> browser this' = browser this).
Proof.
  unfold _attemptDataExtraction.
  destruct (useBrowserScraper this) eqn:Htoggle; simpl.
  - pose proof (_initBrowser_state w this) as [Hconf Hkeep].
    destruct (_initBrowser w this) as [launched this']; simpl in *.
    repeat split; try apply Hconf; [exact Hkeep | discriminate].
  - repeat split; auto.
Qed.

Lemma length_set {V} k (v : V) m :
  (List.length m <= List.length (JsMap.set k v m) <= S (List.length m))%nat.
Proof.
  induction m as [| [k' v'] m IH]; simpl; [lia |].
  destruct (String.eqb k k'); simpl; lia.
Qed.

(** X2. A call of [scrapeTrainSchedule] leaves the entries of all other
    routes as they are and adds at most one entry to the cache; it keeps
    the configuration; it never drops an open browser, and with live
    extraction disabled it does not touch the browser reference at all. *)
Theorem scrapeTrainSchedule_frame w this origin destination line :
  let this' := snd (scrapeTrainSchedule host w this origin destination line) in
  (forall cacheKey,
      cacheKey <> _getCacheKey origin destination ->
      JsMap.get cacheKey (cache this') = JsMap.get cacheKey (cache this))
  /\ (List.length (cache this) <= List.length (cache this')
      <= S (List.length (cache this)))%nat
  /\ sameConfiguration this this'
  /\ (forall b, browser this = Some b -> browser this' = Some b)
  /\ (useBrowserScraper this = false -> browser this' = browser this).
Proof.
  destruct (cachedData this (clockCheck w) (_getCacheKey origin destination))
    as [cached |] eqn:Hlookup.
  - rewrite (scrapeTrainSchedule_hit host _ _ _ _ _ _ Hlookup). simpl.
    repeat split; auto; lia.
  - rewrite (scrapeTrainSchedule_miss host _ _ _ _ _ Hlookup). simpl.
    pose proof (_attemptDataExtraction_state w this origin destination line)
      as (Hconf & Hkeep & Hoff).
    pose proof (_attemptDataExtraction_cache host w this origin destination line)
      as Hcache.
    destruct (_attemptDataExtraction host w this origin destination line)
      as [attempt this1]; simpl in *.
    rewrite Hcache.
    repeat split; try apply Hconf; auto; try apply length_set.
    intros cacheKey Hother. now apply JsMapFacts.get_set_other.
Qed.

(** X3. The cache key does not contain the line.  After a call that missed
    the cache, a second call for the same stations (in any letter case) and
    for any line, made while the entry is valid, returns the record of the
    first call and changes nothing. *)
Theorem cached_route_ignores_line
    w1 w2 this origin destination line1 origin' destination' line2 :
  cachedData this (clockCheck w1) (_getCacheKey origin destination) = None ->
  CaseVariant origin origin' ->
  CaseVariant destination destination' ->
  clockCheck w2 - clockStore w1 < cacheDuration this * 1000 ->
  let first := scrapeTrainSchedule host w1 this origin destination line1 in
  scrapeTrainSchedule host w2 (snd first) origin' destination' line2 = first.
Proof.
  intros Hmiss Ho Hd Hfresh first. subst first.
  assert (Hkey : _getCacheKey origin' destination'
                 = _getCacheKey origin destination).
  { unfold _getCacheKey.
    now rewrite (CaseVariant_toLowerCase _ _ Ho),
                (CaseVariant_toLowerCase _ _ Hd). }
  rewrite (scrapeTrainSchedule_miss host _ _ _ _ _ Hmiss). simpl.
  pose proof (_attemptDataExtraction_state w1 this origin destination line1)
    as ((_ & Hduration & _) & _).
  destruct (_attemptDataExtraction host w1 this origin destination line1)
    as [attempt this1]; simpl in *.
  apply scrapeTrainSchedule_hit. rewrite Hkey.
  apply cachedData_store_valid. now rewrite Hduration.
Qed.

(** X4. The estimated travel time of a live record is the one of the
    simulated record for the same origin: three minutes times a station
    count between 2 and 11 taken from the hash of the origin.  The
    destination plays no part, and the lower bound of five minutes of
    [_estimateTravelTime] is never the result. *)
Theorem travel_time_depends_on_origin_only now origin destination line :
  let estimate := _estimateTravelTime origin destination in
  (forall destination', _estimateTravelTime origin destination' = estimate)
  /\ Schedule.estimatedTravelTime
       (_simulateTrainData host now origin destination line) = estimate
  /\ estimate = 3 * (Z.abs (rem (_hashString origin) 10) + 2)
  /\ 6 <= estimate <= 33.
Proof.
  intros estimate. subst estimate. unfold _estimateTravelTime.
  cbn [_simulateTrainData Schedule.estimatedTravelTime].
  pose proof (stationCount_bounds origin). repeat split; lia.
Qed.

(** X5. The constructor never yields a cache duration or a browser timeout
    of zero: a zero option counts as absent.  A non-zero option is taken as
    it is; with the option absent or zero and an environment variable that
    is unset or not a number the values are 300 seconds and 30000
    milliseconds; the new scraper has an empty cache and no browser. *)
Theorem constructor_defaults options env :
  let this := constructor options env in
  cacheDuration this <> 0
  /\ browserTimeout this <> 0
  /\ (forall n, optCacheDuration options = Some n -> n <> 0 ->
                cacheDuration this = n)
  /\ (optCacheDuration options = None \/ optCacheDuration options = Some 0 ->
      parseIntEnv (SCRAPER_CACHE_DURATION env) = None ->
      cacheDuration this = 300)
  /\ (optBrowserTimeout options = None \/ optBrowserTimeout options = Some 0 ->
      parseIntEnv (BROWSER_TIMEOUT env) = None ->
      browserTimeout this = 30000)
  /\ cache this = JsMap.empty
  /\ browser this = None
  /\ browserType this <> EmptyString.
Proof.
  assert (Hnonzero : forall a b d, d <> 0 ->
            numberOr (orNumber (orNumber a b) (Some d)) d <> 0).
  { intros [a |] [b |] d Hd; simpl;
      repeat match goal with
             | |- context [?x =? 0] => destruct (Z.eqb_spec x 0); simpl
             end; auto. }
  cbv zeta. unfold constructor.
  cbn [cacheDuration browserTimeout cache browser browserType].
  repeat split.
  - apply Hnonzero. lia.
  - apply Hnonzero. lia.
  - intros n -> Hn. apply Z.eqb_neq in Hn. unfold orNumber.
    rewrite !Hn. reflexivity.
  - intros [-> | ->] ->; reflexivity.
  - intros [-> | ->] ->; reflexivity.
  - destruct (optBrowserType options) as [[| c s] |]; discriminate.
Qed.

End StateFacts.

(** ** Live records *)

Section LiveRecords.
Import JS.
Import PlaywrightRushScraper.
Import Spec.

Variable host : Host.

Lemma pageFunction_fields document now orig dest trainLine page :
  pageFunction document now orig dest trainLine = Some page ->
  pageLine page = trainLine /\ pageOrigin page = orig
  /\ pageDestination page = dest /\ pageSimulated page = false
  /\ pageSource page = "playwright-extraction".
Proof.
  unfold pageFunction. set (uniqueTimes := firstn 10 _).
  destruct (Z.of_nat _ >? 0); [| discriminate].
  intros [= <-]. repeat split.
Qed.

(** The fields of a record that comes out of the page. *)
Lemma _extractTrainDataFromPage_fields w origin destination line record :
  _extractTrainDataFromPage host w origin destination line
  = Normal (Some record) ->
  Schedule.line record = line /\ Schedule.origin record = origin
  /\ Schedule.destination record = destination
  /\ Schedule.status record = "operational"
  /\ Schedule.source record = Some "playwright-extraction".
Proof.
  unfold _extractTrainDataFromPage. intros H.
  apply tryCatch_inv in H as [H | H]; [| discriminate].
  apply bind_normal_inv in H as [[] [_ H]].
  apply bind_normal_inv in H as [document [_ H]].
  destruct (pageFunction document (clockPage w) origin destination line)
    as [page |] eqn:Hpage; [| discriminate].
  destruct (Z.of_nat (List.length (pageNextTrains page)) >? 0); [| discriminate].
  apply pageFunction_fields in Hpage as (Hl & Ho & Hd & _ & Hs).
  injection H as <-. cbn. rewrite Hl, Ho, Hd, Hs. repeat split.
Qed.

(** X6. On a call that misses the cache the [simulated] flag tells the two
    paths apart.  A record with [simulated = false] was extracted from the
    page: live extraction is enabled, the record names the requested line
    and stations, is tagged [playwright-extraction] and [operational], and
    lists between one and ten trains whose time strings are pairwise
    distinct and pass the validator.  A record with [simulated = true] is
    the simulated record. *)
Theorem simulated_flag_tells_the_path w this origin destination line record this' :
  cachedData this (clockCheck w) (_getCacheKey origin destination) = None ->
  scrapeTrainSchedule host w this origin destination line
  = (Normal record, this') ->
  (Schedule.simulated record = false ->
   useBrowserScraper this = true
   /\ Schedule.line record = line
   /\ Schedule.origin record = origin
   /\ Schedule.destination record = destination
   /\ Schedule.source record = Some "playwright-extraction"
   /\ Schedule.status record = "operational"
   /\ (1 <= List.length (Schedule.nextTrains record) <= 10)%nat
   /\ NoDup (map TrainTime.time (Schedule.nextTrains record))
   /\ Forall (fun train => validTimeToken (TrainTime.time train) = true)
        (Schedule.nextTrains record))
  /\ (Schedule.simulated record = true ->
      record = _simulateTrainData host (clockStore w) origin destination line).
Proof.
  intros Hmiss Hrun.
  rewrite (scrapeTrainSchedule_miss host _ _ _ _ _ Hmiss) in Hrun.
  simpl in Hrun.
  destruct (fst (_attemptDataExtraction host w this origin destination line))
    as [[response |] | e] eqn:Hattempt;
    injection Hrun as <- _.
  - apply _attemptDataExtraction_some in Hattempt
      as (Htoggle & _ & _ & _ & _ & Hextract).
    pose proof (_extractTrainDataFromPage_fields _ _ _ _ _ Hextract)
      as (Hl & Ho & Hd & Hst & Hsrc).
    pose proof (extracted_times_distinct_capped _ _ _ _ _ _ Hextract)
      as (Hnodup & Hcap).
    apply _extractTrainDataFromPage_some in Hextract
      as (document & page & _ & Hpage & Hne & Htrains & _ & Hsim).
    split; [| congruence]. intros _.
    repeat split; auto.
    + rewrite Htrains, length_map.
      destruct (pageNextTrains page); [congruence | simpl; lia].
    + apply pageFunction_distinct_capped in Hpage as (_ & Hvalid & _).
      rewrite Htrains. apply Forall_map.
      eapply Forall_impl; [| exact Hvalid].
      intros train Hok. unfold fillMinutesAway.
      destruct (TrainTime.minutesAway train) as [[| ? | ?] |]; exact Hok.
  - split; [discriminate | reflexivity].
  - split; [discriminate | reflexivity].
Qed.

End LiveRecords.


(** ** Stations *)

(** Proves that two given strings differ only in letter case. *)
Ltac solve_case_variant :=
  repeat
    (first
       [ apply Spec.CaseVariantEmpty
       | apply Spec.CaseVariantChar;
         [ first [ left; reflexivity
                 | right; left; reflexivity
                 | right; right; left; reflexivity ] | ] ]).

Section Stations.
Import JS.
Import JsObject.
Import StationManager.
Import Spec.
Import Notions.

Lemma find_first {A} (f : A -> bool) l x :
  In x l -> f x = true -> exists y, find f l = Some y /\ f y = true /\ In y l.
Proof.
  intros Hin Hx. destruct (find f l) as [y |] eqn:Hfind.
  - apply find_some in Hfind as [Hy Hfy]. eauto.
  - pose proof (find_none f l Hfind x Hin). congruence.
Qed.

(** Decides membership of a string in a list. *)
Lemma existsb_eqb_In x l : existsb (String.eqb x) l = true <-> In x l.
Proof.
  rewrite existsb_exists. split.
  - intros (y & Hy & Heq). apply String.eqb_eq in Heq. now subst.
  - intros Hin. exists x. split; [assumption | apply String.eqb_refl].
Qed.

(** A property decided on every station of the table holds of each. *)
Lemma stations_forallb (p : string -> bool) :
  forallb p getAllStations = true ->
  forall station, In station getAllStations -> p station = true.
Proof. intros Hall station Hin. rewrite forallb_forall in Hall. auto. Qed.

(** Two stations of the table with the same lower-case name are the same. *)
Lemma station_names_distinct s t :
  In s getAllStations -> In t getAllStations ->
  toLowerCase s = toLowerCase t -> s = t.
Proof.
  intros Hs Ht Hlow.
  pose (p := fun s => forallb (fun t =>
                implb (String.eqb (toLowerCase s) (toLowerCase t))
                      (String.eqb s t)) getAllStations).
  assert (Hall : forallb p getAllStations = true) by (vm_compute; reflexivity).
  pose proof (stations_forallb p Hall s Hs) as Hrow. unfold p in Hrow.
  rewrite forallb_forall in Hrow. specialize (Hrow t Ht).
  rewrite Hlow, String.eqb_refl in Hrow. now apply String.eqb_eq.
Qed.

(** The exact match of [validateStation]: an input that, trimmed and in
    lower case, is the lower-case name of a station is that station. *)
Lemma validateStation_exact stationInput station :
  In station getAllStations ->
  toLowerCase (trim stationInput) = toLowerCase station ->
  validateStation stationInput = Some station.
Proof.
  intros Hin Hlower. unfold validateStation, firstStation. rewrite Hlower.
  destruct (find_first
              (fun s => String.eqb (toLowerCase s) (toLowerCase station))
              getAllStations station Hin (String.eqb_refl _))
    as (found & -> & Hsame & Hfound).
  apply String.eqb_eq in Hsame.
  now rewrite (station_names_distinct found station Hfound Hin Hsame).
Qed.

(** X7. [validateStation] gives the name of the table for every spelling
    of a station that differs from it only in letter case and in white
    space around it. *)
Theorem validateStation_canonical stationInput station :
  In station getAllStations ->
  CaseVariant (trim stationInput) station ->
  validateStation stationInput = Some station.
Proof.
  intros Hin Hvariant. apply validateStation_exact; [exact Hin |].
  now apply CaseVariant_toLowerCase.
Qed.

(** X8. What [validateStation] returns is always a station of the table
    whose lower-case name equals the trimmed lower-case input, contains it
    or is contained in it.  Since every name contains the empty string, a
    blank input is accepted as the first station of the table. *)
Theorem validateStation_result stationInput :
  (forall station,
      validateStation stationInput = Some station ->
      In station getAllStations
      /\ let clean := toLowerCase (trim stationInput) in
         let name := toLowerCase station in
         name = clean \/ includes clean name = true
         \/ includes name clean = true)
  /\ (trim stationInput = EmptyString ->
      validateStation stationInput = Some "North Avenue").
Proof.
  split.
  - intros station. unfold validateStation, firstStation.
    destruct (find _ getAllStations) as [exact |] eqn:Hexact.
    + intros [= <-]. apply find_some in Hexact as [Hin Heq].
      apply String.eqb_eq in Heq. auto.
    + intros Hpartial. apply find_some in Hpartial as [Hin Hmatch].
      split; [exact Hin |]. apply orb_true_iff in Hmatch. tauto.
  - intros Hblank. unfold validateStation. rewrite Hblank. reflexivity.
Qed.

Lemma get_None_iff {V} k (m : JsMap.t V) :
  JsMap.get k m = None <-> ~ In k (map fst m).
Proof.
  induction m as [| [k' v] m IH]; simpl; [tauto |].
  destruct (String.eqb_spec k k') as [-> | Hneq].
  - split; [discriminate | intros H; elim H; now left].
  - rewrite IH. split; [intros H [Heq | Hin]; congruence || auto | tauto].
Qed.

(** The keys of [stationToLine] are the lower-case station names. *)
Lemma stationToLine_keys key :
  In key (map fst stationToLine) <-> In key (map toLowerCase getAllStations).
Proof.
  assert (H1 : forallb (fun k => existsb (String.eqb k)
                                   (map toLowerCase getAllStations))
                 (map fst stationToLine) = true) by (vm_compute; reflexivity).
  assert (H2 : forallb (fun k => existsb (String.eqb k) (map fst stationToLine))
                 (map toLowerCase getAllStations) = true)
    by (vm_compute; reflexivity).
  rewrite forallb_forall in H1, H2.
  split; intros Hin; apply existsb_eqb_In; auto.
Qed.

(** No station is filed under an empty line name. *)
Lemma stationToLine_values key line :
  JsMap.get key stationToLine = Some line -> line <> EmptyString.
Proof.
  intros Hget Hempty. subst line.
  assert (Hall : Forall (fun kv => snd kv <> EmptyString) stationToLine)
    by (vm_compute; repeat constructor; discriminate).
  exact (JsMapFacts.Forall_get (fun v => v <> EmptyString) _ _ _ Hall Hget eq_refl).
Qed.

(** X9. [findStationLine] ignores letter case and answers, for a station of
    the table, with a line whose list contains the station; for a station
    listed on MRT-3 and on LRT-2 the answer is LRT-2, the line filed last.
    It answers [null] exactly for the names that are neither a station nor,
    in lower case, a member of [Object.prototype]: for [constructor] and
    [__proto__] it returns that member instead of a line. *)
Theorem findStationLine_lookup :
  (forall stationName station,
      In station getAllStations ->
      CaseVariant stationName station ->
      exists line lineStations,
        findStationLine stationName = Some (Own line)
        /\ getLineStations line = Own lineStations
        /\ In station lineStations)
  /\ (forall station onMrt onLrt2,
         getLineStations "MRT-3" = Own onMrt ->
         getLineStations "LRT-2" = Own onLrt2 ->
         In station onMrt -> In station onLrt2 ->
         findStationLine station = Some (Own "LRT-2"))
  /\ (forall stationName,
         findStationLine stationName = None
         <-> ~ In (toLowerCase stationName) (map toLowerCase getAllStations)
             /\ ~ In (toLowerCase stationName) objectPrototypeNames)
  /\ findStationLine "constructor" = Some (Inherited "constructor")
  /\ findStationLine "__proto__" = Some (Inherited "__proto__").
Proof.
  split; [| split; [| split; [| split; reflexivity]]].
  - intros stationName station Hin Hvariant.
    apply CaseVariant_toLowerCase in Hvariant.
    assert (Hsame : findStationLine stationName = findStationLine station)
      by (unfold findStationLine; now rewrite Hvariant).
    rewrite Hsame.
    pose (p := fun station =>
      match findStationLine station with
      | Some (Own line) =>
          match getLineStations line with
          | Own lineStations => existsb (String.eqb station) lineStations
          | Inherited _ => false
          end
      | _ => false
      end).
    assert (Hall : forallb p getAllStations = true) by (vm_compute; reflexivity).
    pose proof (stations_forallb p Hall station Hin) as Hp. unfold p in Hp.
    clear Hall p.
    destruct (findStationLine station) as [[line | ?] |]; try discriminate Hp.
    destruct (getLineStations line) as [lineStations | ?] eqn:Hlist;
      try discriminate Hp.
    exists line, lineStations.
    split; [reflexivity |]. split; [exact Hlist |]. now apply existsb_eqb_In.
  - intros station onMrt onLrt2 [= <-] [= <-] Hmrt Hlrt2.
    pose (p := fun station =>
      implb (existsb (String.eqb station)
               [ "Antipolo"; "Marikina"; "Santolan"; "Katipunan"; "Anonas";
                 "Cubao"; "Betty Go-Belmonte"; "Gilmore"; "J. Ruiz"; "V. Mapa";
                 "Pureza"; "Legarda"; "Recto" ])
        match findStationLine station with
        | Some (Own line) => String.eqb line "LRT-2"
        | _ => false
        end).
    assert (Hall : forallb p
              [ "North Avenue"; "Quezon Avenue"; "GMA-Kamuning"; "Cubao";
                "Santolan-Annapolis"; "Ortigas"; "Shaw Boulevard"; "Boni";
                "Guadalupe"; "Buendia"; "Ayala"; "Magallanes"; "Taft Avenue" ]
              = true) by (vm_compute; reflexivity).
    rewrite forallb_forall in Hall. specialize (Hall station Hmrt).
    unfold p in Hall. apply existsb_eqb_In in Hlrt2. rewrite Hlrt2 in Hall.
    cbn [implb] in Hall.
    destruct (findStationLine station) as [[line | ?] |]; try discriminate Hall.
    apply String.eqb_eq in Hall. now subst.
  - intros stationName. unfold findStationLine, getProperty.
    rewrite <- stationToLine_keys, <- get_None_iff, <- existsb_eqb_In.
    destruct (JsMap.get (toLowerCase stationName) stationToLine)
      as [line |] eqn:Hget.
    + apply stationToLine_values in Hget.
      destruct line; [congruence |].
      split; [intros H; discriminate H | intros [H _]; discriminate H].
    + destruct (existsb _ objectPrototypeNames).
      * split; [intros H; discriminate H | intros [_ H]; now elim H].
      * split; [intros _; split; [reflexivity | intros H; discriminate H]
               | reflexivity].
Qed.

End Stations.

(** ** Routes *)

Section Routes.
Import JS.
Import JsObject.
Import StationManager.

Lemma sameLine_eq a b : sameLine a b = true -> a = b.
Proof.
  destruct a, b; simpl; try discriminate;
    intros H; apply String.eqb_eq in H; now subst.
Qed.

Lemma sameLine_refl a : sameLine a a = true.
Proof. destruct a; simpl; apply String.eqb_refl. Qed.

Lemma sameLine_sym a b : sameLine a b = sameLine b a.
Proof. destruct a, b; simpl; auto using String.eqb_sym. Qed.

Lemma indexOf_bounds x array :
  -1 <= indexOf x array < Z.of_nat (List.length array).
Proof.
  induction array as [| y array IH]; simpl List.length; simpl indexOf; [lia |].
  destruct (String.eqb y x); [lia |].
  destruct (Z.ltb_spec (indexOf x array) 0); lia.
Qed.

Lemma indexOf_absent x array : indexOf x array = -1 <-> ~ In x array.
Proof.
  induction array as [| y array IH]; simpl; [tauto |].
  pose proof (indexOf_bounds x array) as Hb.
  destruct (String.eqb_spec y x) as [-> | Hneq].
  - split; [discriminate | intros H; elim H; now left].
  - destruct (Z.ltb_spec (indexOf x array) 0).
    + split; [intros _ [? | Hin]; [congruence | apply IH in Hin; [easy | lia]]
             | reflexivity].
    + split; [lia | intros Hnot]. assert (~ In x array) as Hn by tauto.
      apply IH in Hn. lia.
Qed.

Lemma indexOf_present x array : In x array -> 0 <= indexOf x array.
Proof.
  intros Hin. pose proof (indexOf_bounds x array).
  destruct (Z.eq_dec (indexOf x array) (-1)) as [Heq | Hneq]; [| lia].
  apply indexOf_absent in Heq. contradiction.
Qed.

(** Two names found at the same place of a list are the same name. *)
Lemma indexOf_injective x y array :
  In x array -> indexOf x array = indexOf y array -> x = y.
Proof.
  induction array as [| z array IH]; simpl; [contradiction |].
  intros Hin.
  destruct (String.eqb_spec z x) as [-> | Hzx];
    destruct (String.eqb_spec x y) as [Hxy | Hxy]; try (subst; tauto).
  - destruct (String.eqb_spec x y); [contradiction |].
    pose proof (indexOf_bounds y array).
    destruct (Z.ltb_spec (indexOf y array) 0); lia.
  - destruct (String.eqb_spec z y) as [-> | Hzy].
    + pose proof (indexOf_bounds x array).
      destruct (Z.ltb_spec (indexOf x array) 0); lia.
    + destruct Hin as [? | Hin]; [congruence |].
      pose proof (indexOf_present x array Hin).
      pose proof (indexOf_bounds y array).
      destruct (Z.ltb_spec (indexOf x array) 0); [lia |].
      destruct (Z.ltb_spec (indexOf y array) 0); [lia |].
      intros Heq. apply IH; [assumption | lia].
Qed.

(** X10. No route leads from a name to itself, whatever the name;
    [isValidRoute] does not depend on the direction of travel; and two names
    on a common line that are not spelled as in the list of that line (in
    another letter case, say) count as the same station: no route. *)
Theorem getRouteInfo_rejects_same_station :
  (forall station, getRouteInfo station station = None)
  /\ (forall origin destination,
         isValidRoute origin destination = isValidRoute destination origin)
  /\ (forall origin destination line lineStations,
         findStationLine origin = Some (Own line) ->
         findStationLine destination = Some (Own line) ->
         getLineStations line = Own lineStations ->
         ~ In origin lineStations -> ~ In destination lineStations ->
         getRouteInfo origin destination = None).
Proof.
  split; [| split].
  - intros station. unfold getRouteInfo.
    destruct (findStationLine station) as [[line | name] |]; [| | reflexivity];
      rewrite sameLine_refl; [| reflexivity].
    destruct (stationsOfLine (Own line)) as [lineStations |]; [| reflexivity].
    now rewrite Z.eqb_refl.
  - intros origin destination. unfold isValidRoute, getRouteInfo.
    destruct (findStationLine origin) as [originLine |];
      destruct (findStationLine destination) as [destinationLine |];
      try reflexivity.
    rewrite (sameLine_sym destinationLine originLine).
    destruct (sameLine originLine destinationLine) eqn:Hsame; [| reflexivity].
    apply sameLine_eq in Hsame. subst destinationLine.
    destruct originLine as [line | name]; [| reflexivity].
    destruct (stationsOfLine (Own line)) as [lineStations |]; [| reflexivity].
    rewrite (Z.eqb_sym (indexOf destination lineStations)).
    destruct (indexOf origin lineStations =? indexOf destination lineStations);
      reflexivity.
  - intros origin destination line lineStations Ho Hd Hlist Hno Hnd.
    unfold getRouteInfo. rewrite Ho, Hd, sameLine_refl.
    unfold stationsOfLine. rewrite Hlist.
    apply indexOf_absent in Hno, Hnd. rewrite Hno, Hnd. reflexivity.
Qed.

(** X11. For two different stations spelled as in the list of their common
    line, the route stays on that line: the indices are the places of the
    two stations in the list, the number of stations between them is the
    distance of the two places and is at least one, the direction is
    northbound exactly when the destination comes first in the list, and the
    way back has the same length and the opposite direction. *)
Theorem getRouteInfo_same_line origin destination line lineStations :
  findStationLine origin = Some (Own line) ->
  findStationLine destination = Some (Own line) ->
  getLineStations line = Own lineStations ->
  In origin lineStations -> In destination lineStations ->
  origin <> destination ->
  let i := indexOf origin lineStations in
  let j := indexOf destination lineStations in
  getRouteInfo origin destination
  = Some (SameLineRoute line origin destination i j
            (if j <? i then "northbound" else "southbound") (Z.abs (j - i)))
  /\ getRouteInfo destination origin
     = Some (SameLineRoute line destination origin j i
               (if j <? i then "southbound" else "northbound") (Z.abs (j - i)))
  /\ 0 <= i < Z.of_nat (List.length lineStations)
  /\ 0 <= j < Z.of_nat (List.length lineStations)
  /\ 1 <= Z.abs (j - i) < Z.of_nat (List.length lineStations).
Proof.
  intros Ho Hd Hlist Hino Hind Hdiff i j.
  pose proof (indexOf_bounds origin lineStations) as Hbi.
  pose proof (indexOf_bounds destination lineStations) as Hbj.
  pose proof (indexOf_present _ _ Hino) as Hpi.
  pose proof (indexOf_present _ _ Hind) as Hpj.
  assert (Hij : i <> j).
  { intros Heq. apply Hdiff. now apply (indexOf_injective _ _ lineStations). }
  fold i in Hbi, Hpi. fold j in Hbj, Hpj.
  unfold getRouteInfo. rewrite Ho, Hd, sameLine_refl.
  unfold stationsOfLine. rewrite Hlist. fold i j.
  destruct (Z.eqb_spec i j) as [| _]; [contradiction |].
  destruct (Z.eqb_spec j i) as [| _]; [congruence |].
  split; [reflexivity |]. split; [| lia].
  replace (Z.abs (i - j)) with (Z.abs (j - i)) by lia.
  destruct (Z.ltb_spec j i), (Z.ltb_spec i j); try lia; reflexivity.
Qed.

End Routes.

(** ** The edit distance *)

Section EditDistance.
Import JS.
Import StationManager.
Import Notions.

Lemma editDistance_nil_r s : editDistance s [] = Z.of_nat (List.length s).
Proof. destruct s; reflexivity. Qed.

Lemma editDistance_cons a s b t :
  editDistance (a :: s) (b :: t)
  = if Ascii.eqb a b then editDistance s t
    else 1 + Z.min (Z.min (editDistance s t) (editDistance (a :: s) t))
               (editDistance s (b :: t)).
Proof. reflexivity. Qed.

(** The induction that follows the recurrence. *)
Lemma editDistance_ind2 (P : list ascii -> list ascii -> Prop) :
  (forall t, P [] t) ->
  (forall s, P s []) ->
  (forall a s b t, P s t -> P (a :: s) t -> P s (b :: t) ->
                   P (a :: s) (b :: t)) ->
  forall s t, P s t.
Proof.
  intros Hnil_l Hnil_r Hcons. induction s as [| a s IHs]; [exact Hnil_l |].
  induction t as [| b t IHt]; [apply Hnil_r |]. apply Hcons; auto.
Qed.

Lemma editDistance_bounds s t :
  Z.abs (Z.of_nat (List.length s) - Z.of_nat (List.length t))
  <= editDistance s t
  <= Z.max (Z.of_nat (List.length s)) (Z.of_nat (List.length t)).
Proof.
  revert s t. apply editDistance_ind2.
  - intros t. simpl. lia.
  - intros s. rewrite editDistance_nil_r. simpl. lia.
  - intros a s b t H1 H2 H3. rewrite editDistance_cons.
    simpl List.length in *. destruct (Ascii.eqb a b); lia.
Qed.

Lemma editDistance_refl s : editDistance s s = 0.
Proof.
  induction s as [| a s IH]; [reflexivity |].
  now rewrite editDistance_cons, Ascii.eqb_refl.
Qed.

Lemma editDistance_sym s t : editDistance s t = editDistance t s.
Proof.
  revert s t. apply editDistance_ind2.
  - intros t. now rewrite editDistance_nil_r.
  - intros s. now rewrite editDistance_nil_r.
  - intros a s b t H1 H2 H3. rewrite !editDistance_cons, Ascii.eqb_sym.
    destruct (Ascii.eqb b a); lia.
Qed.

Lemma editDistance_zero s t : editDistance s t = 0 -> s = t.
Proof.
  revert s t.
  apply (editDistance_ind2 (fun s t => editDistance s t = 0 -> s = t)).
  - intros [| b t] H; [reflexivity | simpl in H; lia].
  - intros [| a s] H; [reflexivity | simpl in H; lia].
  - intros a s b t H1 H2 H3. rewrite editDistance_cons.
    pose proof (editDistance_bounds s t).
    pose proof (editDistance_bounds (a :: s) t).
    pose proof (editDistance_bounds s (b :: t)).
    destruct (Ascii.eqb_spec a b) as [-> | _]; [| lia].
    intros Hz. now rewrite (H1 Hz).
Qed.

Lemma distanceRow_head a b rest :
  distanceRow a b rest = editDistance a b :: tl (distanceRow a b rest).
Proof. destruct rest; reflexivity. Qed.

(** [fillRow] turns the row of a prefix into the row of the prefix with one
    more character. *)
Lemma fillRow_correct rest a b char2 :
  fillRow char2 rest (distanceRow a b rest) (editDistance (char2 :: a) b)
  = tl (distanceRow (char2 :: a) b rest).
Proof.
  revert b. induction rest as [| c rest IH]; intros b; [reflexivity |].
  cbn [distanceRow tl]. rewrite (distanceRow_head a (c :: b) rest).
  cbn [fillRow]. rewrite <- (distanceRow_head a (c :: b) rest).
  rewrite (distanceRow_head (char2 :: a) (c :: b) rest).
  assert (Hcell : (if Ascii.eqb char2 c then editDistance a b
                   else min3 (editDistance a b + 1)
                          (editDistance (char2 :: a) b + 1)
                          (editDistance a (c :: b) + 1))
                  = editDistance (char2 :: a) (c :: b)).
  { rewrite editDistance_cons. unfold min3.
    destruct (Ascii.eqb char2 c); lia. }
  rewrite Hcell. f_equal. apply IH.
Qed.

Lemma distanceRow_first b rest :
  distanceRow [] b rest
  = map Z.of_nat (seq (List.length b) (List.length rest + 1)).
Proof.
  revert b. induction rest as [| c rest IH]; intros b; [reflexivity |].
  cbn [distanceRow]. rewrite IH. reflexivity.
Qed.

Lemma nth_distanceRow rest a b :
  nth (List.length rest) (distanceRow a b rest) 0
  = editDistance a (rev rest ++ b).
Proof.
  revert b. induction rest as [| c rest IH]; intros b; [reflexivity |].
  cbn [distanceRow List.length nth]. rewrite IH. simpl rev.
  now rewrite <- app_assoc.
Qed.

Lemma nth_rowsFrom str2 str1 a i :
  i = Z.of_nat (List.length a) ->
  nth (List.length str2) (rowsFrom str1 (distanceRow a [] str1) i str2) []
  = distanceRow (rev str2 ++ a) [] str1.
Proof.
  revert a i. induction str2 as [| char2 str2 IH]; intros a i Hi; [reflexivity |].
  cbn [rowsFrom List.length nth].
  assert (Hrow : (i + 1) :: fillRow char2 str1 (distanceRow a [] str1) (i + 1)
                 = distanceRow (char2 :: a) [] str1).
  { rewrite (distanceRow_head (char2 :: a) [] str1), editDistance_nil_r.
    replace (Z.of_nat (List.length (char2 :: a))) with (i + 1)
      by (simpl List.length; lia).
    f_equal. rewrite <- (fillRow_correct str1 a [] char2).
    rewrite editDistance_nil_r. simpl List.length. f_equal. lia. }
  rewrite Hrow, (IH (char2 :: a) (i + 1)) by (simpl List.length; lia).
  simpl rev. now rewrite <- app_assoc.
Qed.

Lemma length_list_ascii_of_string s :
  List.length (list_ascii_of_string s) = String.length s.
Proof. induction s as [| c s IH]; simpl; congruence. Qed.

(** The matrix computation is the recurrence, read from the ends of the
    two strings. *)
Lemma _levenshteinDistance_recurrence str1 str2 :
  _levenshteinDistance str1 str2
  = editDistance (rev (list_ascii_of_string str2))
      (rev (list_ascii_of_string str1)).
Proof.
  unfold _levenshteinDistance, matrix.
  rewrite <- !length_list_ascii_of_string.
  replace (map Z.of_nat (seq 0 (List.length (list_ascii_of_string str1) + 1)))
    with (distanceRow [] [] (list_ascii_of_string str1))
    by apply distanceRow_first.
  rewrite (nth_rowsFrom _ _ [] 0 eq_refl), nth_distanceRow.
  now rewrite !app_nil_r.
Qed.

(** The distance of a string to itself is 0, and only then; the distance
    is symmetric and lies between the difference of the lengths and the
    greater length. *)
Lemma _levenshteinDistance_metric str1 str2 :
  _levenshteinDistance str1 str1 = 0
  /\ (_levenshteinDistance str1 str2 = 0 -> str1 = str2)
  /\ _levenshteinDistance str1 str2 = _levenshteinDistance str2 str1
  /\ Z.abs (Z.of_nat (String.length str1) - Z.of_nat (String.length str2))
     <= _levenshteinDistance str1 str2
     <= Z.max (Z.of_nat (String.length str1)) (Z.of_nat (String.length str2)).
Proof.
  rewrite !_levenshteinDistance_recurrence.
  pose proof (editDistance_bounds (rev (list_ascii_of_string str2))
                (rev (list_ascii_of_string str1))) as Hb.
  rewrite !length_rev, !length_list_ascii_of_string in Hb.
  repeat split; try lia.
  - apply editDistance_refl.
  - intros Hz. apply editDistance_zero in Hz.
    apply (f_equal (@rev ascii)) in Hz. rewrite !rev_involutive in Hz.
    apply (f_equal string_of_list_ascii) in Hz.
    now rewrite !string_of_list_ascii_of_string in Hz.
  - apply editDistance_sym.
Qed.

(** X12. [_levenshteinDistance] fills its matrix with the edit distance:
    the result obeys the recurrence of the distance read from the ends of
    the strings.  Hence the distance of a string to itself is 0 and only
    then, the distance to the empty string is the length, the distance is
    symmetric and lies between the difference of the lengths and the
    greater length. *)
Theorem _levenshteinDistance_is_edit_distance str1 str2 :
  _levenshteinDistance str1 str2
  = editDistance (rev (list_ascii_of_string str2))
      (rev (list_ascii_of_string str1))
  /\ _levenshteinDistance str1 str1 = 0
  /\ (_levenshteinDistance str1 str2 = 0 -> str1 = str2)
  /\ _levenshteinDistance str1 EmptyString = Z.of_nat (String.length str1)
  /\ _levenshteinDistance EmptyString str2 = Z.of_nat (String.length str2)
  /\ _levenshteinDistance str1 str2 = _levenshteinDistance str2 str1
  /\ Z.abs (Z.of_nat (String.length str1) - Z.of_nat (String.length str2))
     <= _levenshteinDistance str1 str2
     <= Z.max (Z.of_nat (String.length str1)) (Z.of_nat (String.length str2)).
Proof.
  destruct (_levenshteinDistance_metric str1 str2)
    as (Hrefl & Hzero & Hsym & Hbounds).
  split; [apply _levenshteinDistance_recurrence |].
  split; [exact Hrefl |]. split; [exact Hzero |].
  split; [| split; [| split; [exact Hsym | exact Hbounds]]];
    rewrite _levenshteinDistance_recurrence; simpl.
  - now rewrite length_rev, length_list_ascii_of_string.
  - now rewrite editDistance_nil_r, length_rev, length_list_ascii_of_string.
Qed.

End EditDistance.

(** ** Station suggestions *)

From Stdlib Require Import Permutation Sorted.

Section Suggestions.
Import JS.
Import StationManager.
Import Notions.

(** The similarity is a fraction between 0 and 1. *)
Lemma _calculateSimilarity_range str1 str2 :
  let similarity := _calculateSimilarity str1 str2 in
  0 <= numerator similarity <= denominator similarity
  /\ 0 < denominator similarity.
Proof.
  unfold _calculateSimilarity.
  set (longer := if (String.length str2 <? String.length str1)%nat
                 then str1 else str2).
  set (shorter := if (String.length str2 <? String.length str1)%nat
                  then str2 else str1).
  assert (Hlen : (String.length shorter <= String.length longer)%nat).
  { subst longer shorter.
    destruct (Nat.ltb_spec (String.length str2) (String.length str1)); lia. }
  destruct (Nat.eqb_spec (String.length longer) 0) as [| Hpos]; simpl; [lia |].
  destruct (_levenshteinDistance_metric longer shorter) as (_ & _ & _ & Hb).
  lia.
Qed.

Lemma scoreGe_trans a b c :
  scoreValid a -> scoreValid b -> scoreValid c ->
  scoreGe a b -> scoreGe b c -> scoreGe a c.
Proof.
  unfold scoreValid, scoreGe, scoreLt. intros Ha Hb Hc Hab Hbc.
  apply Z.ltb_ge in Hab, Hbc. apply Z.ltb_ge.
  apply (Z.mul_le_mono_pos_r _ _ (denominator b) Hb).
  transitivity (numerator b * denominator a * denominator c).
  - replace (numerator c * denominator a * denominator b)
      with (numerator c * denominator b * denominator a) by ring.
    apply Z.mul_le_mono_nonneg_r with (p := denominator a) in Hbc; [| lia].
    replace (numerator b * denominator a * denominator c)
      with (numerator b * denominator c * denominator a) by ring.
    exact Hbc.
  - replace (numerator a * denominator c * denominator b)
      with (numerator a * denominator b * denominator c) by ring.
    apply Z.mul_le_mono_nonneg_r; [lia | exact Hab].
Qed.

Lemma scoreLt_scoreGe a b : scoreLt a b = true -> scoreGe b a.
Proof.
  unfold scoreGe, scoreLt. intros H. apply Z.ltb_lt in H. apply Z.ltb_ge. lia.
Qed.

Lemma insertSuggestion_Permutation s sorted :
  Permutation (insertSuggestion s sorted) (s :: sorted).
Proof.
  induction sorted as [| t rest IH]; simpl; [reflexivity |].
  destruct (scoreLt (snd s) (snd t)); [| reflexivity].
  rewrite IH. apply perm_swap.
Qed.

Lemma insertSuggestion_sorted s sorted :
  Forall (fun t => scoreValid (snd t)) (s :: sorted) ->
  StronglySorted ranksBefore sorted ->
  StronglySorted ranksBefore (insertSuggestion s sorted).
Proof.
  intros Hvalid Hsorted. induction Hsorted as [| t rest Hrest IH Ht]; simpl.
  - repeat constructor.
  - inversion Hvalid as [| ? ? Hs Hothers]; subst.
    inversion Hothers as [| ? ? Hvt Hvrest]; subst.
    destruct (scoreLt (snd s) (snd t)) eqn:Hlt.
    + constructor; [apply IH; now constructor |].
      rewrite (insertSuggestion_Permutation s rest). constructor; [| exact Ht].
      now apply scoreLt_scoreGe.
    + constructor; [now constructor |]. constructor; [exact Hlt |].
      rewrite Forall_forall in Ht, Hvrest |- *. intros r Hr.
      exact (scoreGe_trans (snd s) (snd t) (snd r) Hs Hvt (Hvrest r Hr)
               Hlt (Ht r Hr)).
Qed.

Lemma sortSuggestions_Permutation suggestions :
  Permutation (sortSuggestions suggestions) suggestions.
Proof.
  induction suggestions as [| s rest IH]; simpl; [reflexivity |].
  rewrite insertSuggestion_Permutation. now constructor.
Qed.

Lemma sortSuggestions_sorted suggestions :
  Forall (fun t => scoreValid (snd t)) suggestions ->
  StronglySorted ranksBefore (sortSuggestions suggestions).
Proof.
  induction 1 as [| s rest Hs Hrest IH]; simpl; [constructor |].
  apply insertSuggestion_sorted; [| exact IH].
  constructor; [exact Hs |].
  now rewrite (sortSuggestions_Permutation rest).
Qed.

(** In a sorted list every element of a front part ranks before every
    element of the rest. *)
Lemma StronglySorted_split {A} (R : A -> A -> Prop) front back :
  StronglySorted R (front ++ back) ->
  StronglySorted R front
  /\ forall a b, In a front -> In b back -> R a b.
Proof.
  induction front as [| x front IH]; simpl; intros H.
  - split; [constructor | contradiction].
  - inversion H as [| ? ? Hrest Hx]; subst. destruct (IH Hrest) as [Hf Hfb].
    rewrite Forall_app in Hx. destruct Hx as [Hxf Hxb].
    split; [now constructor |].
    intros a b [<- | Ha] Hb; [| auto].
    rewrite Forall_forall in Hxb. auto.
Qed.

(** The suggestions the loop collects: the stations above the threshold,
    in the order of the table, each with its score. *)
Lemma collected_suggestions stationInput (stationList : list string) collected :
  fold_left
    (fun suggestions station =>
       let similarity :=
         _calculateSimilarity (toLowerCase stationInput) (toLowerCase station) in
       if aboveThreshold similarity
       then (suggestions ++ [(station, similarity)])%list else suggestions)
    stationList collected
  = (collected
     ++ map (fun station => (station, stationScore stationInput station))
          (filter (fun station =>
                     aboveThreshold (stationScore stationInput station))
             stationList))%list.
Proof.
  revert collected. induction stationList as [| station rest IH];
    intros collected; simpl; [now rewrite app_nil_r |].
  rewrite IH. fold (stationScore stationInput station).
  destruct (aboveThreshold (stationScore stationInput station)); simpl;
    [now rewrite <- app_assoc | reflexivity].
Qed.

Lemma slice0_prefix {A} finish (array : list A) :
  exists n, slice0 finish array = firstn n array
            /\ (0 <= finish -> n = Z.to_nat finish).
Proof.
  unfold slice0. destruct (Z.ltb_spec finish 0); eexists; split; eauto; lia.
Qed.

(** The number of elements [slice(0, finish)] keeps. *)
Lemma length_slice0 {A} finish (array : list A) :
  Z.of_nat (List.length (slice0 finish array))
  = if finish <? 0
    then Z.max 0 (Z.of_nat (List.length array) + finish)
    else Z.min finish (Z.of_nat (List.length array)).
Proof.
  unfold slice0. destruct (Z.ltb_spec finish 0); rewrite length_firstn; lia.
Qed.

(** X13. [getStationSuggestions] returns the best-scoring stations.  Every
    suggestion is a station of the table whose similarity to the input is
    above 0.3; the suggestions come in descending order of similarity; and
    a station above the threshold that is left out scores no higher than
    any suggestion.  Of the [count] entries above the threshold the
    function returns the first [maxSuggestions], or all of them when they
    are fewer, if [maxSuggestions] is not negative: then a station above
    the threshold is left out only when the list is full.  For a negative
    [maxSuggestions] the [slice] counts from the end instead and the
    function returns all entries but the last [-maxSuggestions]. *)
Theorem getStationSuggestions_best stationInput maxSuggestions :
  let suggestions := getStationSuggestions stationInput maxSuggestions in
  let score := stationScore stationInput in
  let count :=
    Z.of_nat (List.length
                (filter (fun station => aboveThreshold (score station))
                   getAllStations)) in
  Z.of_nat (List.length suggestions)
  = (if maxSuggestions <? 0 then Z.max 0 (count + maxSuggestions)
     else Z.min maxSuggestions count)
  /\ (forall station,
         In station suggestions ->
         In station getAllStations /\ aboveThreshold (score station) = true)
  /\ StronglySorted (fun s t => scoreGe (score s) (score t)) suggestions
  /\ (forall station,
         In station getAllStations ->
         aboveThreshold (score station) = true ->
         ~ In station suggestions ->
         forall suggested,
           In suggested suggestions -> scoreGe (score suggested) (score station))
  /\ (0 <= maxSuggestions ->
      Z.of_nat (List.length suggestions) <= maxSuggestions
      /\ forall station,
          In station getAllStations ->
          aboveThreshold (score station) = true ->
          ~ In station suggestions ->
          Z.of_nat (List.length suggestions) = maxSuggestions).
Proof.
  intros suggestions score count. subst suggestions score count.
  unfold getStationSuggestions. rewrite collected_suggestions, app_nil_l.
  set (score := stationScore stationInput).
  set (candidates := map (fun station => (station, score station))
                       (filter (fun station => aboveThreshold (score station))
                          getAllStations)).
  assert (Hcandidates : forall pair, In pair candidates ->
            snd pair = score (fst pair) /\ In (fst pair) getAllStations
            /\ aboveThreshold (score (fst pair)) = true).
  { intros pair Hin. apply in_map_iff in Hin as (station & <- & Hin).
    apply filter_In in Hin. simpl. tauto. }
  assert (Hvalid : Forall (fun t => scoreValid (snd t)) candidates).
  { apply Forall_forall. intros pair Hin.
    destruct (Hcandidates pair Hin) as (-> & _).
    apply _calculateSimilarity_range. }
  pose proof (sortSuggestions_Permutation candidates) as Hperm.
  pose proof (sortSuggestions_sorted candidates Hvalid) as Hsorted.
  assert (Hcount :
    Z.of_nat (List.length
                (map fst (slice0 maxSuggestions (sortSuggestions candidates))))
    = if maxSuggestions <? 0
      then Z.max 0
             (Z.of_nat (List.length
                          (filter (fun station => aboveThreshold (score station))
                             getAllStations)) + maxSuggestions)
      else Z.min maxSuggestions
             (Z.of_nat (List.length
                          (filter (fun station => aboveThreshold (score station))
                             getAllStations)))).
  { rewrite length_map, length_slice0.
    rewrite (Permutation_length Hperm). unfold candidates.
    now rewrite length_map. }
  split; [exact Hcount |]. clear Hcount.
  destruct (slice0_prefix maxSuggestions (sortSuggestions candidates))
    as (n & -> & Hn).
  rewrite <- (firstn_skipn n (sortSuggestions candidates)) in Hperm, Hsorted.
  apply StronglySorted_split in Hsorted as [Hfront Hacross].
  assert (Hin_front : forall pair,
            In pair (firstn n (sortSuggestions candidates)) ->
            In pair candidates).
  { intros pair Hin. apply (Permutation_in _ Hperm), in_or_app. now left. }
  assert (Hback : forall station,
            In station getAllStations ->
            aboveThreshold (score station) = true ->
            ~ In station (map fst (firstn n (sortSuggestions candidates))) ->
            In (station, score station)
              (skipn n (sortSuggestions candidates))).
  { intros station Htable Habove Hout.
    assert (Hin : In (station, score station) candidates).
    { apply in_map_iff. exists station. split; [reflexivity |].
      apply filter_In. now split. }
    apply (Permutation_in _ (Permutation_sym Hperm)), in_app_or in Hin.
    destruct Hin as [Hin | Hin]; [| exact Hin].
    elim Hout. apply in_map_iff. now exists (station, score station). }
  split; [| split; [| split; [| split]]].
  - intros station Hin. apply in_map_iff in Hin as (pair & <- & Hin).
    now apply Hcandidates, Hin_front.
  - clear Hacross Hperm Hback.
    induction Hfront as [| pair rest Hrest IH Hpair]; simpl; constructor.
    + apply IH. intros p Hp. apply Hin_front. now right.
    + rewrite Forall_forall in Hpair |- *. intros station Hin.
      apply in_map_iff in Hin as (other & <- & Hin).
      specialize (Hpair other Hin). unfold ranksBefore in Hpair.
      destruct (Hcandidates pair (Hin_front pair (or_introl eq_refl))) as (<- & _).
      destruct (Hcandidates other (Hin_front other (or_intror Hin))) as (<- & _).
      exact Hpair.
  - intros station Htable Habove Hout suggested Hin.
    apply in_map_iff in Hin as (pair & <- & Hin).
    specialize (Hacross pair _ Hin (Hback station Htable Habove Hout)).
    unfold ranksBefore in Hacross.
    destruct (Hcandidates pair (Hin_front pair Hin)) as (<- & _).
    exact Hacross.
  - rewrite length_map.
    pose proof (firstn_le_length n (sortSuggestions candidates)). specialize (Hn H).
    lia.
  - intros station Htable Habove Hout. specialize (Hn H).
    pose proof (Hback station Htable Habove Hout) as Hleft.
    rewrite length_map, length_firstn.
    destruct (Nat.le_gt_cases (List.length (sortSuggestions candidates)) n)
      as [Hshort | Hlong]; [| lia].
    rewrite skipn_all2 in Hleft by exact Hshort. contradiction.
Qed.

End Suggestions.

(** ** More on stations *)

Section MoreStations.
Import JS.
Import JsObject.
Import StationManager.
Import Notions.

(** X14. The similarity of two strings is a fraction between 0 and 1; it is
    1 exactly when the strings are equal, and it does not depend on the
    order of the two strings. *)
Theorem _calculateSimilarity_properties str1 str2 :
  let similarity := _calculateSimilarity str1 str2 in
  0 < denominator similarity
  /\ 0 <= numerator similarity <= denominator similarity
  /\ (numerator similarity = denominator similarity <-> str1 = str2)
  /\ _calculateSimilarity str2 str1 = similarity.
Proof.
  pose proof (_calculateSimilarity_range str1 str2) as [Hrange Hpos].
  cbv zeta in *. split; [exact Hpos |]. split; [exact Hrange |].
  unfold _calculateSimilarity.
  destruct (_levenshteinDistance_metric str1 str2) as (_ & Hzero & Hsym & Hb).
  destruct (_levenshteinDistance_metric str2 str1) as (Hrefl & Hzero' & _ & _).
  destruct (Nat.ltb_spec (String.length str2) (String.length str1)) as [Hlt | Hge];
    destruct (Nat.ltb_spec (String.length str1) (String.length str2)) as [Hlt' | Hge'];
    try lia.
  - (* str1 is longer *)
    destruct (Nat.eqb_spec (String.length str1) 0) as [| _]; [lia |]. simpl.
    split; [| reflexivity]. split.
    + intros H. apply Hzero. lia.
    + intros ->. lia.
  - (* str2 is longer *)
    destruct (Nat.eqb_spec (String.length str2) 0) as [| _]; [lia |]. simpl.
    split; [| reflexivity]. split.
    + intros H. symmetry. apply Hzero'. lia.
    + intros ->. lia.
  - (* equal lengths *)
    assert (Hlen : String.length str1 = String.length str2) by lia.
    rewrite Hlen.
    destruct (Nat.eqb_spec (String.length str2) 0) as [Hempty | _]; simpl.
    + split; [| reflexivity]. split; [| reflexivity]. intros _.
      destruct str1, str2; simpl in *; try lia. reflexivity.
    + rewrite Hsym. split; [| reflexivity]. split.
      * intros H. symmetry. apply Hzero'. lia.
      * intros ->. rewrite Hrefl. lia.
Qed.

(** The stations of MRT-3 other than Cubao are filed under MRT-3. *)
Lemma mrt_station_line station onMrt :
  getLineStations "MRT-3" = Own onMrt ->
  In station onMrt -> station <> "Cubao" ->
  findStationLine station = Some (Own "MRT-3").
Proof.
  intros [= <-] Hin Hother.
  pose (p := fun station =>
    String.eqb station "Cubao"
    || match findStationLine station with
       | Some (Own line) => String.eqb line "MRT-3"
       | _ => false
       end).
  assert (Hall : forallb p
            [ "North Avenue"; "Quezon Avenue"; "GMA-Kamuning"; "Cubao";
              "Santolan-Annapolis"; "Ortigas"; "Shaw Boulevard"; "Boni";
              "Guadalupe"; "Buendia"; "Ayala"; "Magallanes"; "Taft Avenue" ]
            = true) by (vm_compute; reflexivity).
  rewrite forallb_forall in Hall. specialize (Hall station Hin).
  unfold p in Hall. clear p. apply String.eqb_neq in Hother.
  rewrite Hother in Hall. cbn [orb] in Hall.
  destruct (findStationLine station) as [[line | ?] |]; try discriminate Hall.
  apply String.eqb_eq in Hall. now subst.
Qed.

(** X15. Cubao is listed on MRT-3 and on LRT-2 and is filed under LRT-2
    only.  A trip between Cubao and any other station of MRT-3 is therefore
    reported as a transfer between LRT-2 and MRT-3, in both directions,
    although both stations are on MRT-3. *)
Theorem cubao_counts_as_LRT2 station onMrt :
  getLineStations "MRT-3" = Own onMrt ->
  In station onMrt -> station <> "Cubao" ->
  In "Cubao" onMrt
  /\ getRouteInfo "Cubao" station
     = Some (TransferRoute "Cubao" station (Own "LRT-2") (Own "MRT-3"))
  /\ getRouteInfo station "Cubao"
     = Some (TransferRoute station "Cubao" (Own "MRT-3") (Own "LRT-2")).
Proof.
  intros Hlist Hin Hother.
  pose proof (mrt_station_line station onMrt Hlist Hin Hother) as Hline.
  assert (Hcubao : findStationLine "Cubao" = Some (Own "LRT-2"))
    by (vm_compute; reflexivity).
  split; [injection Hlist as <-; simpl; tauto |].
  unfold getRouteInfo. rewrite Hline, Hcubao. split; reflexivity.
Qed.

End MoreStations.


(** ** Cleaning the user's input *)

Section Cleaning.
Import JS.
Import Helpers.
Import StationManager.
Import Spec.
Import Notions.

Lemma trimStart_length s : (String.length (trimStart s) <= String.length s)%nat.
Proof. induction s as [| c s IH]; simpl; [lia |]. destruct (isSpace c); simpl; lia. Qed.

Lemma trimEnd_length s : (String.length (trimEnd s) <= String.length s)%nat.
Proof.
  induction s as [| c s IH]; simpl; [lia |].
  destruct (trimEnd s); [destruct (isSpace c) |]; simpl in *; lia.
Qed.

Lemma collapse_length inRun s :
  (String.length (collapse inRun s) <= String.length s)%nat.
Proof.
  revert inRun. induction s as [| c s IH]; intros inRun; simpl; [lia |].
  pose proof (IH true). pose proof (IH false).
  destruct (isSpace c); [destruct inRun |]; simpl; lia.
Qed.

Lemma removeSpecial_length s :
  (String.length (removeSpecial s) <= String.length s)%nat.
Proof.
  induction s as [| c s IH]; simpl; [lia |].
  destruct (keptCharacter c); simpl; lia.
Qed.

(** After [collapse] every white space character is a plain space. *)
Lemma collapse_spaces inRun s c :
  In c (list_ascii_of_string (collapse inRun s)) ->
  isSpace c = true -> c = " "%char.
Proof.
  revert inRun. induction s as [| d s IH]; intros inRun; simpl; [contradiction |].
  destruct (isSpace d) eqn:Hd.
  - destruct inRun; simpl; [apply IH |]. intros [<- | Hin]; [reflexivity |].
    now apply (IH true).
  - simpl. intros [<- | Hin]; [congruence |]. now apply (IH false).
Qed.

Lemma removeSpecial_In s c :
  In c (list_ascii_of_string (removeSpecial s)) ->
  In c (list_ascii_of_string s) /\ keptCharacter c = true.
Proof.
  induction s as [| d s IH]; simpl; [contradiction |].
  destruct (keptCharacter d) eqn:Hd; simpl.
  - intros [<- | Hin]; [auto | destruct (IH Hin); auto].
  - intros Hin. destruct (IH Hin); auto.
Qed.

(** X16. What [cleanUserInput] returns is made of ASCII letters, digits,
    hyphens, dots, underscores and plain spaces only, every other white
    space character having become a plain space, and is never longer than
    the input. *)
Theorem cleanUserInput_output text :
  let cleaned := cleanUserInput text in
  (forall c, In c (list_ascii_of_string cleaned) ->
             keptCharacter c = true /\ (isSpace c = true -> c = " "%char))
  /\ (String.length cleaned <= String.length text)%nat.
Proof.
  unfold cleanUserInput. destruct text as [| c0 text]; [split; [contradiction | simpl; lia] |].
  set (input := String c0 text). split.
  - intros c Hin. apply removeSpecial_In in Hin as [Hin Hkept].
    split; [exact Hkept |]. now apply (collapse_spaces false (trim input)).
  - pose proof (removeSpecial_length (collapse false (trim input))).
    pose proof (collapse_length false (trim input)).
    pose proof (trimEnd_length (trimStart input)).
    pose proof (trimStart_length input). unfold trim in *. lia.
Qed.

Lemma tidy_fixed afterSpace s :
  tidy afterSpace s = true ->
  collapse afterSpace s = s /\ removeSpecial s = s.
Proof.
  revert afterSpace. induction s as [| c s IH]; intros afterSpace; simpl; [auto |].
  intros H. apply andb_true_iff in H as [Hkept H]. rewrite Hkept.
  destruct (isSpace c).
  - apply andb_true_iff in H as [H Htidy]. apply andb_true_iff in H as [Hc Hrun].
    apply negb_true_iff in Hrun. subst afterSpace.
    destruct (IH true Htidy) as [-> ->]. apply Ascii.eqb_eq in Hc. now subst.
  - destruct (IH false H) as [-> ->]. auto.
Qed.

(** A letter in another case is kept when the letter is, and is white
    space when the letter is. *)
Lemma sameLetter_kept a b :
  sameLetter a b -> keptCharacter b = true ->
  keptCharacter a = true /\ isSpace a = isSpace b
  /\ Ascii.eqb a " " = Ascii.eqb b " ".
Proof.
  pose (agree := fun a b : ascii =>
    implb (keptCharacter b)
      (keptCharacter a && Bool.eqb (isSpace a) (isSpace b)
       && Bool.eqb (Ascii.eqb a " ") (Ascii.eqb b " "))).
  assert (Hsound : forall a b, agree a b = true -> keptCharacter b = true ->
            keptCharacter a = true /\ isSpace a = isSpace b
            /\ Ascii.eqb a " " = Ascii.eqb b " ").
  { unfold agree. intros x y H Hy. rewrite Hy in H. simpl in H.
    apply andb_true_iff in H as [H H3]. apply andb_true_iff in H as [H1 H2].
    apply Bool.eqb_prop in H2, H3. auto. }
  assert (H1 : forall c, agree c c = true)
    by (apply ascii_forallb; vm_compute; reflexivity).
  assert (H2 : forall c, agree c (lowerChar c) = true)
    by (apply ascii_forallb; vm_compute; reflexivity).
  assert (H3 : forall c, agree (lowerChar c) c = true)
    by (apply ascii_forallb; vm_compute; reflexivity).
  assert (H4 : forall c, agree c (upperChar c) = true)
    by (apply ascii_forallb; vm_compute; reflexivity).
  assert (H5 : forall c, agree (upperChar c) c = true)
    by (apply ascii_forallb; vm_compute; reflexivity).
  intros [<- | [<- | [<- | [<- | <-]]]]; apply Hsound; auto.
Qed.

Lemma CaseVariant_tidy afterSpace s t :
  CaseVariant t s -> tidy afterSpace s = true -> tidy afterSpace t = true.
Proof.
  intros Hvariant. revert afterSpace.
  induction Hvariant as [| a b t s Hab Hrest IH]; intros afterSpace; [auto |].
  simpl. intros H. apply andb_true_iff in H as [Hkept H].
  destruct (sameLetter_kept a b Hab Hkept) as (-> & -> & ->).
  simpl. destruct (isSpace b).
  - apply andb_true_iff in H as [H Htidy]. rewrite H. simpl. now apply IH.
  - now apply IH.
Qed.

Lemma trimStart_idempotent s : trimStart (trimStart s) = trimStart s.
Proof.
  induction s as [| c s IH]; simpl; [reflexivity |].
  destruct (isSpace c) eqn:Hc; [exact IH |]. simpl. now rewrite Hc.
Qed.

Lemma trimEnd_idempotent s : trimEnd (trimEnd s) = trimEnd s.
Proof.
  induction s as [| c s IH]; simpl; [reflexivity |].
  destruct (trimEnd s) as [| d t] eqn:Ht.
  - destruct (isSpace c) eqn:Hc; simpl; [reflexivity | now rewrite Hc].
  - simpl in *. now rewrite IH.
Qed.

(** A text that does not start with white space still does not after
    [trimEnd], so that [trimStart] leaves it alone. *)
Lemma trimStart_trimEnd s :
  trimStart s = s -> trimStart (trimEnd s) = trimEnd s.
Proof.
  destruct s as [| c s]; [reflexivity |]. simpl.
  destruct (isSpace c) eqn:Hc.
  - intros H. pose proof (trimStart_length s) as Hlen.
    rewrite H in Hlen. simpl in Hlen. lia.
  - intros _. destruct (trimEnd s); simpl; now rewrite Hc.
Qed.

Lemma trim_idempotent s : trim (trim s) = trim s.
Proof.
  unfold trim.
  rewrite (trimStart_trimEnd (trimStart s) (trimStart_idempotent s)).
  apply trimEnd_idempotent.
Qed.

(** X17. A station of the table typed in any letter case, with blanks
    around it or without, passes [cleanUserInput] with only the blanks
    around it removed, is not taken for a greeting, and is validated to the
    name of the table. *)
Theorem typed_station_is_recognised text station :
  In station getAllStations ->
  CaseVariant (trim text) station ->
  cleanUserInput text = trim text
  /\ isGreeting (cleanUserInput text) = false
  /\ validateStation (cleanUserInput text) = Some station.
Proof.
  intros Hin Hvariant.
  assert (Htidy : tidy false station = true).
  { apply (stations_forallb (tidy false)); [vm_compute; reflexivity | exact Hin]. }
  assert (Hquiet : isGreeting station = false).
  { apply negb_true_iff.
    apply (stations_forallb (fun s => negb (isGreeting s)));
      [vm_compute; reflexivity | exact Hin]. }
  assert (Hclean : cleanUserInput text = trim text).
  { unfold cleanUserInput. destruct text as [| c0 text]; [reflexivity |].
    destruct (tidy_fixed false _ (CaseVariant_tidy false _ _ Hvariant Htidy))
      as [Hcollapse Hremove].
    now rewrite Hcollapse, Hremove. }
  rewrite Hclean. split; [reflexivity |]. split.
  - unfold isGreeting in *.
    now rewrite (CaseVariant_toLowerCase _ _ Hvariant).
  - apply validateStation_exact; [exact Hin |].
    rewrite trim_idempotent. now apply CaseVariant_toLowerCase.
Qed.

End Cleaning.

(** ** The sessions of the conversation handler *)

Section Sessions.
Import ConversationHandler.
Import Notions.

Lemma get_absent userId (sessions : JsMap.t Session) :
  ~ In userId (map fst sessions) -> JsMap.get userId sessions = None.
Proof.
  induction sessions as [| [user session] sessions IH]; simpl; [reflexivity |].
  intros Hnot. destruct (String.eqb userId user) eqn:E.
  - apply String.eqb_eq in E. subst. tauto.
  - apply IH. tauto.
Qed.

Lemma get_filter (keep : string * Session -> bool) userId sessions :
  NoDup (map fst sessions) ->
  JsMap.get userId (filter keep sessions)
  = match JsMap.get userId sessions with
    | Some session => if keep (userId, session) then Some session else None
    | None => None
    end.
Proof.
  induction sessions as [| [user session] sessions IH]; simpl; [reflexivity |].
  intros Hdistinct. inversion Hdistinct as [| ? ? Hnot Hrest]. subst.
  destruct (String.eqb userId user) eqn:E.
  - apply String.eqb_eq in E. subst user.
    destruct (keep (userId, session)); simpl.
    + now rewrite String.eqb_refl.
    + rewrite (IH Hrest), (get_absent _ _ Hnot). reflexivity.
  - destruct (keep (user, session)); simpl; [rewrite E |]; exact (IH Hrest).
Qed.

Lemma In_get userId session (sessions : JsMap.t Session) :
  NoDup (map fst sessions) ->
  In (userId, session) sessions -> JsMap.get userId sessions = Some session.
Proof.
  induction sessions as [| [user session'] sessions IH]; simpl; [contradiction |].
  intros Hdistinct. inversion Hdistinct as [| ? ? Hnot Hrest]. subst.
  intros [[= -> ->] | Hin]; [now rewrite String.eqb_refl |].
  destruct (String.eqb userId user) eqn:E; [| auto].
  apply String.eqb_eq in E. subst user. exfalso. apply Hnot.
  apply in_map_iff. now exists (userId, session).
Qed.

Lemma In_keys_filter (keep : string * Session -> bool) userId sessions :
  In userId (map fst (filter keep sessions)) -> In userId (map fst sessions).
Proof.
  rewrite !in_map_iff. intros (entry & Hfst & Hin).
  apply filter_In in Hin. exists entry. tauto.
Qed.

Lemma NoDup_keys_filter (keep : string * Session -> bool) sessions :
  NoDup (map fst sessions) -> NoDup (map fst (filter keep sessions)).
Proof.
  induction sessions as [| [user session] sessions IH]; simpl; [auto |].
  intros Hdistinct. inversion Hdistinct as [| ? ? Hnot Hrest]. subst.
  destruct (keep (user, session)); simpl; [| auto].
  constructor; [| auto]. intros Hin. apply Hnot. eapply In_keys_filter, Hin.
Qed.

Lemma delete_filter userId sessions :
  NoDup (map fst sessions) ->
  delete userId sessions
  = filter (fun entry => negb (String.eqb userId (fst entry))) sessions.
Proof.
  induction sessions as [| [user session] sessions IH]; simpl; [reflexivity |].
  intros Hdistinct. inversion Hdistinct as [| ? ? Hnot Hrest]. subst.
  destruct (String.eqb userId user) eqn:E; simpl.
  - apply String.eqb_eq in E. subst user. symmetry.
    apply forallb_filter_id. apply forallb_forall. intros [user session'] Hin.
    simpl. apply negb_true_iff, String.eqb_neq. intros <-.
    apply Hnot. apply in_map_iff. now exists (userId, session').
  - now rewrite (IH Hrest).
Qed.

Lemma filter_twice {A} (p q : A -> bool) (l : list A) :
  filter p (filter q l) = filter (fun a => p a && q a) l.
Proof.
  induction l as [| a l IH]; simpl; [reflexivity |].
  destruct (q a); simpl; rewrite ?andb_true_r, ?andb_false_r;
    [destruct (p a) |]; now rewrite IH.
Qed.

Lemma fold_delete users sessions :
  NoDup (map fst sessions) ->
  fold_left (fun sessions userId => delete userId sessions) users sessions
  = filter (fun entry =>
              negb (existsb (fun userId => String.eqb userId (fst entry)) users))
      sessions.
Proof.
  revert sessions. induction users as [| user users IH]; intros sessions Hdistinct.
  - simpl. symmetry. apply forallb_filter_id. now apply forallb_forall.
  - simpl. rewrite (delete_filter _ _ Hdistinct).
    rewrite IH by now apply NoDup_keys_filter.
    rewrite filter_twice. apply filter_ext. intros entry.
    rewrite negb_orb. apply andb_comm.
Qed.

(** The two loops of the clean-up remove the expired sessions and no
    others. *)
Lemma _cleanupExpiredSessions_sessions now this :
  distinctUsers this ->
  userSessions (_cleanupExpiredSessions now this)
  = filter (fun entry => negb (expired this now (snd entry))) (userSessions this).
Proof.
  intros Hdistinct. unfold _cleanupExpiredSessions, JsMap.entries.
  cbn [userSessions setSessions]. rewrite (fold_delete _ _ Hdistinct).
  apply filter_ext_in. intros [user session] Hin. cbn [fst snd]. f_equal.
  destruct (expired this now session) eqn:Hexpired.
  - apply existsb_exists. exists user. split; [| apply String.eqb_refl].
    apply in_map_iff. exists (user, session). split; [reflexivity |].
    apply filter_In. auto.
  - apply not_true_is_false. intros Hex. apply existsb_exists in Hex.
    destruct Hex as (user' & Hin' & Heq). apply String.eqb_eq in Heq.
    cbn [fst] in Heq. subst user'.
    apply in_map_iff in Hin'. destruct Hin' as ([user' session'] & Hfst & Hin').
    cbn [fst] in Hfst. subst user'. apply filter_In in Hin'.
    destruct Hin' as [Hin' Hexpired']. cbn [snd] in Hexpired'.
    assert (session' = session); [| congruence].
    apply (In_get _ _ _ Hdistinct) in Hin, Hin'. congruence.
Qed.

Lemma _cleanupExpiredSessions_get now this userId :
  distinctUsers this ->
  JsMap.get userId (userSessions (_cleanupExpiredSessions now this))
  = surviving this now userId.
Proof.
  intros Hdistinct. rewrite (_cleanupExpiredSessions_sessions _ _ Hdistinct).
  rewrite (get_filter _ _ _ Hdistinct). unfold surviving.
  destruct (JsMap.get userId (userSessions this)) as [session |]; [| reflexivity].
  cbn [snd]. now destruct (expired this now session).
Qed.

Lemma _cleanupExpiredSessions_distinct now this :
  distinctUsers this -> distinctUsers (_cleanupExpiredSessions now this).
Proof.
  intros Hdistinct. unfold distinctUsers.
  rewrite (_cleanupExpiredSessions_sessions _ _ Hdistinct).
  now apply NoDup_keys_filter.
Qed.

Lemma keys_set userId (session : Session) sessions :
  map fst (JsMap.set userId session sessions)
  = if JsMap.has userId sessions then map fst sessions
    else (map fst sessions ++ [userId])%list.
Proof.
  unfold JsMap.has.
  induction sessions as [| [user session'] sessions IH]; simpl; [reflexivity |].
  destruct (String.eqb userId user) eqn:E; simpl.
  - apply String.eqb_eq in E. now subst.
  - rewrite IH. now destruct (JsMap.get userId sessions).
Qed.

Lemma has_In userId (sessions : JsMap.t Session) :
  JsMap.has userId sessions = false -> ~ In userId (map fst sessions).
Proof.
  unfold JsMap.has.
  induction sessions as [| [user session] sessions IH]; simpl; [tauto |].
  destruct (String.eqb userId user) eqn:E; [discriminate 1 |].
  apply String.eqb_neq in E. intros H [Heq | Hin]; [congruence |].
  now apply IH.
Qed.

Lemma NoDup_keys_set userId (session : Session) sessions :
  NoDup (map fst sessions) ->
  NoDup (map fst (JsMap.set userId session sessions)).
Proof.
  intros Hdistinct. rewrite keys_set.
  destruct (JsMap.has userId sessions) eqn:Hhas; [exact Hdistinct |].
  apply NoDup_app; [exact Hdistinct | repeat constructor; simpl; tauto |].
  intros user Hin [<- | []]. exact (has_In _ _ Hhas Hin).
Qed.

Lemma _getUserSession_unfold now userId this :
  distinctUsers this ->
  _getUserSession now userId this
  = (sessionAt this now userId,
     setSessions this
       (JsMap.set userId (sessionAt this now userId)
          (filter (fun entry => negb (expired this now (snd entry)))
             (userSessions this)))).
Proof.
  intros Hdistinct. unfold _getUserSession, sessionAt.
  rewrite (_cleanupExpiredSessions_get _ _ _ Hdistinct).
  rewrite (_cleanupExpiredSessions_sessions _ _ Hdistinct).
  destruct (surviving this now userId); reflexivity.
Qed.

Lemma _getUserSession_get now userId this user :
  distinctUsers this ->
  JsMap.get user (userSessions (snd (_getUserSession now userId this)))
  = if String.eqb user userId then Some (sessionAt this now userId)
    else surviving this now user.
Proof.
  intros Hdistinct. rewrite (_getUserSession_unfold _ _ _ Hdistinct).
  cbn [snd userSessions setSessions].
  destruct (String.eqb user userId) eqn:E.
  - apply String.eqb_eq in E. subst user. apply JsMapFacts.get_set_same.
  - apply String.eqb_neq in E. rewrite (JsMapFacts.get_set_other _ _ _ _ E).
    rewrite <- (_cleanupExpiredSessions_sessions _ _ Hdistinct).
    now apply _cleanupExpiredSessions_get.
Qed.

Lemma _getUserSession_distinct now userId this :
  distinctUsers this -> distinctUsers (snd (_getUserSession now userId this)).
Proof.
  intros Hdistinct. rewrite (_getUserSession_unfold _ _ _ Hdistinct).
  unfold distinctUsers. cbn [snd userSessions setSessions].
  now apply NoDup_keys_set, NoDup_keys_filter.
Qed.

Lemma _getUserSession_timeout now userId this :
  sessionTimeout (snd (_getUserSession now userId this)) = sessionTimeout this
  /\ rushScraper (snd (_getUserSession now userId this)) = rushScraper this.
Proof.
  unfold _getUserSession.
  destruct (JsMap.get userId (userSessions (_cleanupExpiredSessions now this)));
    split; reflexivity.
Qed.

Lemma expired_spec this now session :
  expired this now session = true
  <-> sessionTimeout this < now - lastActivity session.
Proof. unfold expired. rewrite Z.gtb_ltb. apply Z.ltb_lt. Qed.

(** X18. [_getUserSession] drops the sessions that were idle for longer
    than the timeout and no others, so that afterwards no session of the
    map is older than the timeout; it hands out the session of the user,
    which is in the map, with the activity stamped at the call: the
    session the user had, if it was not dropped, and a new one in the
    initial state otherwise.  No user gets a second session. *)
Theorem _getUserSession_effect now userId this :
  distinctUsers this -> 0 <= sessionTimeout this ->
  let session := fst (_getUserSession now userId this) in
  let this' := snd (_getUserSession now userId this) in
  distinctUsers this'
  /\ sessionTimeout this' = sessionTimeout this
  /\ rushScraper this' = rushScraper this
  /\ JsMap.get userId (userSessions this') = Some session
  /\ lastActivity session = now
  /\ (forall user other,
        JsMap.get user (userSessions this') = Some other ->
        now - lastActivity other <= sessionTimeout this)
  /\ (forall user, user <> userId ->
        JsMap.get user (userSessions this') = surviving this now user)
  /\ session = sessionAt this now userId.
Proof.
  intros Hdistinct Htimeout. cbv zeta.
  assert (Hsession : fst (_getUserSession now userId this)
                     = sessionAt this now userId)
    by now rewrite (_getUserSession_unfold _ _ _ Hdistinct).
  assert (Hstamp : lastActivity (sessionAt this now userId) = now)
    by (unfold sessionAt; now destruct (surviving this now userId)).
  rewrite Hsession.
  split; [now apply _getUserSession_distinct |].
  split; [apply _getUserSession_timeout |].
  split; [apply _getUserSession_timeout |].
  split.
  { now rewrite (_getUserSession_get _ _ _ _ Hdistinct), String.eqb_refl. }
  split; [exact Hstamp |].
  split; [| split; [| reflexivity]].
  - intros user other. rewrite (_getUserSession_get _ _ _ _ Hdistinct).
    destruct (String.eqb user userId).
    + intros [= <-]. rewrite Hstamp. lia.
    + unfold surviving.
      destruct (JsMap.get user (userSessions this)) as [session |];
        [| discriminate 1].
      destruct (expired this now session) eqn:Hexpired; [discriminate 1 |].
      intros [= <-]. apply not_true_iff_false in Hexpired.
      rewrite expired_spec in Hexpired. lia.
  - intros user Hother. rewrite (_getUserSession_get _ _ _ _ Hdistinct).
    apply String.eqb_neq in Hother. now rewrite Hother.
Qed.

(** [a || 'initial'] on a state. *)
Lemma getUserState_fst now userId this :
  distinctUsers this ->
  fst (getUserState now userId this)
  = match state (sessionAt this now userId) with
    | EmptyString => ConversationState.INITIAL
    | state => state
    end.
Proof.
  intros Hdistinct. unfold getUserState.
  now rewrite (_getUserSession_unfold _ _ _ Hdistinct).
Qed.

Lemma _getUserData_fst now userId key this :
  distinctUsers this ->
  fst (_getUserData now userId key this)
  = getData key (data (sessionAt this now userId)).
Proof.
  intros Hdistinct. unfold _getUserData.
  now rewrite (_getUserSession_unfold _ _ _ Hdistinct).
Qed.

(** The session of a user after a write to a field of it. *)
Lemma written_session now userId this (write : Session -> Session) user :
  distinctUsers this ->
  let this1 :=
    setSessions (snd (_getUserSession now userId this))
      (JsMap.set userId (write (fst (_getUserSession now userId this)))
         (userSessions (snd (_getUserSession now userId this)))) in
  distinctUsers this1
  /\ sessionTimeout this1 = sessionTimeout this
  /\ JsMap.get user (userSessions this1)
     = if String.eqb user userId then Some (write (sessionAt this now userId))
       else surviving this now user.
Proof.
  intros Hdistinct this1. subst this1. split; [| split].
  - unfold distinctUsers. cbn [userSessions setSessions].
    apply NoDup_keys_set. now apply _getUserSession_distinct.
  - cbn [sessionTimeout setSessions]. apply _getUserSession_timeout.
  - cbn [userSessions setSessions].
    destruct (String.eqb user userId) eqn:E.
    + apply String.eqb_eq in E. subst user.
      rewrite JsMapFacts.get_set_same.
      now rewrite (_getUserSession_unfold _ _ _ Hdistinct).
    + pose proof E as Hne. apply String.eqb_neq in Hne.
      rewrite (JsMapFacts.get_set_other _ _ _ _ Hne).
      now rewrite (_getUserSession_get _ _ _ _ Hdistinct), E.
Qed.

Lemma _setUserState_unfold now userId state' this :
  _setUserState now userId state' this
  = setSessions (snd (_getUserSession now userId this))
      (JsMap.set userId
         (withState (fst (_getUserSession now userId this)) state')
         (userSessions (snd (_getUserSession now userId this)))).
Proof.
  unfold _setUserState. now destruct (_getUserSession now userId this).
Qed.

Lemma _setUserData_unfold now userId key value this :
  _setUserData now userId key value this
  = setSessions (snd (_getUserSession now userId this))
      (JsMap.set userId
         ((fun session =>
             withData session (setData key value (data session)))
            (fst (_getUserSession now userId this)))
         (userSessions (snd (_getUserSession now userId this)))).
Proof.
  unfold _setUserData. now destruct (_getUserSession now userId this).
Qed.

(** The session handed out at [t2] after a write at [t1] that stamped the
    session. *)
Lemma sessionAt_written this1 this t1 t2 userId written :
  sessionTimeout this1 = sessionTimeout this ->
  JsMap.get userId (userSessions this1) = Some written ->
  lastActivity written = t1 ->
  sessionAt this1 t2 userId
  = if t2 - t1 >? sessionTimeout this then newSession t2
    else withLastActivity written t2.
Proof.
  intros Htimeout Hget Hstamp. unfold sessionAt, surviving. rewrite Hget.
  unfold expired. rewrite Htimeout, Hstamp.
  now destruct (t2 - t1 >? sessionTimeout this).
Qed.

Lemma lastActivity_sessionAt this now userId :
  lastActivity (sessionAt this now userId) = now.
Proof. unfold sessionAt. now destruct (surviving this now userId). Qed.

(** Another user's session, read at [t2] after a call at [t1] that cleaned
    the map. *)
Lemma sessionAt_other this1 this t1 t2 user :
  t1 <= t2 ->
  sessionTimeout this1 = sessionTimeout this ->
  JsMap.get user (userSessions this1) = surviving this t1 user ->
  sessionAt this1 t2 user = sessionAt this t2 user.
Proof.
  intros Hle Htimeout Hget. unfold sessionAt.
  replace (surviving this1 t2 user) with (surviving this t2 user);
    [reflexivity |].
  unfold surviving at 2. rewrite Hget. unfold surviving.
  destruct (JsMap.get user (userSessions this)) as [session |]; [| reflexivity].
  unfold expired. rewrite Htimeout.
  destruct (t1 - lastActivity session >? sessionTimeout this) eqn:H1;
    [| reflexivity].
  rewrite Z.gtb_ltb in H1. apply Z.ltb_lt in H1.
  destruct (t2 - lastActivity session >? sessionTimeout this) eqn:H2;
    [reflexivity |].
  rewrite Z.gtb_ltb in H2. apply Z.ltb_ge in H2. lia.
Qed.

(** X19. The state set for a user is the state read for that user as long
    as no more than the timeout passes between the two calls; after a
    longer silence the user is back in the initial state.  An empty state
    reads as the initial one.  The state of another user is not affected
    by the write. *)
Theorem state_kept_until_timeout t1 t2 userId state' this :
  distinctUsers this ->
  let this1 := _setUserState t1 userId state' this in
  fst (getUserState t2 userId this1)
  = (if t2 - t1 >? sessionTimeout this then ConversationState.INITIAL
     else match state' with
          | EmptyString => ConversationState.INITIAL
          | _ => state'
          end)
  /\ (forall user, user <> userId -> t1 <= t2 ->
        fst (getUserState t2 user this1) = fst (getUserState t2 user this)).
Proof.
  intros Hdistinct this1. subst this1. rewrite _setUserState_unfold.
  destruct (written_session t1 userId this (fun session => withState session state')
              userId Hdistinct) as (Hdistinct1 & Htimeout & Hget).
  rewrite String.eqb_refl in Hget. split.
  - rewrite (getUserState_fst _ _ _ Hdistinct1).
    rewrite (sessionAt_written _ this t1 t2 _ _ Htimeout Hget)
      by apply lastActivity_sessionAt.
    destruct (t2 - t1 >? sessionTimeout this); [reflexivity |].
    cbn [state withLastActivity withState]. now destruct state'.
  - intros user Hother Hle.
    destruct (written_session t1 userId this
                (fun session => withState session state') user Hdistinct)
      as (_ & _ & Hget').
    apply String.eqb_neq in Hother. rewrite Hother in Hget'.
    rewrite (getUserState_fst _ _ _ Hdistinct1), (getUserState_fst _ _ _ Hdistinct).
    now rewrite (sessionAt_other _ this t1 t2 user Hle Htimeout Hget').
Qed.

Lemma sameKey_eq a b : sameKey a b = true <-> a = b.
Proof. destruct a, b; simpl; split; congruence. Qed.

Lemma getData_setData_same key value data :
  getData key (setData key value data) = Some value.
Proof.
  assert (Hrefl : sameKey key key = true) by now apply sameKey_eq.
  induction data as [| [key' value'] data IH]; simpl; [now rewrite Hrefl |].
  destruct (sameKey key key') eqn:E; simpl; [now rewrite Hrefl |].
  now rewrite E.
Qed.

Lemma getData_setData_other key key' value data :
  key' <> key -> getData key' (setData key value data) = getData key' data.
Proof.
  intros Hne.
  assert (Hkeys : sameKey key' key = false).
  { apply not_true_iff_false. now rewrite sameKey_eq. }
  induction data as [| [key0 value0] data IH]; simpl; [now rewrite Hkeys |].
  destruct (sameKey key key0) eqn:E; simpl.
  - apply sameKey_eq in E. subst key0. now rewrite Hkeys.
  - now rewrite IH.
Qed.

(** X20. What is filed under a key of a user's session is read back under
    that key as long as no more than the timeout passes between the two
    calls, and is gone ([undefined]) after a longer silence.  The write
    leaves the other keys and the state of the session as they are. *)
Theorem data_kept_until_timeout t1 t2 userId key value this :
  distinctUsers this ->
  let this1 := _setUserData t1 userId key value this in
  fst (_getUserData t2 userId key this1)
  = (if t2 - t1 >? sessionTimeout this then None else Some value)
  /\ (forall key', key' <> key ->
        fst (_getUserData t2 userId key' this1)
        = if t2 - t1 >? sessionTimeout this then None
          else fst (_getUserData t1 userId key' this))
  /\ fst (getUserState t2 userId this1)
     = (if t2 - t1 >? sessionTimeout this then ConversationState.INITIAL
        else fst (getUserState t1 userId this)).
Proof.
  intros Hdistinct this1. subst this1. rewrite _setUserData_unfold.
  destruct (written_session t1 userId this
              (fun session => withData session (setData key value (data session)))
              userId Hdistinct) as (Hdistinct1 & Htimeout & Hget).
  rewrite String.eqb_refl in Hget.
  pose proof (sessionAt_written _ this t1 t2 _ _ Htimeout Hget
                (lastActivity_sessionAt this t1 userId)) as Hsession.
  split; [| split].
  - rewrite (_getUserData_fst _ _ _ _ Hdistinct1), Hsession.
    destruct (t2 - t1 >? sessionTimeout this); [reflexivity |].
    apply getData_setData_same.
  - intros key' Hne.
    rewrite (_getUserData_fst _ _ _ _ Hdistinct1), Hsession.
    destruct (t2 - t1 >? sessionTimeout this); [reflexivity |].
    rewrite (_getUserData_fst _ _ _ _ Hdistinct).
    now apply getData_setData_other.
  - rewrite (getUserState_fst _ _ _ Hdistinct1), Hsession.
    destruct (t2 - t1 >? sessionTimeout this); [reflexivity |].
    now rewrite (getUserState_fst _ _ _ Hdistinct).
Qed.

Lemma get_delete userId user (sessions : JsMap.t Session) :
  NoDup (map fst sessions) ->
  JsMap.get user (delete userId sessions)
  = if String.eqb user userId then None else JsMap.get user sessions.
Proof.
  intros Hdistinct. rewrite (delete_filter _ _ Hdistinct).
  rewrite (get_filter _ _ _ Hdistinct). cbn [fst].
  rewrite (String.eqb_sym userId user).
  destruct (String.eqb user userId), (JsMap.get user sessions); reflexivity.
Qed.

(** X21. [_clearUserSession] removes the session of the user and no other;
    the next call for the user starts a new session, in the initial state
    and with no data, whatever the old one held. *)
Theorem _clearUserSession_forgets now userId this :
  distinctUsers this ->
  let this' := _clearUserSession userId this in
  distinctUsers this'
  /\ JsMap.get userId (userSessions this') = None
  /\ (forall user, user <> userId ->
        JsMap.get user (userSessions this')
        = JsMap.get user (userSessions this))
  /\ fst (_getUserSession now userId this') = newSession now
  /\ fst (getUserState now userId this') = ConversationState.INITIAL.
Proof.
  intros Hdistinct this'.
  assert (Hget : forall user,
            JsMap.get user (userSessions this')
            = if String.eqb user userId then None
              else JsMap.get user (userSessions this)).
  { intros user. subst this'. unfold _clearUserSession, JsMap.has.
    destruct (JsMap.get userId (userSessions this)) eqn:Hhas.
    - cbn [userSessions setSessions]. now apply get_delete.
    - destruct (String.eqb user userId) eqn:E; [| reflexivity].
      apply String.eqb_eq in E. now subst user. }
  assert (Hdistinct' : distinctUsers this').
  { subst this'. unfold _clearUserSession.
    destruct (JsMap.has userId (userSessions this)); [| exact Hdistinct].
    unfold distinctUsers. cbn [userSessions setSessions].
    rewrite (delete_filter _ _ Hdistinct). now apply NoDup_keys_filter. }
  assert (Hnew : sessionAt this' now userId = newSession now).
  { unfold sessionAt, surviving. now rewrite Hget, String.eqb_refl. }
  split; [exact Hdistinct' |]. split; [| split; [| split]].
  - now rewrite Hget, String.eqb_refl.
  - intros user Hother. apply String.eqb_neq in Hother.
    now rewrite Hget, Hother.
  - now rewrite (_getUserSession_unfold _ _ _ Hdistinct').
  - now rewrite (getUserState_fst _ _ _ Hdistinct'), Hnew.
Qed.

End Sessions.

(** ** The Puppeteer-era scraper *)

Section Puppeteer.
Import JS.
Import RushScraper.
Import Notions.

Variable host : Host.

Lemma _extractPreloadedData_none w origin destination line :
  _extractPreloadedData w origin destination line = Normal None.
Proof.
  unfold _extractPreloadedData, _processRawData.
  destruct (evaluatePreloaded w) as [[raw |] | error]; reflexivity.
Qed.

Lemma _interceptNetworkData_none w origin destination line :
  _interceptNetworkData w origin destination line = Normal None.
Proof.
  unfold _interceptNetworkData, _processRawData.
  destruct (reload w) as [[] | error], (intercepted w); reflexivity.
Qed.

Lemma _tryStationSelection_normal w origin destination :
  exists found, _tryStationSelection w origin destination = Normal found.
Proof. apply tryCatch_normal. Qed.

Lemma _interactWithStationElement_normal w element origin destination :
  _interactWithStationElement w element origin destination = Normal tt.
Proof.
  unfold _interactWithStationElement.
  destruct (tryCatch_normal
              (tagName <- RushScraper.tagName w element ;;
               if String.eqb tagName "select" then
                 _selectFromDropdown w element origin
               else if String.eqb tagName "input" then
                 click w element ;;; typeText w element origin ;;; pressTab w
               else Normal tt)%js tt) as [[] ->].
  reflexivity.
Qed.

(** The loop finds an element exactly when some selector answers with one
    and no selector before it fails. *)
Lemma firstSelector_true w origin destination selectors :
  firstSelector w origin destination selectors = Normal true ->
  exists selector, In selector selectors /\ query w selector = Normal true.
Proof.
  induction selectors as [| selector rest IH]; simpl; [discriminate 1 |].
  destruct (query w selector) as [[|] | error] eqn:Hquery; simpl.
  - intros _. exists selector. auto.
  - intros H. destruct (IH H) as (found & Hin & Hfound). eauto.
  - discriminate 1.
Qed.

Lemma RushScraper_page_some w origin destination line record :
  _extractTrainDataFromPage host w origin destination line
    = Normal (Some record) ->
  _tryStationSelection w origin destination = Normal true
  /\ _extractScheduleFromDOM host w origin destination line
     = Normal (Some record).
Proof.
  unfold _extractTrainDataFromPage.
  rewrite _extractPreloadedData_none, _interceptNetworkData_none.
  destruct (_tryStationSelection_normal w origin destination) as [found ->].
  cbn [bind tryCatch]. destruct found.
  - destruct (_extractScheduleFromDOM host w origin destination line)
      as [[scheduleData |] | error]; cbn [bind tryCatch];
      [intros [= <-]; auto | discriminate 1 | discriminate 1].
  - cbn [bind tryCatch]. discriminate 1.
Qed.

Lemma RushScraper_attempt_normal w this origin destination line :
  exists response,
    fst (_attemptDataExtraction host w this origin destination line)
    = Normal response.
Proof.
  unfold _attemptDataExtraction.
  destruct (useBrowserScraper this); cbn [negb fst]; [| eauto].
  destruct (_initBrowser w this) as [launched this']. cbn [fst].
  apply tryCatch_normal.
Qed.

Lemma RushScraper_attempt_some w this origin destination line record :
  fst (_attemptDataExtraction host w this origin destination line)
    = Normal (Some record) ->
  useBrowserScraper this = true
  /\ (exists b, fst (_initBrowser w this) = Normal b)
  /\ _extractTrainDataFromPage host w origin destination line
     = Normal (Some record).
Proof.
  unfold _attemptDataExtraction.
  destruct (useBrowserScraper this); cbn [negb fst]; [| discriminate 1].
  destruct (_initBrowser w this) as [launched this']. cbn [fst].
  intros H. apply tryCatch_inv in H as [H | H]; [| discriminate H].
  apply bind_normal_inv in H as [b [-> H]].
  apply bind_normal_inv in H as [[] [_ H]].
  apply bind_normal_inv in H as [[] [_ H]].
  apply bind_normal_inv in H as [[] [_ H]].
  apply bind_normal_inv in H as [[] [_ H]].
  apply bind_normal_inv in H as [[trainData |] [Hpage H]];
    [| discriminate H].
  injection H as <-. eauto.
Qed.

(** X22. [scrapeTrainSchedule] of [RushScraper] resolves with a record
    whatever the browser and the site do: the cached one on a hit;
    otherwise a record that is stored under the key of the route with the
    time of the call, and that is the simulated one unless live
    extraction is enabled and the page gave a record.  A browser that
    cannot be launched yields the simulated record. *)
Theorem RushScraper_scrape_resolves w this origin destination line :
  let result := scrapeTrainSchedule host w this origin destination line in
  let cacheKey := _getCacheKey origin destination in
  exists record,
    fst result = Normal record
    /\ match cachedData this (clockCheck w) cacheKey with
       | Some data => record = data /\ snd result = this
       | None =>
           JsMap.get cacheKey (cache (snd result))
           = Some {| data := record; timestamp := clockStore w |}
           /\ (record
               = _simulateTrainData host (clockStore w) origin destination line
               \/ useBrowserScraper this = true
                  /\ fst (_attemptDataExtraction host w this
                            origin destination line) = Normal (Some record))
           /\ (useBrowserScraper this = false
               \/ (browser this = None /\ exists error, launch w = Throw error) ->
               record
               = _simulateTrainData host (clockStore w) origin destination line)
       end.
Proof.
  cbv zeta. unfold scrapeTrainSchedule.
  destruct (cachedData this (clockCheck w) (_getCacheKey origin destination))
    as [data |]; [exists data; auto |].
  destruct (RushScraper_attempt_normal w this origin destination line)
    as [response Hattempt].
  pose proof (RushScraper_attempt_some w this origin destination line)
    as Hsome.
  assert (Hfailed :
    useBrowserScraper this = false
    \/ (browser this = None /\ exists error, launch w = Throw error) ->
    response = None).
  { destruct response as [record |]; [| reflexivity].
    destruct (Hsome record Hattempt) as (Henabled & [b Hinit] & _).
    intros [Hoff | [Hnone [error Hlaunch]]]; [congruence |].
    unfold _initBrowser in Hinit. rewrite Hnone, Hlaunch in Hinit.
    discriminate Hinit. }
  destruct (_attemptDataExtraction host w this origin destination line)
    as [attempt this'] eqn:Hrun.
  cbn [fst] in Hattempt, Hsome. subst attempt. cbn [tryCatch].
  destruct response as [record |].
  - exists record. cbn [fst snd]. split; [reflexivity |].
    split; [apply JsMapFacts.get_set_same |].
    split; [right; destruct (Hsome record eq_refl) as (? & _); auto |].
    intros H. discriminate (Hfailed H).
  - eexists. cbn [fst snd]. split; [reflexivity |].
    split; [apply JsMapFacts.get_set_same |]. auto.
Qed.

(** X23. Only the schedule read from the page can make a live record.
    What [_extractPreloadedData] finds in the window or in a script and
    what [_interceptNetworkData] hears from the network come to nothing,
    because [_processRawData] returns [null]; so a record comes out of the
    page only when one of the station selectors found an element and
    [_extractScheduleFromDOM] gave that record. *)
Theorem only_the_DOM_gives_live_data w origin destination line :
  _extractPreloadedData w origin destination line = Normal None
  /\ _interceptNetworkData w origin destination line = Normal None
  /\ (forall record,
        _extractTrainDataFromPage host w origin destination line
          = Normal (Some record) ->
        (exists selector,
            In selector selectors /\ query w selector = Normal true)
        /\ _extractScheduleFromDOM host w origin destination line
           = Normal (Some record))
  /\ ((forall selector, In selector selectors ->
         query w selector <> Normal true) ->
      _extractTrainDataFromPage host w origin destination line = Normal None).
Proof.
  split; [apply _extractPreloadedData_none |].
  split; [apply _interceptNetworkData_none |].
  assert (Hfound : _tryStationSelection w origin destination = Normal true ->
            exists selector,
              In selector selectors /\ query w selector = Normal true).
  { unfold _tryStationSelection. intros H.
    apply tryCatch_inv in H as [H | H]; [| discriminate H].
    now apply firstSelector_true in H. }
  split.
  - intros record H.
    apply RushScraper_page_some in H as [Hselect Hdom]. auto.
  - intros Hnone. unfold _extractTrainDataFromPage.
    rewrite _extractPreloadedData_none, _interceptNetworkData_none.
    destruct (_tryStationSelection_normal w origin destination)
      as [found Hselect].
    rewrite Hselect. destruct found; [| reflexivity].
    destruct (Hfound Hselect) as (selector & Hin & Hquery).
    now destruct (Hnone selector Hin).
Qed.

(** *** The trains of a live record *)


Lemma isDigit_cases c :
  isDigit c = true ->
  In c ["0"; "1"; "2"; "3"; "4"; "5"; "6"; "7"; "8"; "9"]%char.
Proof.
  set (digits := ["0"; "1"; "2"; "3"; "4"; "5"; "6"; "7"; "8"; "9"]%char).
  assert (Hall : forall c,
            implb (isDigit c) (existsb (Ascii.eqb c) digits) = true)
    by (apply ascii_forallb; vm_compute; reflexivity).
  intros Hc. specialize (Hall c). rewrite Hc in Hall. cbn [implb] in Hall.
  apply existsb_exists in Hall as (d & Hin & Heq).
  apply Ascii.eqb_eq in Heq. now subst.
Qed.

(** The two parts of a time token are numbers. *)
Lemma clockToken_parts time :
  clockToken time = true ->
  exists hours minutes,
    map Number (splitOn (Ascii.eqb ":") time) = [Some hours; Some minutes].
Proof.
  set (digits := ["0"; "1"; "2"; "3"; "4"; "5"; "6"; "7"; "8"; "9"]%char).
  pose (good := fun parts : list (option Z) =>
                  match parts with [Some _; Some _] => true | _ => false end).
  assert (Hgood : forall parts, good parts = true ->
            exists hours minutes, parts = [Some hours; Some minutes]).
  { intros [| [h |] [| [m |] [| ? ?]]]; try discriminate 1. eauto. }
  pose (parts := fun token => map Number (splitOn (Ascii.eqb ":") token)).
  pose (long := fun d1 d2 d3 d4 =>
    good (parts (String d1 (String d2 (String ":"
                   (String d3 (String d4 EmptyString))))))).
  pose (short := fun d1 d3 d4 =>
    good (parts (String d1 (String ":" (String d3 (String d4 EmptyString)))))).
  assert (Hlong : forallb (fun d1 => forallb (fun d2 => forallb (fun d3 =>
            forallb (fun d4 => long d1 d2 d3 d4) digits) digits) digits) digits
          = true) by (vm_compute; reflexivity).
  assert (Hshort : forallb (fun d1 => forallb (fun d3 =>
            forallb (fun d4 => short d1 d3 d4) digits) digits) digits
          = true) by (vm_compute; reflexivity).
  unfold clockToken. intros H.
  rewrite <- (string_of_list_ascii_of_string time).
  destruct (list_ascii_of_string time) as [| a [| b [| c [| d [| e [| ? ?]]]]]];
    try discriminate H.
  - propositional H. destruct H as (((Ha & Hb) & Hc) & Hd).
    apply Ascii.eqb_eq in Hb. subst b. apply Hgood.
    apply isDigit_cases in Ha, Hc, Hd.
    rewrite forallb_forall in Hshort. specialize (Hshort a Ha).
    rewrite forallb_forall in Hshort. specialize (Hshort c Hc).
    rewrite forallb_forall in Hshort. exact (Hshort d Hd).
  - propositional H. destruct H as ((((Ha & Hb) & Hc) & Hd) & He).
    apply Ascii.eqb_eq in Hc. subst c. apply Hgood.
    apply isDigit_cases in Ha, Hb, Hd, He.
    rewrite forallb_forall in Hlong. specialize (Hlong a Ha).
    rewrite forallb_forall in Hlong. specialize (Hlong b Hb).
    rewrite forallb_forall in Hlong. specialize (Hlong d Hd).
    rewrite forallb_forall in Hlong. exact (Hlong e He).
Qed.

Lemma matchAt_token prev s group rest :
  Regex.matchAt Regex.Hour24 prev s = Some (group, rest) ->
  clockToken (string_of_list_ascii group) = true.
Proof.
  unfold Regex.matchAt. destruct (Regex.wordBoundary prev s); [| discriminate 1].
  assert (H2 : forall found,
            Regex.withTail Regex.Hour24 (Regex.clock2 ":" s) = Some found ->
            clockToken (string_of_list_ascii (fst found)) = true).
  { unfold Regex.clock2.
    destruct s as [| a [| b [| c [| d [| e s]]]]]; try discriminate 1.
    destruct (isDigit a && isDigit b && Ascii.eqb c ":" && isDigit d
              && isDigit e) eqn:Hshape; [| discriminate 1].
    cbn [Regex.withTail]. destruct (Regex.tailOf _ _ _); [| discriminate 1].
    intros found [= <-]. unfold clockToken. cbn [fst].
    rewrite list_ascii_of_string_of_list_ascii. exact Hshape. }
  assert (H1 : forall found,
            Regex.withTail Regex.Hour24 (Regex.clock1 ":" s) = Some found ->
            clockToken (string_of_list_ascii (fst found)) = true).
  { unfold Regex.clock1.
    destruct s as [| a [| b [| c [| d s]]]]; try discriminate 1.
    destruct (isDigit a && Ascii.eqb b ":" && isDigit c && isDigit d)
      eqn:Hshape; [| discriminate 1].
    cbn [Regex.withTail]. destruct (Regex.tailOf _ _ _); [| discriminate 1].
    intros found [= <-]. unfold clockToken. cbn [fst].
    rewrite list_ascii_of_string_of_list_ascii. exact Hshape. }
  cbn [Regex.separator].
  destruct (Regex.withTail Regex.Hour24 (Regex.clock2 ":" s)) as [found |].
  - intros [= ->]. exact (H2 _ eq_refl).
  - intros H. exact (H1 _ H).
Qed.

(** Every match of [/\b\d{1,2}:\d{2}\b/g] is a time token. *)
Lemma matchAll_tokens text :
  Forall (fun time => clockToken time = true)
    (Regex.matchAll Regex.Hour24 text).
Proof.
  unfold Regex.matchAll.
  generalize (@None ascii) as prev, 0%nat as skip.
  induction (list_ascii_of_string text) as [| c s IH]; intros prev skip;
    [constructor |].
  cbn [Regex.scan]. destruct skip as [| skip]; [| apply IH].
  destruct (Regex.matchAt Regex.Hour24 prev (c :: s)) as [[group rest] |] eqn:Hm;
    [| apply IH].
  constructor; [| apply IH]. exact (matchAt_token _ _ _ _ Hm).
Qed.

Lemma In_pushTime trainTimes time train :
  In train (pushTime trainTimes time) ->
  In train trainTimes
  \/ (TrainTime.time train = time /\ TrainTime.status train = "On Time"
      /\ TrainTime.minutesAway train = Some 0).
Proof.
  unfold pushTime. destruct time as [| c time]; [auto |].
  destruct (existsb _ trainTimes); [auto |].
  intros Hin. apply in_app_or in Hin as [Hin | [<- | []]]; auto.
Qed.

Lemma NoDup_pushTime trainTimes time :
  NoDup (map TrainTime.time trainTimes) ->
  NoDup (map TrainTime.time (pushTime trainTimes time)).
Proof.
  intros Hdistinct. unfold pushTime. destruct time as [| c time]; [auto |].
  set (token := String c time).
  destruct (existsb (fun t => String.eqb (TrainTime.time t) token) trainTimes)
    eqn:Hseen; [auto |].
  rewrite map_app. cbn [map TrainTime.time].
  apply NoDup_app; [exact Hdistinct | repeat constructor; simpl; tauto |].
  intros time' Hin [<- | []].
  apply in_map_iff in Hin as (train & Htime & Hin).
  apply not_true_iff_false in Hseen. apply Hseen.
  apply existsb_exists. exists train. split; [exact Hin |].
  now apply String.eqb_eq.
Qed.

(** What the loops of the page function collect: trains with pairwise
    distinct times, each a time token and on time. *)
Lemma scanned_trainTimes elements :
  let trainTimes := fold_left scanElement elements [] in
  NoDup (map TrainTime.time trainTimes)
  /\ Forall (fun train =>
               clockToken (TrainTime.time train) = true
               /\ TrainTime.status train = "On Time")
       trainTimes.
Proof.
  cbv zeta.
  set (collected := fun trainTimes : list TrainTime.t =>
    NoDup (map TrainTime.time trainTimes)
    /\ Forall (fun train =>
                 clockToken (TrainTime.time train) = true
                 /\ TrainTime.status train = "On Time")
         trainTimes).
  assert (Hpush : forall times trainTimes,
            Forall (fun time => clockToken time = true) times ->
            collected trainTimes ->
            collected (fold_left pushTime times trainTimes)).
  { induction times as [| time times IH]; intros trainTimes Htokens Hc;
      [exact Hc |].
    inversion Htokens as [| ? ? Htoken Hrest]. subst.
    cbn [fold_left]. apply IH; [exact Hrest |].
    destruct Hc as [Hdistinct Hall]. split; [now apply NoDup_pushTime |].
    apply Forall_forall. intros train Hin.
    apply In_pushTime in Hin as [Hin | (Htime & Hstatus & _)].
    - rewrite Forall_forall in Hall. exact (Hall train Hin).
    - rewrite Htime. auto. }
  apply fold_left_preserves.
  - intros trainTimes element Hc. unfold scanElement.
    apply Hpush; [apply matchAll_tokens | exact Hc].
  - split; constructor.
Qed.

Lemma minutesAwayOf_live now train :
  clockToken (TrainTime.time train) = true ->
  TrainTime.status train = "On Time" ->
  liveTrain (minutesAwayOf host now train).
Proof.
  intros Htoken Hstatus. unfold liveTrain, minutesAwayOf.
  cbn [TrainTime.time TrainTime.status TrainTime.minutesAway].
  split; [exact Htoken |]. split; [exact Hstatus |].
  destruct (clockToken_parts _ Htoken) as (hours & minutes & ->).
  cbn [nth_error]. eexists. split; [reflexivity |]. lia.
Qed.

Lemma NoDup_firstn_map {A B} (f : A -> B) n (l : list A) :
  NoDup (map f l) -> NoDup (map f (firstn n l)).
Proof. rewrite <- firstn_map. apply NoDup_firstn. Qed.

Lemma RushScraper_travel_time_bounds origin destination :
  3 <= _estimateTravelTime origin destination <= 45
  /\ _estimateTravelTime origin destination mod 3 = 0.
Proof.
  unfold _estimateTravelTime, rem.
  set (hash := _hashString (origin ++ destination)).
  assert (Hhash : 0 <= hash) by apply Z.abs_nonneg.
  pose proof (Z.rem_bound_pos hash 15 Hhash ltac:(lia)) as Hrem.
  split; [lia |]. rewrite Z.mul_comm. apply Z.mod_mul. lia.
Qed.

Lemma _extractScheduleFromDOM_some w origin destination line record :
  _extractScheduleFromDOM host w origin destination line
    = Normal (Some record) ->
  exists elements,
    let trainTimes := fold_left scanElement elements [] in
    trainTimes <> []
    /\ record
       = {| Schedule.line := line;
            Schedule.origin := origin;
            Schedule.destination := destination;
            Schedule.nextTrains :=
              _calculateMinutesAway host (clockPost w) (firstn 5 trainTimes);
            Schedule.estimatedTravelTime :=
              _estimateTravelTime origin destination;
            Schedule.lastUpdated := Date.toISOString (clockPost w);
            Schedule.status := "operational";
            Schedule.simulated := false;
            Schedule.extractedAt := Some (Date.toISOString (clockPage w));
            Schedule.source := None;
            Schedule.extractionDetails := None |}.
Proof.
  unfold _extractScheduleFromDOM. intros H.
  apply tryCatch_inv in H as [H | H]; [| discriminate H].
  apply bind_normal_inv in H as [document [_ H]].
  apply bind_normal_inv in H as [[scheduleData |] [Hpage H]];
    [| discriminate H].
  unfold pageFunction in Hpage.
  apply bind_normal_inv in Hpage as [tables [_ Hpage]].
  apply bind_normal_inv in Hpage as [lists [_ Hpage]].
  apply bind_normal_inv in Hpage as [cards [_ Hpage]].
  exists (tables ++ lists ++ cards)%list. cbv zeta.
  set (trainTimes := fold_left scanElement (tables ++ lists ++ cards)%list [])
    in *.
  destruct (Z.of_nat (List.length trainTimes) >? 0) eqn:Hfound;
    [| discriminate Hpage].
  remember (firstn 5 trainTimes) as firstFive eqn:Hfive in Hpage.
  injection Hpage as <-. cbn [domNextTrains domLine domOrigin domDestination
    domSimulated domExtractedAt] in H.
  destruct (Z.of_nat (List.length firstFive) >? 0); [| discriminate H].
  injection H as <-. subst firstFive. split; [| reflexivity].
  intros Hnil. rewrite Hnil in Hfound. discriminate Hfound.
Qed.

(** X24. A record that [RushScraper] extracts on a call that misses the
    cache (one not flagged as simulated) is for the route and the line
    asked for and has between one and five trains, with pairwise distinct
    times; each train has a time token of the page, is on time and is a
    number of minutes away that is not negative.  The estimated travel
    time is a multiple of three between 3 and 45 minutes. *)
Theorem RushScraper_live_record w this origin destination line record :
  cachedData this (clockCheck w) (_getCacheKey origin destination) = None ->
  fst (scrapeTrainSchedule host w this origin destination line)
    = Normal record ->
  Schedule.simulated record = false ->
  Schedule.line record = line
  /\ Schedule.origin record = origin
  /\ Schedule.destination record = destination
  /\ (1 <= List.length (Schedule.nextTrains record) <= 5)%nat
  /\ NoDup (map TrainTime.time (Schedule.nextTrains record))
  /\ Forall liveTrain (Schedule.nextTrains record)
  /\ 3 <= Schedule.estimatedTravelTime record <= 45
  /\ Schedule.estimatedTravelTime record mod 3 = 0
  /\ Schedule.status record = "operational"
  /\ Schedule.lastUpdated record = Date.toISOString (clockPost w)
  /\ Schedule.extractedAt record = Some (Date.toISOString (clockPage w)).
Proof.
  intros Hmiss Hresult Hlive.
  assert (Hattempt :
    fst (_attemptDataExtraction host w this origin destination line)
    = Normal (Some record)).
  { unfold scrapeTrainSchedule in Hresult. rewrite Hmiss in Hresult.
    destruct (RushScraper_attempt_normal w this origin destination line)
      as [response Hattempt].
    destruct (_attemptDataExtraction host w this origin destination line)
      as [attempt this'].
    cbn [fst] in Hattempt |- *. subst attempt. cbn [tryCatch] in Hresult.
    destruct response as [response |]; cbn [fst] in Hresult;
      injection Hresult as <-; [reflexivity |].
    discriminate Hlive. }
  apply RushScraper_attempt_some in Hattempt as (_ & _ & Hpage).
  apply RushScraper_page_some in Hpage as [_ Hdom].
  apply _extractScheduleFromDOM_some in Hdom as (elements & Hfound & ->).
  cbv zeta in Hfound.
  destruct (scanned_trainTimes elements) as [Hdistinct Hall].
  set (trainTimes := fold_left scanElement elements []) in *.
  cbn [Schedule.line Schedule.origin Schedule.destination Schedule.nextTrains
       Schedule.estimatedTravelTime Schedule.status Schedule.lastUpdated
       Schedule.extractedAt].
  pose proof (RushScraper_travel_time_bounds origin destination) as [Hrange Hmod].
  repeat (split; [reflexivity |]).
  split; [| split; [| split; [| split; [| split; [| repeat split]]]]];
    try assumption; try tauto.
  - unfold _calculateMinutesAway. rewrite length_map, length_firstn.
    clearbody trainTimes. destruct trainTimes; [contradiction |].
    cbn [List.length]. lia.
  - unfold _calculateMinutesAway. rewrite map_map.
    cbn [TrainTime.time minutesAwayOf].
    change (fun x => TrainTime.time x) with TrainTime.time.
    apply NoDup_firstn_map. exact Hdistinct.
  - unfold _calculateMinutesAway. apply Forall_map.
    apply Forall_forall. intros train Hin. apply In_firstn in Hin.
    rewrite Forall_forall in Hall. destruct (Hall train Hin).
    now apply minutesAwayOf_live.
Qed.

End Puppeteer.

(** ** Instances of the further properties *)

Section FurtherInstances.
Import JS.
Import Spec.
Import Notions.

(** With live extraction off, a call on a dead site leaves the browser
    reference as it was. *)
Lemma scrapeTrainSchedule_frame_when_simulating :
  useBrowserScraper Samples.simulating = false
  /\ browser (snd (PlaywrightRushScraper.scrapeTrainSchedule manila
                     Samples.offline Samples.simulating
                     "Ayala" "Buendia" "MRT-3"))
     = browser Samples.simulating.
Proof.
  assert (Hoff : useBrowserScraper Samples.simulating = false) by reflexivity.
  split; [exact Hoff |].
  destruct (scrapeTrainSchedule_frame manila Samples.offline
              Samples.simulating "Ayala" "Buendia" "MRT-3")
    as (_ & _ & _ & _ & Hbrowser).
  exact (Hbrowser Hoff).
Defined.

(** A record stored for Ayala to Buendia on MRT-3 is the answer for AYALA
    to buendia on LRT-1. *)
Lemma cached_route_ignores_line_of_ayala :
  PlaywrightRushScraper.cachedData Samples.simulating
    (clockCheck Samples.offline)
    (PlaywrightRushScraper._getCacheKey "Ayala" "Buendia") = None
  /\ CaseVariant "Ayala" "AYALA" /\ CaseVariant "Buendia" "buendia"
  /\ PlaywrightRushScraper.scrapeTrainSchedule manila
       (Samples.online Samples.board)
       (snd (PlaywrightRushScraper.scrapeTrainSchedule manila Samples.offline
               Samples.simulating "Ayala" "Buendia" "MRT-3"))
       "AYALA" "buendia" "LRT-1"
     = PlaywrightRushScraper.scrapeTrainSchedule manila Samples.offline
         Samples.simulating "Ayala" "Buendia" "MRT-3".
Proof.
  assert (Hmiss : PlaywrightRushScraper.cachedData Samples.simulating
                    (clockCheck Samples.offline)
                    (PlaywrightRushScraper._getCacheKey "Ayala" "Buendia")
                  = None) by reflexivity.
  assert (Ho : CaseVariant "Ayala" "AYALA") by solve_case_variant.
  assert (Hd : CaseVariant "Buendia" "buendia") by solve_case_variant.
  split; [exact Hmiss |]. split; [exact Ho |]. split; [exact Hd |].
  apply (cached_route_ignores_line manila Samples.offline
           (Samples.online Samples.board) Samples.simulating
           "Ayala" "Buendia" "MRT-3" "AYALA" "buendia" "LRT-1" Hmiss Ho Hd).
  vm_compute. reflexivity.
Defined.

(** [new PlaywrightRushScraper()] with no environment: five minutes and
    thirty seconds. *)
Lemma constructor_defaults_without_options :
  cacheDuration Samples.simulating = 300
  /\ browserTimeout Samples.simulating = 30000.
Proof.
  destruct (constructor_defaults Samples.noOptions Samples.noEnv)
    as (_ & _ & _ & Hcache & Htimeout & _).
  split; [apply Hcache | apply Htimeout]; first [left; reflexivity | reflexivity].
Defined.

(** The departure board gives a live record, tagged as extracted. *)
Lemma simulated_flag_tells_the_path_on_board :
  exists record this',
    PlaywrightRushScraper.cachedData Samples.scraping
      (clockCheck (Samples.online Samples.board))
      (PlaywrightRushScraper._getCacheKey "Ayala" "Buendia") = None
    /\ PlaywrightRushScraper.scrapeTrainSchedule manila
         (Samples.online Samples.board) Samples.scraping
         "Ayala" "Buendia" "MRT-3" = (Normal record, this')
    /\ Schedule.simulated record = false
    /\ Schedule.source record = Some "playwright-extraction"
    /\ (1 <= List.length (Schedule.nextTrains record) <= 10)%nat.
Proof.
  destruct (PlaywrightRushScraper.scrapeTrainSchedule manila
              (Samples.online Samples.board) Samples.scraping
              "Ayala" "Buendia" "MRT-3") as [[record | error] this'] eqn:Hrun;
    [| vm_compute in Hrun; discriminate Hrun].
  exists record, this'.
  assert (Hmiss : PlaywrightRushScraper.cachedData Samples.scraping
                    (clockCheck (Samples.online Samples.board))
                    (PlaywrightRushScraper._getCacheKey "Ayala" "Buendia")
                  = None) by reflexivity.
  assert (Hlive : Schedule.simulated record = false).
  { vm_compute in Hrun. injection Hrun as <- _. reflexivity. }
  split; [exact Hmiss |]. split; [reflexivity |]. split; [exact Hlive |].
  destruct (proj1 (simulated_flag_tells_the_path manila
                     (Samples.online Samples.board) Samples.scraping
                     "Ayala" "Buendia" "MRT-3" record this' Hmiss Hrun) Hlive)
    as (_ & _ & _ & _ & Hsource & _ & Hcount & _).
  split; [exact Hsource | exact Hcount].
Defined.

(** [taft AVENUE], with blanks around it, is Taft Avenue. *)
Lemma validateStation_canonical_for_taft :
  In "Taft Avenue" StationManager.getAllStations
  /\ CaseVariant (trim "  taft AVENUE ") "Taft Avenue"
  /\ StationManager.validateStation "  taft AVENUE " = Some "Taft Avenue".
Proof.
  assert (Hin : In "Taft Avenue" StationManager.getAllStations)
    by (apply existsb_eqb_In; vm_compute; reflexivity).
  assert (Hvariant : CaseVariant (trim "  taft AVENUE ") "Taft Avenue")
    by (vm_compute; solve_case_variant).
  split; [exact Hin |]. split; [exact Hvariant |].
  exact (validateStation_canonical "  taft AVENUE " "Taft Avenue" Hin Hvariant).
Defined.

(** Three blanks are taken for North Avenue. *)
Lemma validateStation_result_for_blanks :
  trim "   " = EmptyString
  /\ StationManager.validateStation "   " = Some "North Avenue".
Proof.
  assert (Hblank : trim "   " = EmptyString) by reflexivity.
  split; [exact Hblank |].
  exact (proj2 (validateStation_result "   ") Hblank).
Defined.

(** AYALA is found on a line that lists Ayala. *)
Lemma findStationLine_lookup_for_ayala :
  In "Ayala" StationManager.getAllStations /\ CaseVariant "AYALA" "Ayala"
  /\ exists line lineStations,
      StationManager.findStationLine "AYALA" = Some (JsObject.Own line)
      /\ StationManager.getLineStations line = JsObject.Own lineStations
      /\ In "Ayala" lineStations.
Proof.
  assert (Hin : In "Ayala" StationManager.getAllStations)
    by (apply existsb_eqb_In; vm_compute; reflexivity).
  assert (Hvariant : CaseVariant "AYALA" "Ayala") by solve_case_variant.
  split; [exact Hin |]. split; [exact Hvariant |].
  exact (proj1 findStationLine_lookup "AYALA" "Ayala" Hin Hvariant).
Defined.

(** From ayala to buendia, in lower case, there is no route. *)
Lemma getRouteInfo_rejects_same_station_in_lower_case :
  StationManager.findStationLine "ayala" = Some (JsObject.Own "MRT-3")
  /\ StationManager.findStationLine "buendia" = Some (JsObject.Own "MRT-3")
  /\ StationManager.getLineStations "MRT-3" = JsObject.Own Cases.mrt3
  /\ ~ In "ayala" Cases.mrt3 /\ ~ In "buendia" Cases.mrt3
  /\ StationManager.getRouteInfo "ayala" "buendia" = None.
Proof.
  assert (Ho : StationManager.findStationLine "ayala"
               = Some (JsObject.Own "MRT-3")) by (vm_compute; reflexivity).
  assert (Hd : StationManager.findStationLine "buendia"
               = Some (JsObject.Own "MRT-3")) by (vm_compute; reflexivity).
  assert (Hline : StationManager.getLineStations "MRT-3"
                  = JsObject.Own Cases.mrt3) by (vm_compute; reflexivity).
  assert (Hno : ~ In "ayala" Cases.mrt3).
  { intros Hin. apply existsb_eqb_In in Hin. vm_compute in Hin.
    discriminate Hin. }
  assert (Hnd : ~ In "buendia" Cases.mrt3).
  { intros Hin. apply existsb_eqb_In in Hin. vm_compute in Hin.
    discriminate Hin. }
  repeat (split; [assumption |]).
  destruct getRouteInfo_rejects_same_station as (_ & _ & Hcommon).
  exact (Hcommon "ayala" "buendia" "MRT-3" Cases.mrt3 Ho Hd Hline Hno Hnd).
Defined.

(** From Ayala to Taft Avenue on MRT-3: two stations, southbound. *)
Lemma getRouteInfo_same_line_from_ayala :
  StationManager.findStationLine "Ayala" = Some (JsObject.Own "MRT-3")
  /\ StationManager.findStationLine "Taft Avenue" = Some (JsObject.Own "MRT-3")
  /\ StationManager.getLineStations "MRT-3" = JsObject.Own Cases.mrt3
  /\ In "Ayala" Cases.mrt3 /\ In "Taft Avenue" Cases.mrt3
  /\ "Ayala" <> "Taft Avenue"
  /\ StationManager.getRouteInfo "Ayala" "Taft Avenue"
     = Some (StationManager.SameLineRoute "MRT-3" "Ayala" "Taft Avenue"
               10 12 "southbound" 2).
Proof.
  assert (Ho : StationManager.findStationLine "Ayala"
               = Some (JsObject.Own "MRT-3")) by (vm_compute; reflexivity).
  assert (Hd : StationManager.findStationLine "Taft Avenue"
               = Some (JsObject.Own "MRT-3")) by (vm_compute; reflexivity).
  assert (Hline : StationManager.getLineStations "MRT-3"
                  = JsObject.Own Cases.mrt3) by (vm_compute; reflexivity).
  assert (Hio : In "Ayala" Cases.mrt3)
    by (apply existsb_eqb_In; vm_compute; reflexivity).
  assert (Hid : In "Taft Avenue" Cases.mrt3)
    by (apply existsb_eqb_In; vm_compute; reflexivity).
  assert (Hne : "Ayala" <> "Taft Avenue") by discriminate.
  repeat (split; [assumption |]).
  exact (proj1 (getRouteInfo_same_line "Ayala" "Taft Avenue" "MRT-3"
                  Cases.mrt3 Ho Hd Hline Hio Hid Hne)).
Defined.

(** Ayla and Ayala are as far from each other either way: between one
    and five edits. *)
Lemma _levenshteinDistance_is_edit_distance_of_ayla :
  StationManager._levenshteinDistance "Ayla" "Ayala"
  = StationManager._levenshteinDistance "Ayala" "Ayla"
  /\ 1 <= StationManager._levenshteinDistance "Ayla" "Ayala" <= 5.
Proof.
  destruct (_levenshteinDistance_is_edit_distance "Ayla" "Ayala")
    as (_ & _ & _ & _ & _ & Hsym & Hbounds).
  split; [exact Hsym | exact Hbounds].
Defined.

(** At most three suggestions for Ayla; with -1 for the maximum, all
    stations above the threshold but the last. *)
Lemma getStationSuggestions_best_for_ayla :
  0 <= 3
  /\ Z.of_nat (List.length (StationManager.getStationSuggestions "Ayla" 3)) <= 3
  /\ Z.of_nat (List.length (StationManager.getStationSuggestions "Avenue" (-1)))
     = 5.
Proof.
  assert (Hmax : 0 <= 3) by lia.
  split; [exact Hmax |].
  destruct (getStationSuggestions_best "Ayla" 3) as (_ & _ & _ & _ & Hcapped).
  split; [exact (proj1 (Hcapped Hmax)) |].
  destruct (getStationSuggestions_best "Avenue" (-1)) as (Hcount & _).
  vm_compute in Hcount |- *. exact Hcount.
Defined.

(** Ayala is as similar to Ayala as can be. *)
Lemma _calculateSimilarity_properties_of_ayala :
  StationManager.numerator (StationManager._calculateSimilarity "Ayala" "Ayala")
  = StationManager.denominator
      (StationManager._calculateSimilarity "Ayala" "Ayala").
Proof.
  destruct (_calculateSimilarity_properties "Ayala" "Ayala")
    as (_ & _ & Hequal & _).
  apply Hequal. reflexivity.
Defined.

(** Cubao to Ayala counts as a transfer from LRT-2 to MRT-3. *)
Lemma cubao_counts_as_LRT2_to_ayala :
  StationManager.getLineStations "MRT-3" = JsObject.Own Cases.mrt3
  /\ In "Ayala" Cases.mrt3 /\ "Ayala" <> "Cubao"
  /\ StationManager.getRouteInfo "Cubao" "Ayala"
     = Some (StationManager.TransferRoute "Cubao" "Ayala"
               (JsObject.Own "LRT-2") (JsObject.Own "MRT-3")).
Proof.
  assert (Hline : StationManager.getLineStations "MRT-3"
                  = JsObject.Own Cases.mrt3) by (vm_compute; reflexivity).
  assert (Hin : In "Ayala" Cases.mrt3)
    by (apply existsb_eqb_In; vm_compute; reflexivity).
  assert (Hne : "Ayala" <> "Cubao") by discriminate.
  repeat (split; [assumption |]).
  destruct (cubao_counts_as_LRT2 "Ayala" Cases.mrt3 Hline Hin Hne)
    as (_ & Hroute & _).
  exact Hroute.
Defined.

(** The digit of [5th Avenue!!] is kept. *)
Lemma cleanUserInput_output_of_5th_avenue :
  In "5"%char (list_ascii_of_string (Helpers.cleanUserInput "  5th   Avenue!! "))
  /\ Helpers.keptCharacter "5" = true.
Proof.
  assert (Hin : In "5"%char
                  (list_ascii_of_string
                     (Helpers.cleanUserInput "  5th   Avenue!! ")))
    by (vm_compute; left; reflexivity).
  split; [exact Hin |].
  exact (proj1 (proj1 (cleanUserInput_output "  5th   Avenue!! ") _ Hin)).
Defined.

(** [TAFT avenue] between blanks is recognised. *)
Lemma typed_station_is_recognised_for_taft :
  In "Taft Avenue" StationManager.getAllStations
  /\ CaseVariant (trim "  TAFT avenue  ") "Taft Avenue"
  /\ Helpers.cleanUserInput "  TAFT avenue  " = trim "  TAFT avenue  "
  /\ StationManager.validateStation (Helpers.cleanUserInput "  TAFT avenue  ")
     = Some "Taft Avenue".
Proof.
  assert (Hin : In "Taft Avenue" StationManager.getAllStations)
    by (apply existsb_eqb_In; vm_compute; reflexivity).
  assert (Hvariant : CaseVariant (trim "  TAFT avenue  ") "Taft Avenue")
    by (vm_compute; solve_case_variant).
  split; [exact Hin |]. split; [exact Hvariant |].
  destruct (typed_station_is_recognised "  TAFT avenue  " "Taft Avenue"
              Hin Hvariant) as (Hclean & _ & Hvalid).
  split; [exact Hclean | exact Hvalid].
Defined.

Lemma distinctUsers_talking : distinctUsers Cases.talking.
Proof.
  unfold distinctUsers. vm_compute.
  constructor; [intros [] | constructor].
Defined.

(** A minute later Bob writes: Alice's session stays. *)
Lemma _getUserSession_effect_for_bob :
  distinctUsers Cases.talking
  /\ 0 <= ConversationHandler.sessionTimeout Cases.talking
  /\ JsMap.get "alice"
       (ConversationHandler.userSessions
          (snd (ConversationHandler._getUserSession
                  (Samples.morning + 60000) "bob" Cases.talking)))
     = surviving Cases.talking (Samples.morning + 60000) "alice".
Proof.
  assert (Htimeout : 0 <= ConversationHandler.sessionTimeout Cases.talking)
    by (vm_compute; discriminate).
  split; [exact distinctUsers_talking |]. split; [exact Htimeout |].
  destruct (_getUserSession_effect (Samples.morning + 60000) "bob"
              Cases.talking distinctUsers_talking Htimeout)
    as (_ & _ & _ & _ & _ & _ & Hothers & _).
  apply Hothers. discriminate.
Defined.

(** The state set is the state read a second later. *)
Lemma state_kept_until_timeout_for_alice :
  distinctUsers Cases.talking
  /\ fst (ConversationHandler.getUserState (Samples.morning + 2000) "alice"
            (ConversationHandler._setUserState (Samples.morning + 1000) "alice"
               ConversationState.COMPLETED Cases.talking))
     = ConversationState.COMPLETED.
Proof.
  split; [exact distinctUsers_talking |].
  exact (proj1 (state_kept_until_timeout (Samples.morning + 1000)
                  (Samples.morning + 2000) "alice"
                  ConversationState.COMPLETED Cases.talking
                  distinctUsers_talking)).
Defined.

(** Two hours later the origin is gone. *)
Lemma data_kept_until_timeout_for_alice :
  distinctUsers Cases.talking
  /\ fst (ConversationHandler._getUserData (Samples.morning + 7200000) "alice"
            ConversationHandler.origin
            (ConversationHandler._setUserData Samples.morning "alice"
               ConversationHandler.origin (ConversationHandler.Text "Cubao")
               Cases.talking))
     = None.
Proof.
  split; [exact distinctUsers_talking |].
  exact (proj1 (data_kept_until_timeout Samples.morning
                  (Samples.morning + 7200000) "alice"
                  ConversationHandler.origin (ConversationHandler.Text "Cubao")
                  Cases.talking distinctUsers_talking)).
Defined.

(** After a restart Alice is in the initial state. *)
Lemma _clearUserSession_forgets_alice :
  distinctUsers Cases.talking
  /\ fst (ConversationHandler.getUserState (Samples.morning + 1000) "alice"
            (ConversationHandler._clearUserSession "alice" Cases.talking))
     = ConversationState.INITIAL.
Proof.
  split; [exact distinctUsers_talking |].
  destruct (_clearUserSession_forgets (Samples.morning + 1000) "alice"
              Cases.talking distinctUsers_talking)
    as (_ & _ & _ & _ & Hstate).
  exact Hstate.
Defined.

(** Without a browser the record is the simulated one. *)
Lemma RushScraper_scrape_resolves_without_browser :
  browser Samples.scraping = None
  /\ RushScraper.launch Cases.noBrowser
     = Throw "Failed to launch the browser process"
  /\ fst (RushScraper.scrapeTrainSchedule manila Cases.noBrowser
            Samples.scraping "Ayala" "Buendia" "MRT-3")
     = Normal (RushScraper._simulateTrainData manila
                 (RushScraper.clockStore Cases.noBrowser)
                 "Ayala" "Buendia" "MRT-3").
Proof.
  assert (Hnone : browser Samples.scraping = None) by reflexivity.
  assert (Hlaunch : RushScraper.launch Cases.noBrowser
                    = Throw "Failed to launch the browser process")
    by reflexivity.
  split; [exact Hnone |]. split; [exact Hlaunch |].
  destruct (RushScraper_scrape_resolves manila Cases.noBrowser
              Samples.scraping "Ayala" "Buendia" "MRT-3")
    as (record & Hrun & Hcase).
  assert (Hmiss : RushScraper.cachedData Samples.scraping
                    (RushScraper.clockCheck Cases.noBrowser)
                    (RushScraper._getCacheKey "Ayala" "Buendia") = None)
    by reflexivity.
  rewrite Hmiss in Hcase. destruct Hcase as (_ & _ & Hfallback).
  rewrite Hrun. f_equal. apply Hfallback. right. split; [exact Hnone |].
  exists "Failed to launch the browser process". exact Hlaunch.
Defined.

(** A page without station selectors gives no record. *)
Lemma only_the_DOM_gives_live_data_without_selectors :
  RushScraper._extractTrainDataFromPage manila Cases.noBrowser
    "Ayala" "Buendia" "MRT-3" = Normal None.
Proof.
  destruct (only_the_DOM_gives_live_data manila Cases.noBrowser
              "Ayala" "Buendia" "MRT-3") as (_ & _ & _ & Hnone).
  apply Hnone. intros selector _. discriminate.
Defined.

(** The timetable gives a live record of three trains. *)
Lemma RushScraper_live_record_of_timetable :
  exists record,
    RushScraper.cachedData Samples.scraping
      (RushScraper.clockCheck (Cases.visit Cases.timetable))
      (RushScraper._getCacheKey "Ayala" "Buendia") = None
    /\ fst (RushScraper.scrapeTrainSchedule manila (Cases.visit Cases.timetable)
              Samples.scraping "Ayala" "Buendia" "MRT-3") = Normal record
    /\ Schedule.simulated record = false
    /\ map TrainTime.time (Schedule.nextTrains record)
       = ["08:05"; "08:15"; "25:70"]
    /\ Forall liveTrain (Schedule.nextTrains record).
Proof.
  destruct (fst (RushScraper.scrapeTrainSchedule manila
                   (Cases.visit Cases.timetable) Samples.scraping
                   "Ayala" "Buendia" "MRT-3")) as [record | error] eqn:Hrun;
    [| vm_compute in Hrun; discriminate Hrun].
  exists record.
  assert (Hmiss : RushScraper.cachedData Samples.scraping
                    (RushScraper.clockCheck (Cases.visit Cases.timetable))
                    (RushScraper._getCacheKey "Ayala" "Buendia") = None)
    by reflexivity.
  assert (Hlive : Schedule.simulated record = false).
  { vm_compute in Hrun. injection Hrun as <-. reflexivity. }
  assert (Htimes : map TrainTime.time (Schedule.nextTrains record)
                   = ["08:05"; "08:15"; "25:70"]).
  { vm_compute in Hrun. injection Hrun as <-. reflexivity. }
  split; [exact Hmiss |]. split; [reflexivity |]. split; [exact Hlive |].
  split; [exact Htimes |].
  destruct (RushScraper_live_record manila (Cases.visit Cases.timetable)
              Samples.scraping "Ayala" "Buendia" "MRT-3" record Hmiss Hrun Hlive)
    as (_ & _ & _ & _ & _ & Htrains & _).
  exact Htrains.
Defined.

End FurtherInstances.
